(** * Alert evaluation and notification engine of the AR.IO gateway monitoring bot

    A shallow embedding of the alert dispatcher ([src/alerts/telegram.ts]) and of
    the periodic checks of the monitoring bot ([src/index.ts]), with the
    properties of cooldown deduplication, mute handling, alert history, the
    sustained-CPU rule, the counter-reset-safe error rate and the epoch checks.

    Conventions of the embedding.
    - Timestamps (milliseconds), monotone counters and integer settings are [Z].
    - Gauges and thresholds read with [parseFloat] are exact rationals [Q]; the
      rounding of IEEE doubles and the value [NaN] are not modelled.
    - [Date.now()] is an explicit argument [now] of every operation.
    - A call of [bot.telegram.sendMessage] is recorded as a [Notification]
      carrying the data the text is assembled from; a failure of the transport is
      caught and logged by the source, so every operation returns the new state
      together with the list of transport calls it made.
    - Writes to the database ([persistMuteState], [persistCategoryMutes]) and log
      lines have no influence on the dispatcher and are left out.

    The development also covers the mute commands of the dispatcher, the
    monitors the checks call (service health, certificate, containers, metrics,
    version, ArNS purchases) and the ArNS resolution check. What a monitor reads
    from the outside (an HTTP response, a certificate, the state of a container,
    a draw of [Math.random]) is an argument of its model. *)

From Stdlib Require Import ZArith QArith Qround Lia Lqa List Bool String Ascii.
From stdpp Require Import base gmap strings list fin_maps pretty.
Import ListNotations.
Local Open Scope Z_scope.

(** ** JavaScript idioms used by the source *)

Module JS.

(** [x || 0] for a number that may be [undefined]. *)
Definition orZero (x : option Z) : Z := default 0 x.

(** Truthiness of an optional number: defined and different from zero. *)
Definition truthy (x : option Z) : bool :=
  match x with
  | Some v => negb (v =? 0)
  | None => false
  end.

(** Truthiness of an optional string: defined and not empty. *)
Definition truthyString (x : option string) : bool :=
  match x with
  | Some s => negb (String.eqb s "")
  | None => false
  end.

(** [message.split('\n')[0]]: the characters before the first line feed. *)
Fixpoint firstLine (s : string) : string :=
  match s with
  | EmptyString => EmptyString
  | String c rest =>
      if Ascii.eqb c "010"%char then EmptyString else String c (firstLine rest)
  end.

(** [lines.join('\n')]. *)
Fixpoint joinLines (lines : list string) : string :=
  match lines with
  | [] => ""
  | [l] => l
  | l :: rest => l +:+ String "010"%char (joinLines rest)
  end.

End JS.

(** Number and date formatting of the JavaScript runtime. The texts produced are
    locale and engine dependent; the development is parametric in them. *)
Record Rendering := {
  numberToString : Q -> string;        (* a number inside a template literal *)
  toFixed : Q -> nat -> string;        (* Number.prototype.toFixed *)
  numberToLocaleString : Q -> string;  (* Number.prototype.toLocaleString *)
  dateToLocaleString : Z -> string     (* new Date(ts).toLocaleString() *)
}.

(** The rendering used in the concrete runs below. On integral values
    [numberToString] is the decimal rendering of JavaScript, and the numbers that
    enter a cooldown key in those runs are integral; the other three functions
    are stand-ins, and no statement depends on the text they produce. *)
Definition integralRendering : Rendering := {|
  numberToString q := pretty (Qfloor q);
  toFixed q _ := pretty (Qfloor q);
  numberToLocaleString q := pretty (Qfloor q);
  dateToLocaleString ts := pretty ts
|}.

(** ** Static configuration ([src/config.ts]) *)

Record Config := {
  alertCooldown : Z;                 (* config.monitoring.alertCooldown, ms *)
  cpuThreshold : Q;
  cpuDurationMinutes : Z;
  memoryThreshold : Q;
  diskThreshold : Q;
  responseTimeThreshold : Q;
  blockSyncLagThreshold : Q;
  arnsCacheHitRateThreshold : Q;
  errorRateThreshold : Q;
  errorRateMinRequests : Z;
  notSelectedEpochsThreshold : Z;
  lowObserverWeightThreshold : Q
}.

(** The values [config] takes when no environment variable overrides them. *)
Definition defaultConfig : Config := {|
  alertCooldown := 600 * 1000;
  cpuThreshold := 80;
  cpuDurationMinutes := 5;
  memoryThreshold := 90;
  diskThreshold := 85;
  responseTimeThreshold := 2000;
  blockSyncLagThreshold := 100;
  arnsCacheHitRateThreshold := 50;
  errorRateThreshold := 5;
  errorRateMinRequests := 100;
  notSelectedEpochsThreshold := 5;
  lowObserverWeightThreshold := 0.5
|}.

(** ** The alert dispatcher ([class TelegramBot]) *)

Inductive Severity := info | warning | critical.

Definition severityName (t : Severity) : string :=
  match t with
  | info => "info"
  | warning => "warning"
  | critical => "critical"
  end.

Inductive ResourceType := cpu | memory | disk | response_time | latency.

Definition resourceTypeName (t : ResourceType) : string :=
  match t with
  | cpu => "cpu"
  | memory => "memory"
  | disk => "disk"
  | response_time => "response_time"
  | latency => "latency"
  end.

Inductive PerformanceType := block_sync | arns_cache | error_rate.

Definition performanceTypeName (t : PerformanceType) : string :=
  match t with
  | block_sync => "block_sync"
  | arns_cache => "arns_cache"
  | error_rate => "error_rate"
  end.

Inductive ObserverAlertType := report_failed | not_selected | low_weight.

Definition observerAlertTypeName (t : ObserverAlertType) : string :=
  match t with
  | report_failed => "report_failed"
  | not_selected => "not_selected"
  | low_weight => "low_weight"
  end.

(** [details] of [sendPerformanceAlert]. *)
Record PerformanceDetails := {
  perf_current : Q;
  perf_threshold : Q;
  perf_additional : option string
}.

(** [details] of [sendObserverAlert]. *)
Record ObserverDetails := {
  obs_value : option Q;
  obs_threshold : option Q;
  obs_epochIndex : option Z;
  obs_additional : option string
}.

(** The fields of a gateway registry change that the dispatcher reads.
    [change_statusTarget] is the lower-cased text after the arrow of the entry of
    [change.changes] that starts with "status:", when there is one. *)
Record GatewayChange := {
  change_type : string;
  change_address : string;
  change_statusTarget : option string
}.

Record ArnsChange := {
  arns_type : string;
  arns_name : string
}.

Record AlertHistoryEntry := {
  entry_timestamp : Z;
  entry_type : string;
  entry_message : string;
  entry_severity : Severity
}.

(** One call of the notification channel. [severityText] is the word between the
    asterisks of the first line of the text; the last field of the first four
    kinds is the callback data of the Mute button. *)
Inductive Notification :=
| NAlert (type : Severity) (message : string) (muteButton : string)
| NResource (type : ResourceType) (severityText : string) (value threshold : Q)
    (muteButton : string)
| NPerformance (type : PerformanceType) (severityText : string)
    (details : PerformanceDetails) (muteButton : string)
| NObserver (type : ObserverAlertType) (severityText : string)
    (details : ObserverDetails) (muteButton : string)
| NGatewayChange (eventType : string) (change : GatewayChange)
| NArnsChange (change : ArnsChange).

Record TelegramBot := {
  lastAlertTime : gmap string Z;
  alertHistory : list AlertHistoryEntry;
  isMuted : bool;
  muteUntil : option Z;
  categoryMutes : gmap string Z
}.

(** State of a freshly constructed dispatcher. *)
Definition newTelegramBot : TelegramBot := {|
  lastAlertTime := ∅;
  alertHistory := [];
  isMuted := false;
  muteUntil := None;
  categoryMutes := ∅
|}.

Definition setLastAlertTime (key : string) (now : Z) (bot : TelegramBot) : TelegramBot := {|
  lastAlertTime := <[key := now]> (lastAlertTime bot);
  alertHistory := alertHistory bot;
  isMuted := isMuted bot;
  muteUntil := muteUntil bot;
  categoryMutes := categoryMutes bot
|}.

Definition setAlertHistory (h : list AlertHistoryEntry) (bot : TelegramBot) : TelegramBot := {|
  lastAlertTime := lastAlertTime bot;
  alertHistory := h;
  isMuted := isMuted bot;
  muteUntil := muteUntil bot;
  categoryMutes := categoryMutes bot
|}.

Definition setMuteState (muted : bool) (until : option Z) (bot : TelegramBot) : TelegramBot := {|
  lastAlertTime := lastAlertTime bot;
  alertHistory := alertHistory bot;
  isMuted := muted;
  muteUntil := until;
  categoryMutes := categoryMutes bot
|}.

Definition setCategoryMutes (m : gmap string Z) (bot : TelegramBot) : TelegramBot := {|
  lastAlertTime := lastAlertTime bot;
  alertHistory := alertHistory bot;
  isMuted := isMuted bot;
  muteUntil := muteUntil bot;
  categoryMutes := m
|}.

(** [this.lastAlertTime.get(alertKey) || 0]. *)
Definition lastAlert (key : string) (bot : TelegramBot) : Z :=
  JS.orZero (lastAlertTime bot !! key).

(** The "Clear mute if expired" block of [sendAlert]. *)
Definition clearExpiredMute (now : Z) (bot : TelegramBot) : TelegramBot :=
  if JS.truthy (muteUntil bot) && (JS.orZero (muteUntil bot) <=? now)
  then setMuteState false None bot
  else bot.

(** The "Clear expired category mutes" loop of [sendAlert]: every entry with
    [now >= muteTime] is deleted. *)
Definition clearExpiredCategoryMutes (now : Z) (bot : TelegramBot) : TelegramBot :=
  setCategoryMutes (filter (λ kv : string * Z, now < kv.2) (categoryMutes bot)) bot.

(** [this.isMuted && this.muteUntil && now < this.muteUntil]. *)
Definition globallyMuted (now : Z) (bot : TelegramBot) : bool :=
  isMuted bot && JS.truthy (muteUntil bot) && (now <? JS.orZero (muteUntil bot)).

(** [category && this.categoryMutes.has(category)] followed by
    [now < categoryMuteTime]. *)
Definition categoryMuted (now : Z) (category : option string) (bot : TelegramBot) : bool :=
  match category with
  | Some c =>
      JS.truthyString category &&
      match categoryMutes bot !! c with
      | Some categoryMuteTime => now <? categoryMuteTime
      | None => false
      end
  | None => false
  end.

(** The entry pushed by [sendAlert]; its [type] is the first line of the message,
    or the severity when that line is empty. *)
Definition historyEntry (now : Z) (type : Severity) (message : string) : AlertHistoryEntry := {|
  entry_timestamp := now;
  entry_type :=
    if String.eqb (JS.firstLine message) "" then severityName type
    else JS.firstLine message;
  entry_message := message;
  entry_severity := type
|}.

(** [push] followed by "Keep only last 100 alerts": one [shift] when the length
    has passed 100. *)
Definition pushHistory (e : AlertHistoryEntry) (h : list AlertHistoryEntry)
  : list AlertHistoryEntry :=
  let h' := h ++ [e] in
  if (100 <? length h')%nat then tail h' else h'.

Definition alertKeyOfAlert (type : Severity) (message : string) : string :=
  severityName type +:+ ":" +:+ message.

Definition sendAlert (cfg : Config) (now : Z) (type : Severity) (message : string)
    (category : option string) (bot : TelegramBot) : TelegramBot * list Notification :=
  let alertKey := alertKeyOfAlert type message in
  let lastAlert := lastAlert alertKey bot in
  let bot := clearExpiredMute now bot in
  let bot := clearExpiredCategoryMutes now bot in
  (* Check cooldown period first - don't even log duplicates *)
  if now - lastAlert <? alertCooldown cfg then (bot, [])
  else
    let bot := setAlertHistory (pushHistory (historyEntry now type message) (alertHistory bot)) bot in
    let bot := setLastAlertTime alertKey now bot in
    (* Check if globally muted - still add to history but don't send *)
    if globallyMuted now bot then (bot, [])
    else if categoryMuted now category bot then (bot, [])
    else
      let muteCategory :=
        if JS.truthyString category then default "" category else severityName type in
      (bot, [NAlert type message ("mute_menu:" +:+ muteCategory)]).

Section Dispatcher.

Variable R : Rendering.

Definition alertKeyOfResource (type : ResourceType) (threshold : Q) : string :=
  "resource:" +:+ resourceTypeName type +:+ ":" +:+ numberToString R threshold.

(** [value >= threshold * 1.2 ? 'CRITICAL' : 'WARNING']. *)
Definition resourceSeverityText (value threshold : Q) : string :=
  if Qle_bool (threshold * 1.2) value then "CRITICAL" else "WARNING".

Definition sendResourceAlert (cfg : Config) (now : Z) (type : ResourceType)
    (value threshold : Q) (bot : TelegramBot) : TelegramBot * list Notification :=
  let alertKey := alertKeyOfResource type threshold in
  let lastAlert := lastAlert alertKey bot in
  (* Respect cooldown period *)
  if now - lastAlert <? alertCooldown cfg then (bot, [])
  else
    let bot := setLastAlertTime alertKey now bot in
    (bot, [NResource type (resourceSeverityText value threshold) value threshold
             ("mute_menu:resource_" +:+ resourceTypeName type)]).

End Dispatcher.

Definition alertKeyOfPerformance (type : PerformanceType) : string :=
  "performance:" +:+ performanceTypeName type.

Definition sendPerformanceAlert (cfg : Config) (now : Z) (type : PerformanceType)
    (details : PerformanceDetails) (bot : TelegramBot) : TelegramBot * list Notification :=
  let alertKey := alertKeyOfPerformance type in
  let lastAlert := lastAlert alertKey bot in
  if now - lastAlert <? alertCooldown cfg then (bot, [])
  else
    let bot := setLastAlertTime alertKey now bot in
    let severityText := "PERFORMANCE DEGRADATION" in
    (bot, [NPerformance type severityText details
             ("mute_menu:performance_" +:+ performanceTypeName type)]).

Definition alertKeyOfObserver (type : ObserverAlertType) : string :=
  "observer:" +:+ observerAlertTypeName type.

Definition sendObserverAlert (cfg : Config) (now : Z) (type : ObserverAlertType)
    (details : ObserverDetails) (bot : TelegramBot) : TelegramBot * list Notification :=
  let alertKey := alertKeyOfObserver type in
  let lastAlert := lastAlert alertKey bot in
  if now - lastAlert <? alertCooldown cfg then (bot, [])
  else
    let bot := setLastAlertTime alertKey now bot in
    let severityText :=
      match type with report_failed => "CRITICAL" | _ => "WARNING" end in
    (bot, [NObserver type severityText details
             ("mute_menu:observer_" +:+ observerAlertTypeName type)]).

(** [change.type === 'left' || statusTarget === 'left' ? 'left' : change.type]. *)
Definition gatewayEventType (change : GatewayChange) : string :=
  if String.eqb (change_type change) "left"
     || match change_statusTarget change with
        | Some t => String.eqb t "left"
        | None => false
        end
  then "left" else change_type change.

Definition alertKeyOfGatewayChange (change : GatewayChange) : string :=
  "gateway:" +:+ gatewayEventType change +:+ ":" +:+ change_address change.

Definition sendGatewayChangeAlert (now : Z) (change : GatewayChange) (bot : TelegramBot)
  : TelegramBot * list Notification :=
  let alertKey := alertKeyOfGatewayChange change in
  let lastAlert := lastAlert alertKey bot in
  (* Don't send duplicate alerts within 5 minutes *)
  if now - lastAlert <? 300000 then (bot, [])
  else
    let bot := setLastAlertTime alertKey now bot in
    (bot, [NGatewayChange (gatewayEventType change) change]).

Definition alertKeyOfArnsChange (change : ArnsChange) : string :=
  "arns:" +:+ arns_type change +:+ ":" +:+ arns_name change.

Definition sendArnsChangeAlert (now : Z) (change : ArnsChange) (bot : TelegramBot)
  : TelegramBot * list Notification :=
  let alertKey := alertKeyOfArnsChange change in
  let lastAlert := lastAlert alertKey bot in
  (* Don't send duplicate alerts within 5 minutes *)
  if now - lastAlert <? 300000 then (bot, [])
  else
    let bot := setLastAlertTime alertKey now bot in
    (bot, [NArnsChange change]).

(** ** Calls of the dispatcher made by the periodic checks *)

(** One [await this.telegram.send...(...)] of a check. The optional [duration]
    argument of [sendResourceAlert] only adds a line to the text and is not kept. *)
Inductive AlertCall :=
| CallAlert (type : Severity) (message : string) (category : option string)
| CallResourceAlert (type : ResourceType) (value threshold : Q)
| CallPerformanceAlert (type : PerformanceType) (details : PerformanceDetails)
| CallObserverAlert (type : ObserverAlertType) (details : ObserverDetails)
| CallGatewayChangeAlert (change : GatewayChange)
| CallArnsChangeAlert (change : ArnsChange).

Definition dispatch (R : Rendering) (cfg : Config) (now : Z) (call : AlertCall)
    (bot : TelegramBot) : TelegramBot * list Notification :=
  match call with
  | CallAlert type message category => sendAlert cfg now type message category bot
  | CallResourceAlert type value threshold => sendResourceAlert R cfg now type value threshold bot
  | CallPerformanceAlert type details => sendPerformanceAlert cfg now type details bot
  | CallObserverAlert type details => sendObserverAlert cfg now type details bot
  | CallGatewayChangeAlert change => sendGatewayChangeAlert now change bot
  | CallArnsChangeAlert change => sendArnsChangeAlert now change bot
  end.

(** A sequence of dispatcher calls, each with the clock reading it sees. *)
Fixpoint dispatchAll (R : Rendering) (cfg : Config) (calls : list (Z * AlertCall))
    (bot : TelegramBot) : TelegramBot * list Notification :=
  match calls with
  | [] => (bot, [])
  | (now, call) :: rest =>
      let '(bot1, sent1) := dispatch R cfg now call bot in
      let '(bot2, sent2) := dispatchAll R cfg rest bot1 in
      (bot2, sent1 ++ sent2)
  end.

(** The [alertKey] computed by the operation a call enters. *)
Definition alertKeyOf (R : Rendering) (call : AlertCall) : string :=
  match call with
  | CallAlert type message _ => alertKeyOfAlert type message
  | CallResourceAlert type _ threshold => alertKeyOfResource R type threshold
  | CallPerformanceAlert type _ => alertKeyOfPerformance type
  | CallObserverAlert type _ => alertKeyOfObserver type
  | CallGatewayChangeAlert change => alertKeyOfGatewayChange change
  | CallArnsChangeAlert change => alertKeyOfArnsChange change
  end.

(** The duration each operation compares [now - lastAlert] with. *)
Definition cooldownWindow (cfg : Config) (call : AlertCall) : Z :=
  match call with
  | CallGatewayChangeAlert _ | CallArnsChangeAlert _ => 300000
  | _ => alertCooldown cfg
  end.

(** ** The periodic checks ([class MonitoringBot]) *)

Record CpuSample := {
  cpu_value : Q;
  cpu_timestamp : Z
}.

Record ErrorRateSample := {
  sample_errors : Z;
  sample_requests : Z;
  sample_timestamp : Z
}.

Record SelectionSample := {
  sel_epochIndex : Z;
  sel_selected : bool;
  sel_timestamp : Z
}.

Record PreviousMetrics := {
  prev_timestamp : Z;
  prev_blockHeight : option Q;
  prev_arnsResolutions : option Z;
  prev_errors : option Z;
  prev_totalRequests : option Z
}.

Record ObserverCheck := {
  check_epochIndex : Z;
  check_wasSelected : bool;
  check_hadReport : bool
}.

Record MonitoringBot := {
  cpuHistory : list CpuSample;
  previousMetrics : option PreviousMetrics;
  errorRateHistory : list ErrorRateSample;
  observerSelectionHistory : list SelectionSample;
  lastObserverCheck : option ObserverCheck
}.

Definition newMonitoringBot : MonitoringBot := {|
  cpuHistory := [];
  previousMetrics := None;
  errorRateHistory := [];
  observerSelectionHistory := [];
  lastObserverCheck := None
|}.

(** The fields of [DetailedMetrics] read by [checkResources]. *)
Record DetailedMetrics := {
  lastHeightImported : option Q;
  currentNetworkHeight : option Q;
  heightDifference : option Q;
  cpuUsagePercent : option Q;
  memoryUsagePercent : option Q;
  diskUsagePercent : option Q;
  httpRequestsTotal : option Z;
  averageResponseTimeMs : option Q;
  arnsResolutions : option Z;
  arnsCacheHitRate : option Q;
  arnsErrors : option Z
}.

(** *** Sustained CPU *)

(** [this.cpuHistory.filter(h => h.timestamp >= cutoffTime)] with
    [cutoffTime = now - cpuDurationMinutes * 60 * 1000]. *)
Definition samplesInWindow (cfg : Config) (now : Z) (history : list CpuSample) : list CpuSample :=
  let durationMs := cpuDurationMinutes cfg * 60 * 1000 in
  let cutoffTime := now - durationMs in
  List.filter (fun h => cutoffTime <=? cpu_timestamp h) history.

Definition recentHighCpu (cfg : Config) (now : Z) (history : list CpuSample) : list CpuSample :=
  let durationMs := cpuDurationMinutes cfg * 60 * 1000 in
  let cutoffTime := now - durationMs in
  List.filter
    (fun h => (cutoffTime <=? cpu_timestamp h) && Qle_bool (cpuThreshold cfg) (cpu_value h))
    history.

(** The push and the ten-minute pruning of [cpuHistory]. *)
Definition pushCpuSample (now : Z) (value : Q) (history : list CpuSample) : list CpuSample :=
  let history := history ++ [{| cpu_value := value; cpu_timestamp := now |}] in
  let tenMinutesAgo := now - 10 * 60 * 1000 in
  List.filter (fun h => tenMinutesAgo <? cpu_timestamp h) history.

(** The CPU block of [checkResources]: the new [cpuHistory] and the call made. *)
Definition checkCpu (cfg : Config) (now : Z) (cpuUsagePercent : option Q)
    (history : list CpuSample) : list CpuSample * list AlertCall :=
  match cpuUsagePercent with
  | None => (history, [])
  | Some value =>
      let history := pushCpuSample now value history in
      let high := recentHighCpu cfg now history in
      let window := samplesInWindow cfg now history in
      if (cpuDurationMinutes cfg <=? Z.of_nat (length window))
         && (length high =? length window)%nat
         && Qle_bool (cpuThreshold cfg) value
      then (history, [CallResourceAlert cpu value (cpuThreshold cfg)])
      else (history, [])
  end.

(** *** Instantaneous comparisons *)

(** [x !== undefined && x >= threshold] followed by a resource alert. *)
Definition checkAbove (type : ResourceType) (x : option Q) (threshold : Q) : list AlertCall :=
  match x with
  | Some v => if Qle_bool threshold v then [CallResourceAlert type v threshold] else []
  | None => []
  end.

Section Checks.

Variable R : Rendering.

(** [estimateSyncTime]. *)
Definition estimateSyncTime (blocksRemaining : Q) : string :=
  let avgBlocksPerMinute := 20%Q in
  let minutesRemaining := Qceiling (blocksRemaining / avgBlocksPerMinute) in
  if minutesRemaining <? 60 then
    "~" +:+ numberToString R (inject_Z minutesRemaining) +:+ " minutes"
  else if minutesRemaining <? 1440 then
    let hours := Qceiling (inject_Z minutesRemaining / 60) in
    "~" +:+ numberToString R (inject_Z hours) +:+ " hour" +:+ (if 1 <? hours then "s" else "")
  else
    let days := Qceiling (inject_Z minutesRemaining / 1440) in
    "~" +:+ numberToString R (inject_Z days) +:+ " day" +:+ (if 1 <? days then "s" else "").

Definition lineFeed : string := String "010"%char "".

(** The block-sync block of [checkResources]. *)
Definition checkBlockSync (cfg : Config) (metrics : DetailedMetrics) : list AlertCall :=
  match heightDifference metrics with
  | Some difference =>
      if negb (Qle_bool difference (blockSyncLagThreshold cfg)) then
        let estimatedTime := estimateSyncTime difference in
        let additionalInfo :=
          match lastHeightImported metrics, currentNetworkHeight metrics with
          | Some imported, Some network =>
              "Current: " +:+ numberToLocaleString R imported +:+ lineFeed +:+
              "Expected: " +:+ numberToLocaleString R network +:+ lineFeed +:+
              "Behind: " +:+ numberToLocaleString R difference +:+ " blocks" +:+
              (if JS.truthyString (Some estimatedTime)
               then lineFeed +:+ "Estimated catch-up: " +:+ estimatedTime else "")
          | _, _ =>
              if JS.truthyString (Some estimatedTime)
              then "Estimated catch-up time: " +:+ estimatedTime else ""
          end in
        [CallPerformanceAlert block_sync
           {| perf_current := difference;
              perf_threshold := blockSyncLagThreshold cfg;
              perf_additional :=
                if JS.truthyString (Some additionalInfo) then Some additionalInfo else None |}]
      else []
  | None => []
  end.

(** The ArNS cache block: a low value is the bad one. *)
Definition checkArnsCache (cfg : Config) (metrics : DetailedMetrics) : list AlertCall :=
  match arnsCacheHitRate metrics with
  | Some rate =>
      if negb (Qle_bool (arnsCacheHitRateThreshold cfg) rate) then
        [CallPerformanceAlert arns_cache
           {| perf_current := rate;
              perf_threshold := arnsCacheHitRateThreshold cfg;
              perf_additional := None |}]
      else []
  | None => []
  end.

(** *** Error rate *)

(** The [reduce] over the smoothing window: (sum of errors, sum of requests). *)
Definition aggregate (window : list ErrorRateSample) : Z * Z :=
  fold_left
    (fun acc sample => (acc.1 + sample_errors sample, acc.2 + sample_requests sample))
    window (0, 0).

(** [(aggregated.errors / aggregated.requests) * 100]. *)
Definition smoothedErrorRate (aggregated : Z * Z) : Q :=
  (inject_Z aggregated.1 / inject_Z aggregated.2) * 100.

(** The error-rate block of [checkResources]: the new [errorRateHistory] and the
    call made. *)
Definition checkErrorRate (cfg : Config) (now : Z) (metrics : DetailedMetrics)
    (previous : option PreviousMetrics) (history : list ErrorRateSample)
  : list ErrorRateSample * list AlertCall :=
  match previous, arnsErrors metrics, httpRequestsTotal metrics with
  | Some previousMetrics, Some errors, Some requests =>
      let rawErrorsDelta := errors - JS.orZero (prev_errors previousMetrics) in
      let rawRequestsDelta := requests - JS.orZero (prev_totalRequests previousMetrics) in
      (* Counter reset detected - clear history to avoid skewed calculations *)
      let history :=
        if (rawErrorsDelta <? 0) || (rawRequestsDelta <? 0) then [] else history in
      let errorsDelta := Z.max rawErrorsDelta 0 in
      let requestsDelta := Z.max rawRequestsDelta 0 in
      if 0 <? requestsDelta then
        let history :=
          history ++ [{| sample_errors := errorsDelta;
                         sample_requests := requestsDelta;
                         sample_timestamp := now |}] in
        let smoothingWindowMs := 10 * 60 * 1000 in
        let windowStart := now - smoothingWindowMs in
        let history := List.filter (fun sample => windowStart <=? sample_timestamp sample) history in
        let aggregated := aggregate history in
        if (errorRateMinRequests cfg <=? aggregated.2) && (0 <? aggregated.2) then
          let rate := smoothedErrorRate aggregated in
          if negb (Qle_bool rate (errorRateThreshold cfg)) then
            let additionalDetails :=
              numberToString R (inject_Z aggregated.1) +:+ " errors in " +:+
              numberToLocaleString R (inject_Z aggregated.2) +:+ " requests (last " +:+
              numberToString R (inject_Z (smoothingWindowMs / 60000)) +:+ " min)" +:+ lineFeed +:+
              numberToString R (inject_Z errorsDelta) +:+ " errors in " +:+
              numberToLocaleString R (inject_Z requestsDelta) +:+ " requests (latest interval)" in
            (history,
             [CallPerformanceAlert error_rate
                {| perf_current := rate;
                   perf_threshold := errorRateThreshold cfg;
                   perf_additional := Some additionalDetails |}])
          else (history, [])
        else (history, [])
      else (history, [])
  | _, _, _ => (history, [])
  end.

(** One run of [checkResources] on freshly fetched metrics. *)
Definition checkResources (cfg : Config) (now : Z) (metrics : DetailedMetrics)
    (bot : MonitoringBot) : MonitoringBot * list AlertCall :=
  let '(cpuHistory', cpuCalls) := checkCpu cfg now (cpuUsagePercent metrics) (cpuHistory bot) in
  let memoryCalls := checkAbove memory (memoryUsagePercent metrics) (memoryThreshold cfg) in
  let diskCalls := checkAbove disk (diskUsagePercent metrics) (diskThreshold cfg) in
  let responseCalls :=
    checkAbove response_time (averageResponseTimeMs metrics) (responseTimeThreshold cfg) in
  let blockCalls := checkBlockSync cfg metrics in
  let cacheCalls := checkArnsCache cfg metrics in
  let '(errorRateHistory', errorCalls) :=
    checkErrorRate cfg now metrics (previousMetrics bot) (errorRateHistory bot) in
  ({| cpuHistory := cpuHistory';
      previousMetrics :=
        Some {| prev_timestamp := now;
                prev_blockHeight := lastHeightImported metrics;
                prev_arnsResolutions := arnsResolutions metrics;
                prev_errors := arnsErrors metrics;
                prev_totalRequests := httpRequestsTotal metrics |};
      errorRateHistory := errorRateHistory';
      observerSelectionHistory := observerSelectionHistory bot;
      lastObserverCheck := lastObserverCheck bot |},
   cpuCalls ++ memoryCalls ++ diskCalls ++ responseCalls ++ blockCalls ++ cacheCalls
     ++ errorCalls).

(** Consecutive runs of [checkResources], each with its clock reading and the
    metrics it fetched. *)
Fixpoint resourceRuns (cfg : Config) (polls : list (Z * DetailedMetrics))
    (bot : MonitoringBot) : MonitoringBot * list AlertCall :=
  match polls with
  | [] => (bot, [])
  | (now, metrics) :: rest =>
      let '(bot1, calls1) := checkResources cfg now metrics bot in
      let '(bot2, calls2) := resourceRuns cfg rest bot1 in
      (bot2, calls1 ++ calls2)
  end.

End Checks.

(** ** Observer and epoch checks *)

(** What the AR.IO SDK returns for an epoch, reduced to what [getEpochStats]
    reads: the counts are the numbers of keys of [observations.reports] and of
    [observations.failureSummaries] and the length of [prescribedObservers], each
    0 when the field is absent. A missing timestamp is represented by 0, which
    the source treats like [undefined]. *)
Record EpochData := {
  epoch_epochIndex : Z;
  epoch_startTimestamp : Z;
  epoch_endTimestamp : Z;
  epoch_reportCount : Z;
  epoch_failureSummaryCount : Z;
  epoch_prescribedObserverCount : Z
}.

Record Distributions := {
  dist_totalEligibleGateways : option Z;
  dist_totalEligibleRewards : option Q;
  dist_totalDistributedRewards : option Q;
  dist_totalEligibleObserverReward : option Q;
  dist_totalEligibleGatewayReward : option Q;
  dist_distributedTimestamp : option Z
}.

(** The SDK client [this.ario]; [None] is a rejected promise. *)
Record Ario := {
  getEpoch : Z -> option EpochData;
  getCurrentEpoch : option EpochData;
  getDistributions : Z -> option Distributions
}.

Record EpochStats := {
  stats_epochIndex : Z;
  stats_startTimestamp : Z;
  stats_endTimestamp : Z;
  stats_distributionTimestamp : option Z;
  stats_totalEligibleGateways : Z;
  stats_totalEligibleRewards : Q;
  stats_observerReward : Q;
  stats_gatewayReward : Q;
  stats_totalDistributedRewards : option Q;
  stats_distributionPercentage : option Q;
  stats_observationCount : option Z;
  stats_totalObservers : option Z;
  stats_observationPercentage : option Q;
  stats_gatewaysPassed : option Z;
  stats_gatewaysFailed : option Z;
  stats_passPercentage : option Q;
  stats_failPercentage : option Q;
  stats_isDistributed : bool
}.

Definition orZeroQ (x : option Q) : Q := default 0%Q x.

(** [ObserverMonitor.getEpochStats]; [None] when it throws. *)
Definition getEpochStats (ario : Ario) (epochIndex : option Z) : option EpochStats :=
  epoch ← (if JS.truthy epochIndex then getEpoch ario (JS.orZero epochIndex)
           else getCurrentEpoch ario);
  distributions ← getDistributions ario (epoch_epochIndex epoch);
  let observationCount := epoch_reportCount epoch in
  let totalObservers := epoch_prescribedObserverCount epoch in
  let observationPercentage :=
    if 0 <? totalObservers
    then (inject_Z observationCount / inject_Z totalObservers * 100)%Q else 0%Q in
  let gatewaysFailed := epoch_failureSummaryCount epoch in
  let totalEligibleGateways := JS.orZero (dist_totalEligibleGateways distributions) in
  let gatewaysPassed := totalEligibleGateways - gatewaysFailed in
  let passPercentage :=
    if 0 <? totalEligibleGateways
    then (inject_Z gatewaysPassed / inject_Z totalEligibleGateways * 100)%Q else 0%Q in
  let failPercentage :=
    if 0 <? totalEligibleGateways
    then (inject_Z gatewaysFailed / inject_Z totalEligibleGateways * 100)%Q else 0%Q in
  let totalEligibleRewards := (orZeroQ (dist_totalEligibleRewards distributions) / 1000000)%Q in
  let totalDistributedRewards :=
    (orZeroQ (dist_totalDistributedRewards distributions) / 1000000)%Q in
  let distributionPercentage :=
    if negb (Qle_bool totalEligibleRewards 0)
    then (totalDistributedRewards / totalEligibleRewards * 100)%Q else 0%Q in
  let observerReward :=
    (orZeroQ (dist_totalEligibleObserverReward distributions) / 1000000
     / inject_Z (Z.max 1 totalObservers))%Q in
  let gatewayReward :=
    (orZeroQ (dist_totalEligibleGatewayReward distributions) / 1000000
     / inject_Z (Z.max 1 totalEligibleGateways))%Q in
  Some {| stats_epochIndex := epoch_epochIndex epoch;
          stats_startTimestamp := epoch_startTimestamp epoch;
          stats_endTimestamp := epoch_endTimestamp epoch;
          stats_distributionTimestamp := dist_distributedTimestamp distributions;
          stats_totalEligibleGateways := totalEligibleGateways;
          stats_totalEligibleRewards := totalEligibleRewards;
          stats_observerReward := observerReward;
          stats_gatewayReward := gatewayReward;
          stats_totalDistributedRewards := Some totalDistributedRewards;
          stats_distributionPercentage := Some distributionPercentage;
          stats_observationCount := Some observationCount;
          stats_totalObservers := Some totalObservers;
          stats_observationPercentage := Some observationPercentage;
          stats_gatewaysPassed := Some gatewaysPassed;
          stats_gatewaysFailed := Some gatewaysFailed;
          stats_passPercentage := Some passPercentage;
          stats_failPercentage := Some failPercentage;
          stats_isDistributed := JS.truthy (dist_distributedTimestamp distributions) |}.

(** What [checkObserver] reads of an [ObserverStatus]. *)
Record ObserverStatus := {
  status_epochIndex : Z;
  status_isSelectedAsObserver : bool;
  status_observerWeight : option Q;
  status_epochEndTimestamp : option Z;
  status_hasSubmittedReport : option bool
}.

Inductive EpochEvent := started | ended.

(** [array.slice(start)]. *)
Definition sliceFrom {A : Type} (start : Z) (l : list A) : list A :=
  if start <? 0
  then drop (Z.to_nat (Z.max (Z.of_nat (length l) + start) 0)) l
  else drop (Z.to_nat start) l.

Section ObserverChecks.

Variable R : Rendering.

Definition showZ (n : Z) : string := numberToString R (inject_Z n).

Definition formatDateTime (timestamp : Z) : string :=
  if timestamp =? 0 then "N/A" else dateToLocaleString R timestamp.

Definition formatDuration (startTimestamp endTimestamp : Z) : string :=
  if (startTimestamp =? 0) || (endTimestamp =? 0) || (endTimestamp <=? startTimestamp)
  then "N/A"
  else
    let durationMs := endTimestamp - startTimestamp in
    let durationMinutes := durationMs / 60000 in
    let hours := durationMinutes / 60 in
    let minutes := Z.rem durationMinutes 60 in
    if 0 <? hours then showZ hours +:+ "h " +:+ showZ minutes +:+ "m"
    else showZ minutes +:+ "m".

(** First line of an epoch message. *)
Definition epochHeader (event : EpochEvent) (epochIndex : Z) : string :=
  let headerEmoji := match event with started => "🚀" | ended => "✅" end in
  let headerVerb := match event with started => "Started" | ended => "Ended" end in
  headerEmoji +:+ " *Epoch " +:+ showZ epochIndex +:+ " " +:+ headerVerb +:+ "*".

Definition formatEpochChangeMessage (event : EpochEvent) (stats : EpochStats) : string :=
  let header := [epochHeader event (stats_epochIndex stats)] in
  let times :=
    match event with
    | started =>
        ["Start: " +:+ formatDateTime (stats_startTimestamp stats);
         "Planned End: " +:+ formatDateTime (stats_endTimestamp stats)]
    | ended =>
        ["Ended: " +:+ formatDateTime (stats_endTimestamp stats);
         "Duration: " +:+
           formatDuration (stats_startTimestamp stats) (stats_endTimestamp stats)]
    end in
  let observers :=
    match stats_totalObservers stats, stats_observationCount stats,
          stats_observationPercentage stats with
    | Some total, Some count, Some percentage =>
        ["Reports Submitted: " +:+ showZ count +:+ "/" +:+ showZ total +:+ " (" +:+
         toFixed R percentage 1 +:+ "%)"]
    | _, _, _ => ["Reports Submitted: Data unavailable"]
    end in
  let rewards :=
    ["Eligible Rewards: " +:+ toFixed R (stats_totalEligibleRewards stats) 2 +:+ " ARIO"] in
  let distribution :=
    if stats_isDistributed stats then
      ("Distributed: " +:+
         match stats_totalDistributedRewards stats with
         | Some d => toFixed R d 2
         | None => "0"
         end +:+ " ARIO (" +:+
         match stats_distributionPercentage stats with
         | Some p => toFixed R p 1
         | None => "0"
         end +:+ "%)")
      :: match stats_gatewaysPassed stats, stats_gatewaysFailed stats,
               stats_passPercentage stats, stats_failPercentage stats with
         | Some passed, Some failed, Some pass, Some fail =>
             ["Pass: " +:+ showZ passed +:+ " (" +:+ toFixed R pass 1 +:+ "%) | Fail: " +:+
              showZ failed +:+ " (" +:+ toFixed R fail 1 +:+ "%)"]
         | _, _, _, _ => []
         end
    else ["Distribution: Pending"] in
  JS.joinLines
    (header ++ times ++ [""; "*Observers*"] ++ observers ++ [""; "*Rewards*"] ++ rewards
       ++ distribution).

(** The two summaries sent when the epoch index has changed; a summary whose
    statistics cannot be fetched is skipped (the [catch] only logs). *)
Definition epochChangeCalls (ario : Ario) (previousEpoch : option Z) (status : ObserverStatus)
  : list AlertCall :=
  let epochChanged :=
    match previousEpoch with
    | Some previous => negb (status_epochIndex status =? previous)
    | None => false
    end in
  if epochChanged then
    match previousEpoch with
    | Some previous =>
        match getEpochStats ario (Some previous) with
        | Some previousStats =>
            [CallAlert info (formatEpochChangeMessage ended previousStats) (Some "epoch")]
        | None => []
        end
    | None => []
    end
    ++
    match getEpochStats ario (Some (status_epochIndex status)) with
    | Some currentStats =>
        [CallAlert info (formatEpochChangeMessage started currentStats) (Some "epoch")]
    | None => []
    end
  else [].

(** [this.lastObserverCheck?.epochIndex !== status.epochIndex]. *)
Definition epochDiffersFromLastCheck (lastCheck : option ObserverCheck) (status : ObserverStatus)
  : bool :=
  match lastCheck with
  | Some c => negb (check_epochIndex c =? status_epochIndex status)
  | None => true
  end.

(** The "selected and no report" block. *)
Definition reportCalls (now : Z) (lastCheck : option ObserverCheck) (status : ObserverStatus)
  : list AlertCall :=
  if status_isSelectedAsObserver status && negb (default false (status_hasSubmittedReport status))
  then
    let timeRemaining :=
      if JS.truthy (status_epochEndTimestamp status)
      then JS.orZero (status_epochEndTimestamp status) - now else 0 in
    let hoursRemaining := timeRemaining / 3600000 in
    (if (hoursRemaining <? 12) && (0 <? hoursRemaining) then
       [CallAlert warning
          ("⚠️ No observation report submitted!" +:+ lineFeed +:+ lineFeed +:+
           "Epoch: " +:+ showZ (status_epochIndex status) +:+ lineFeed +:+
           "Time remaining: " +:+ showZ hoursRemaining +:+ " hours" +:+ lineFeed +:+
           "Action: Submit observations now!")
          (Some "observer_report")]
     else [])
    ++
    (if (hoursRemaining <=? 0) && epochDiffersFromLastCheck lastCheck status then
       [CallObserverAlert report_failed
          {| obs_value := None;
             obs_threshold := None;
             obs_epochIndex := Some (status_epochIndex status);
             obs_additional := Some "Epoch deadline has passed" |}]
     else [])
  else [].

(** The selection-history block: the new history, the call made, and whether
    the block ran to its end ([recentHistory[0].epochIndex] throws on an empty
    slice, which leaves the rest of the check undone). *)
Definition selectionCalls (cfg : Config) (now : Z) (lastCheck : option ObserverCheck)
    (status : ObserverStatus) (history : list SelectionSample)
  : list SelectionSample * list AlertCall * bool :=
  if epochDiffersFromLastCheck lastCheck status then
    let history :=
      history ++ [{| sel_epochIndex := status_epochIndex status;
                     sel_selected := status_isSelectedAsObserver status;
                     sel_timestamp := now |}] in
    let history := if (20 <? length history)%nat then tail history else history in
    let recentHistory := sliceFrom (- notSelectedEpochsThreshold cfg) history in
    if notSelectedEpochsThreshold cfg <=? Z.of_nat (length recentHistory) then
      let allNotSelected := forallb (fun h => negb (sel_selected h)) recentHistory in
      if allNotSelected then
        match head recentHistory, last recentHistory with
        | Some first, Some final =>
            (history,
             [CallObserverAlert not_selected
                {| obs_value := Some (inject_Z (notSelectedEpochsThreshold cfg));
                   obs_threshold := Some (inject_Z (notSelectedEpochsThreshold cfg));
                   obs_epochIndex := None;
                   obs_additional :=
                     Some ("Epochs " +:+ showZ (sel_epochIndex first) +:+ " - " +:+
                           showZ (sel_epochIndex final)) |}],
             true)
        | _, _ => (history, [], false)
        end
      else (history, [], true)
    else (history, [], true)
  else (history, [], true).

Definition weightCalls (cfg : Config) (status : ObserverStatus) : list AlertCall :=
  match status_observerWeight status with
  | Some weight =>
      if negb (Qle_bool (lowObserverWeightThreshold cfg) weight) then
        [CallObserverAlert low_weight
           {| obs_value := Some weight;
              obs_threshold := Some (lowObserverWeightThreshold cfg);
              obs_epochIndex := None;
              obs_additional := Some "Lower weights reduce selection probability" |}]
      else []
  | None => []
  end.

(** One run of [checkObserver] on a freshly fetched status. *)
Definition checkObserver (cfg : Config) (ario : Ario) (now : Z) (status : ObserverStatus)
    (bot : MonitoringBot) : MonitoringBot * list AlertCall :=
  let previousEpoch := check_epochIndex <$> lastObserverCheck bot in
  let calls1 := epochChangeCalls ario previousEpoch status in
  let calls2 := reportCalls now (lastObserverCheck bot) status in
  let '(history, calls3, completed) :=
    selectionCalls cfg now (lastObserverCheck bot) status (observerSelectionHistory bot) in
  if completed then
    ({| cpuHistory := cpuHistory bot;
        previousMetrics := previousMetrics bot;
        errorRateHistory := errorRateHistory bot;
        observerSelectionHistory := history;
        lastObserverCheck :=
          Some {| check_epochIndex := status_epochIndex status;
                  check_wasSelected := status_isSelectedAsObserver status;
                  check_hadReport := default false (status_hasSubmittedReport status) |} |},
     calls1 ++ calls2 ++ calls3 ++ weightCalls cfg status)
  else
    ({| cpuHistory := cpuHistory bot;
        previousMetrics := previousMetrics bot;
        errorRateHistory := errorRateHistory bot;
        observerSelectionHistory := history;
        lastObserverCheck := lastObserverCheck bot |},
     calls1 ++ calls2 ++ calls3).

(** Consecutive runs of [checkObserver], each with its clock reading and the
    status it fetched. *)
Fixpoint observerRuns (cfg : Config) (ario : Ario) (polls : list (Z * ObserverStatus))
    (bot : MonitoringBot) : MonitoringBot * list AlertCall :=
  match polls with
  | [] => (bot, [])
  | (now, status) :: rest =>
      let '(bot1, calls1) := checkObserver cfg ario now status bot in
      let '(bot2, calls2) := observerRuns cfg ario rest bot1 in
      (bot2, calls1 ++ calls2)
  end.

End ObserverChecks.

(** ** Predicates used in the statements *)

(** An informational alert handed to [sendAlert]. *)
Definition isInfoAlert (call : AlertCall) : bool :=
  match call with
  | CallAlert info _ _ => true
  | _ => false
  end.

(** The "report failed" alert handed to [sendObserverAlert]. *)
Definition isReportFailed (call : AlertCall) : bool :=
  match call with
  | CallObserverAlert report_failed _ => true
  | _ => false
  end.

(** The time recorded under [key] is at least [since]. *)
Definition recordedSince (key : string) (since : Z) (bot : TelegramBot) : Prop :=
  exists t, lastAlertTime bot !! key = Some t /\ since <= t.

(** Samples of the smoothing window have no negative error count and a positive
    request count. *)
Definition windowWellFormed (window : list ErrorRateSample) : Prop :=
  Forall (fun sample => 0 <= sample_errors sample /\ 0 < sample_requests sample) window.

(** ** Data of the concrete runs *)

(** A dispatcher whose history buffer holds 100 entries. *)
Definition fullHistoryBot : TelegramBot :=
  setAlertHistory (replicate 100 (historyEntry 1600000000000 info "old")) newTelegramBot.

(** A dispatcher globally muted until [1700003600000] (set by [setMute] with "1h"
    at [1700000000000]). *)
Definition globallyMutedBot : TelegramBot :=
  setMuteState true (Some (1700000000000 + 60 * 60 * 1000)) newTelegramBot.

(** A dispatcher on which the category "resource_cpu" was muted for one hour at
    [1700000000000] (the Mute button of a CPU alert, then "1 hour"). *)
Definition cpuCategoryMutedBot : TelegramBot :=
  setCategoryMutes (<["resource_cpu" := 1700000000000 + 3600000]> ∅) newTelegramBot.



(** A gateway joining the registry. *)
Definition gatewayJoined : GatewayChange :=
  {| change_type := "joined";
     change_address := "QGWqtJdLLgm2ehFWiiPzMaoFLD50CnGuzZIPEdoDRGQ";
     change_statusTarget := None |}.

(** The CPU history after the samples 85, 86 and 84 at 0 s, 60 s and 120 s. *)
Definition cpuAfterThree : list CpuSample :=
  [{| cpu_value := 85; cpu_timestamp := 0 |};
   {| cpu_value := 86; cpu_timestamp := 60000 |};
   {| cpu_value := 84; cpu_timestamp := 120000 |}].


(** A block-sync alert 2000 blocks behind against the threshold 100. *)
Definition blockSyncFarBehind : PerformanceDetails :=
  {| perf_current := 2000; perf_threshold := 100; perf_additional := None |}.

(** Metrics in which only the two counters of the error rate are available. *)
Definition countersOnly (errors requests : Z) : DetailedMetrics :=
  {| lastHeightImported := None;
     currentNetworkHeight := None;
     heightDifference := None;
     cpuUsagePercent := None;
     memoryUsagePercent := None;
     diskUsagePercent := None;
     httpRequestsTotal := Some requests;
     averageResponseTimeMs := None;
     arnsResolutions := None;
     arnsCacheHitRate := None;
     arnsErrors := Some errors |}.



(** The previous metrics and the window before the poll of the reset. *)
Definition metricsBeforeReset : PreviousMetrics :=
  {| prev_timestamp := 120000;
     prev_blockHeight := None;
     prev_arnsResolutions := None;
     prev_errors := Some 18;
     prev_totalRequests := Some 1200 |}.

Definition windowBeforeReset : list ErrorRateSample :=
  [{| sample_errors := 5; sample_requests := 100; sample_timestamp := 60000 |};
   {| sample_errors := 3; sample_requests := 100; sample_timestamp := 120000 |}].

(** Epoch 120 ends at [1700000000000]; the gateway is a prescribed observer and
    has not submitted its report. *)
Definition selectedWithoutReport : ObserverStatus :=
  {| status_epochIndex := 120;
     status_isSelectedAsObserver := true;
     status_observerWeight := None;
     status_epochEndTimestamp := Some 1700000000000;
     status_hasSubmittedReport := Some false |}.

(** The first poll of epoch 120 comes five hours before its end, the second one
    second after it. *)
Definition pollsAcrossDeadline : list (Z * ObserverStatus) :=
  [(1700000000000 - 5 * 3600000, selectedWithoutReport);
   (1700000000000 + 1000, selectedWithoutReport)].

Definition epoch121 : EpochData :=
  {| epoch_epochIndex := 121;
     epoch_startTimestamp := 1700000000000;
     epoch_endTimestamp := 1700086400000;
     epoch_reportCount := 0;
     epoch_failureSummaryCount := 0;
     epoch_prescribedObserverCount := 50 |}.

Definition noDistributions : Distributions :=
  {| dist_totalEligibleGateways := None;
     dist_totalEligibleRewards := None;
     dist_totalDistributedRewards := None;
     dist_totalEligibleObserverReward := None;
     dist_totalEligibleGatewayReward := None;
     dist_distributedTimestamp := None |}.

(** An SDK that serves the current epoch 121 and fails on every other epoch. *)
Definition currentEpochOnly : Ario :=
  {| getEpoch index := if index =? 121 then Some epoch121 else None;
     getCurrentEpoch := Some epoch121;
     getDistributions index := if index =? 121 then Some noDistributions else None |}.

(** The state after a check made during epoch 120. *)
Definition checkedInEpoch120 : MonitoringBot :=
  {| cpuHistory := [];
     previousMetrics := None;
     errorRateHistory := [];
     observerSelectionHistory :=
       [{| sel_epochIndex := 120; sel_selected := false; sel_timestamp := 1699990000000 |}];
     lastObserverCheck :=
       Some {| check_epochIndex := 120; check_wasSelected := false; check_hadReport := false |} |}.

(** The status fetched at the first check of epoch 121. *)
Definition firstStatusOfEpoch121 : ObserverStatus :=
  {| status_epochIndex := 121;
     status_isSelectedAsObserver := false;
     status_observerWeight := None;
     status_epochEndTimestamp := Some 1700086400000;
     status_hasSubmittedReport := Some false |}.

(** ** Mute commands of the dispatcher *)

(** [parseInt(text, 10)]: leading white space is skipped, then an optional sign,
    then the longest run of decimal digits; [None] stands for [NaN] (no digit).
    Strings are held as UTF-8 bytes, so the white space characters beyond ASCII
    appear as their byte sequences. The rounding of results beyond 2^53 is not
    modelled. *)
Definition digitValue (c : ascii) : option Z :=
  let code := Z.of_N (N_of_ascii c) in
  if (48 <=? code) && (code <=? 57) then Some (code - 48) else None.

Fixpoint parseDigits (acc : option Z) (s : string) : option Z :=
  match s with
  | EmptyString => acc
  | String c rest =>
      match digitValue c with
      | Some d => parseDigits (Some (10 * default 0 acc + d)) rest
      | None => acc
      end
  end.

Definition isAsciiWhiteSpace (c : ascii) : bool :=
  let code := Z.of_N (N_of_ascii c) in
  ((9 <=? code) && (code <=? 13)) || (code =? 32).

(** The three-byte white space characters: U+1680, U+2000 to U+200A, U+2028,
    U+2029, U+202F, U+205F, U+3000 and U+FEFF. *)
Definition isWhiteSpace3 (c1 c2 c3 : ascii) : bool :=
  let b1 := Z.of_N (N_of_ascii c1) in
  let b2 := Z.of_N (N_of_ascii c2) in
  let b3 := Z.of_N (N_of_ascii c3) in
  ((b1 =? 225) && (b2 =? 154) && (b3 =? 128))
  || ((b1 =? 226) && (b2 =? 128)
      && (((128 <=? b3) && (b3 <=? 138)) || (b3 =? 168) || (b3 =? 169) || (b3 =? 175)))
  || ((b1 =? 226) && (b2 =? 129) && (b3 =? 159))
  || ((b1 =? 227) && (b2 =? 128) && (b3 =? 128))
  || ((b1 =? 239) && (b2 =? 187) && (b3 =? 191)).

Fixpoint skipWhiteSpace (s : string) : string :=
  match s with
  | String c1 rest1 =>
      if isAsciiWhiteSpace c1 then skipWhiteSpace rest1
      else
        match rest1 with
        | String c2 rest2 =>
            (* U+00A0 *)
            if (Z.of_N (N_of_ascii c1) =? 194) && (Z.of_N (N_of_ascii c2) =? 160)
            then skipWhiteSpace rest2
            else
              match rest2 with
              | String c3 rest3 =>
                  if isWhiteSpace3 c1 c2 c3 then skipWhiteSpace rest3 else s
              | EmptyString => s
              end
        | EmptyString => s
        end
  | EmptyString => s
  end.

Definition parseInt10 (text : string) : option Z :=
  match skipWhiteSpace text with
  | String "-" rest => Z.opp <$> parseDigits None rest
  | String "+" rest => parseDigits None rest
  | s => parseDigits None s
  end.

(** [handleUnmute] (the /unmute command). *)
Definition handleUnmute (bot : TelegramBot) : TelegramBot :=
  setMuteState false None bot.

(** [setMute] (the buttons "mute_1h", "mute_6h", "mute_24h"); an unknown
    duration is answered with "Invalid duration" and changes nothing. *)
Definition setMute (now : Z) (duration : string) (bot : TelegramBot) : TelegramBot :=
  let mute muteMs := setMuteState true (Some (now + muteMs)) bot in
  if String.eqb duration "1h" then mute (60 * 60 * 1000)
  else if String.eqb duration "6h" then mute (6 * 60 * 60 * 1000)
  else if String.eqb duration "24h" then mute (24 * 60 * 60 * 1000)
  else if String.eqb duration "unmute" then setMuteState false None bot
  else bot.

(** The handler of "mute_cat:<category>:<duration>". *)
Definition muteCategory (now : Z) (category duration : string) (bot : TelegramBot)
  : TelegramBot :=
  if String.eqb duration "infinite" then
    (* 10 years ~= infinite *)
    setCategoryMutes (<[category := now + 315360000000]> (categoryMutes bot)) bot
  else
    match parseInt10 duration with
    | None => bot
    | Some ms => setCategoryMutes (<[category := now + ms]> (categoryMutes bot)) bot
    end.

(** The handler of "unmute_cat:<category>". *)
Definition unmuteCategory (category : string) (bot : TelegramBot) : TelegramBot :=
  setCategoryMutes (delete category (categoryMutes bot)) bot.

(** The handler of "unmute_all_cats". *)
Definition unmuteAllCategories (bot : TelegramBot) : TelegramBot :=
  setCategoryMutes ∅ bot.

(** The categories offered by the /unmute_category command: those whose mute has
    not run out at [now]. *)
Definition mutedCategories (now : Z) (bot : TelegramBot) : gmap string Z :=
  filter (λ kv : string * Z, now < kv.2) (categoryMutes bot).

(** ** Kinds of dispatcher calls *)

(** The operation a call enters. *)
Inductive CallKind :=
| GenericKind | ResourceKind | PerformanceKind | ObserverKind | GatewayKind | ArnsKind.

Definition callKind (call : AlertCall) : CallKind :=
  match call with
  | CallAlert _ _ _ => GenericKind
  | CallResourceAlert _ _ _ => ResourceKind
  | CallPerformanceAlert _ _ => PerformanceKind
  | CallObserverAlert _ _ => ObserverKind
  | CallGatewayChangeAlert _ => GatewayKind
  | CallArnsChangeAlert _ => ArnsKind
  end.

(** First character of a string. *)
Definition initial (s : string) : option ascii :=
  match s with
  | String c _ => Some c
  | EmptyString => None
  end.

(** ** Predicates on the calls of the observer check *)

(** The "not selected" alert handed to [sendObserverAlert]. *)
Definition isNotSelected (call : AlertCall) : bool :=
  match call with
  | CallObserverAlert not_selected _ => true
  | _ => false
  end.

(** The sample [checkObserver] appends for a status. *)
Definition selectionSample (now : Z) (status : ObserverStatus) : SelectionSample :=
  {| sel_epochIndex := status_epochIndex status;
     sel_selected := status_isSelectedAsObserver status;
     sel_timestamp := now |}.

(** The state after checks of the epochs 117 to 120, in none of which the gateway
    was selected. *)
Definition notSelectedSinceEpoch117 : MonitoringBot :=
  {| cpuHistory := [];
     previousMetrics := None;
     errorRateHistory := [];
     observerSelectionHistory :=
       [{| sel_epochIndex := 117; sel_selected := false; sel_timestamp := 1699740000000 |};
        {| sel_epochIndex := 118; sel_selected := false; sel_timestamp := 1699826400000 |};
        {| sel_epochIndex := 119; sel_selected := false; sel_timestamp := 1699912800000 |};
        {| sel_epochIndex := 120; sel_selected := false; sel_timestamp := 1699999200000 |}];
     lastObserverCheck :=
       Some {| check_epochIndex := 120; check_wasSelected := false; check_hadReport := false |} |}.

(** What [getMetrics] returns when fetching fails: no field at all. *)
Definition noMetrics : DetailedMetrics :=
  {| lastHeightImported := None;
     currentNetworkHeight := None;
     heightDifference := None;
     cpuUsagePercent := None;
     memoryUsagePercent := None;
     diskUsagePercent := None;
     httpRequestsTotal := None;
     averageResponseTimeMs := None;
     arnsResolutions := None;
     arnsCacheHitRate := None;
     arnsErrors := None |}.

(** ** Service health ([src/monitors/health.ts], [checkHealth] of [src/index.ts]) *)

Record HealthResult := {
  isHealthy : bool;
  uptime : option Q;
  responseTime : Z;
  health_error : option string
}.

Inductive OverallHealth := healthy | degraded | down.

Record GatewayHealth := {
  health_timestamp : Z;
  health_core : HealthResult;
  health_observer : HealthResult;
  health_overall : OverallHealth
}.

(** What [axios.get] does with [validateStatus: (status) => status === 200]: it
    resolves on a status 200, with [response.data?.uptime], and throws on anything
    else (another status, a timeout, a network error), with a message. *)
Inductive ServiceResponse :=
| Responded (uptime : option Q)
| Failed (message : string).

Module HealthMonitor.

(** [checkService]; [startTime] and [endTime] are the two readings of
    [Date.now()]. *)
Definition checkService (startTime endTime : Z) (response : ServiceResponse) : HealthResult :=
  let responseTime := endTime - startTime in
  match response with
  | Responded uptime =>
      {| isHealthy := true; uptime := uptime; responseTime := responseTime;
         health_error := None |}
  | Failed message =>
      {| isHealthy := false; uptime := None; responseTime := responseTime;
         health_error := Some message |}
  end.

(** [checkHealth] on the results of the two [checkService] calls. *)
Definition checkHealth (timestamp : Z) (core observer : HealthResult) : GatewayHealth :=
  let overall :=
    if negb (isHealthy core) && negb (isHealthy observer) then down
    else if negb (isHealthy core) || negb (isHealthy observer) then degraded
    else healthy in
  {| health_timestamp := timestamp;
     health_core := core;
     health_observer := observer;
     health_overall := overall |}.

End HealthMonitor.

(** [this.previousHealth] of the monitoring bot. *)
Record PreviousHealth := {
  previous_core : bool;
  previous_observer : bool
}.

Section HealthChecks.

Variable R : Rendering.

(** [health.core.error || 'No response']. *)
Definition errorOrNoResponse (service : HealthResult) : string :=
  if JS.truthyString (health_error service) then default "" (health_error service)
  else "No response".

(** One run of [checkHealth] of the monitoring bot, on the health the monitor
    returned, with [latencyThreshold] read from the runtime configuration: the new
    [previousHealth] and the dispatcher calls made, in order. *)
Definition checkHealth (latencyThreshold : Q) (health : GatewayHealth)
    (previousHealth : option PreviousHealth) : option PreviousHealth * list AlertCall :=
  let transitionCalls :=
    match previousHealth with
    | Some previous =>
        (if negb (Bool.eqb (previous_core previous) (isHealthy (health_core health))) then
           if negb (isHealthy (health_core health)) then
             [CallAlert critical
                ("Core service is DOWN" +:+ lineFeed +:+
                 "Error: " +:+ errorOrNoResponse (health_core health) +:+ lineFeed +:+
                 "Response time: "
                 +:+ numberToString R (inject_Z (responseTime (health_core health))) +:+ "ms")
                (Some "service_health")]
           else
             [CallAlert info
                ("Core service is back UP" +:+ lineFeed +:+
                 "Response time: "
                 +:+ numberToString R (inject_Z (responseTime (health_core health))) +:+ "ms")
                (Some "service_health")]
         else [])
        ++
        (if negb (Bool.eqb (previous_observer previous) (isHealthy (health_observer health))) then
           if negb (isHealthy (health_observer health)) then
             [CallAlert critical
                ("Observer service is DOWN" +:+ lineFeed +:+
                 "Error: " +:+ errorOrNoResponse (health_observer health) +:+ lineFeed +:+
                 "Response time: "
                 +:+ numberToString R (inject_Z (responseTime (health_observer health)))
                 +:+ "ms")
                (Some "service_health")]
           else
             [CallAlert info
                ("Observer service is back UP" +:+ lineFeed +:+
                 "Response time: "
                 +:+ numberToString R (inject_Z (responseTime (health_observer health)))
                 +:+ "ms")
                (Some "service_health")]
         else [])
    | None => []
    end in
  (* Check latency for both services *)
  let coreLatencyCalls :=
    if isHealthy (health_core health)
       && negb (Qle_bool (inject_Z (responseTime (health_core health))) latencyThreshold)
    then [CallResourceAlert latency (inject_Z (responseTime (health_core health)))
            latencyThreshold]
    else [] in
  let observerLatencyCalls :=
    if isHealthy (health_observer health)
       && negb (Qle_bool (inject_Z (responseTime (health_observer health))) latencyThreshold)
    then [CallResourceAlert latency (inject_Z (responseTime (health_observer health)))
            latencyThreshold]
    else [] in
  (Some {| previous_core := isHealthy (health_core health);
           previous_observer := isHealthy (health_observer health) |},
   transitionCalls ++ coreLatencyCalls ++ observerLatencyCalls).

(** Consecutive runs of [checkHealth]. *)
Fixpoint healthRuns (latencyThreshold : Q) (polls : list GatewayHealth)
    (previousHealth : option PreviousHealth) : option PreviousHealth * list AlertCall :=
  match polls with
  | [] => (previousHealth, [])
  | health :: rest =>
      let '(previous1, calls1) := checkHealth latencyThreshold health previousHealth in
      let '(previous2, calls2) := healthRuns latencyThreshold rest previous1 in
      (previous2, calls1 ++ calls2)
  end.

End HealthChecks.

(** The calls that go through [sendAlert] with the category "service_health". *)
Definition isServiceHealthAlert (call : AlertCall) : bool :=
  match call with
  | CallAlert _ _ (Some category) => String.eqb category "service_health"
  | _ => false
  end.

(** The number of places at which a sequence of flags differs from the flag
    before; [previous] is the flag before the first one, if there is one. *)
Fixpoint flips (previous : option bool) (flags : list bool) : nat :=
  match flags with
  | [] => 0
  | flag :: rest =>
      (match previous with
       | Some before => if Bool.eqb before flag then 0 else 1
       | None => 0
       end + flips (Some flag) rest)%nat
  end.

(** A health result in which both services answered, the core after 1500 ms and
    the observer after 1800 ms. *)
Definition bothSlow : GatewayHealth :=
  HealthMonitor.checkHealth 1700000000000
    (HealthMonitor.checkService 1699999998000 1699999999500 (Responded None))
    (HealthMonitor.checkService 1699999998000 1699999999800 (Responded None)).

(** ** SSL certificate ([src/monitors/ssl.ts], [checkSSL] of [src/index.ts]) *)

Record SSLCertificateInfo := {
  cert_valid : bool;
  cert_domain : string;
  cert_issuer : string;
  cert_validFrom : Z;
  cert_validTo : Z;
  cert_daysRemaining : Z;
  cert_subject : string;
  cert_serialNumber : option string;
  cert_error : option string
}.

(** What the TLS connection of [checkCertificate] ends in. *)
Inductive PeerCertificate :=
| NoCertificate
| Certificate (validFrom validTo : Z) (issuerCN issuerO subjectCN : option string)
    (serialNumber : option string)
| SocketError (message : string)
| SocketTimeout.

Module SSLMonitor.

(** The record [checkCertificate] resolves with when it has no certificate to
    report on; [now] is the reading of [new Date()]. *)
Definition failure (now : Z) (domain : string) (error : string) : SSLCertificateInfo :=
  {| cert_valid := false;
     cert_domain := domain;
     cert_issuer := "";
     cert_validFrom := now;
     cert_validTo := now;
     cert_daysRemaining := 0;
     cert_subject := "";
     cert_serialNumber := None;
     cert_error := Some error |}.

(** [checkCertificate] for the configured domain. *)
Definition checkCertificate (now : Z) (targetDomain : option string)
    (peer : PeerCertificate) : SSLCertificateInfo :=
  if negb (JS.truthyString targetDomain) then
    failure now "not configured" "SSL_DOMAIN not configured"
  else
    let targetDomain := default "" targetDomain in
    match peer with
    | NoCertificate => failure now targetDomain "No certificate found"
    | Certificate validFrom validTo issuerCN issuerO subjectCN serialNumber =>
        let daysRemaining := (validTo - now) / (1000 * 60 * 60 * 24) in
        let isValid := (validFrom <=? now) && (now <=? validTo) in
        {| cert_valid := isValid;
           cert_domain := targetDomain;
           cert_issuer :=
             if JS.truthyString issuerCN then default "" issuerCN
             else if JS.truthyString issuerO then default "" issuerO
             else "Unknown";
           cert_validFrom := validFrom;
           cert_validTo := validTo;
           cert_daysRemaining := daysRemaining;
           cert_subject :=
             if JS.truthyString subjectCN then default "" subjectCN else targetDomain;
           cert_serialNumber := serialNumber;
           cert_error := None |}
    | SocketError message => failure now targetDomain message
    | SocketTimeout => failure now targetDomain "Connection timeout"
    end.

(** Get warning level based on days remaining. *)
Definition getWarningLevel (daysRemaining : Z) : string :=
  if daysRemaining <=? 1 then "critical"
  else if daysRemaining <=? 7 then "warning"
  else if daysRemaining <=? 30 then "info"
  else "ok".

End SSLMonitor.

Section SSLChecks.

Variable R : Rendering.
(** [new Date(ts).toLocaleDateString()]. *)
Variable dateToLocaleDateString : Z -> string.

(** [this.lastSSLWarning !== key]. *)
Definition differsFrom (lastSSLWarning : option string) (key : string) : bool :=
  match lastSSLWarning with
  | Some lastKey => negb (String.eqb lastKey key)
  | None => true
  end.

(** One run of [checkSSL] on the certificate the monitor returned: the new
    [lastSSLWarning] and the dispatcher calls made. *)
Definition checkSSL (cert : SSLCertificateInfo) (lastSSLWarning : option string)
  : option string * list AlertCall :=
  if JS.truthyString (cert_error cert) then
    let error := default "" (cert_error cert) in
    let errorKey := "ssl_error:" +:+ error in
    if differsFrom lastSSLWarning errorKey then
      (Some errorKey,
       [CallAlert warning
          ("SSL Certificate Check Failed" +:+ lineFeed +:+ lineFeed +:+
           "Domain: " +:+ cert_domain cert +:+ lineFeed +:+
           "Error: " +:+ error)
          (Some "ssl_certificate")])
    else (lastSSLWarning, [])
  else
    let warningLevel := SSLMonitor.getWarningLevel (cert_daysRemaining cert) in
    if String.eqb warningLevel "critical" && differsFrom lastSSLWarning "critical" then
      (Some "critical",
       [CallAlert critical
          ("SSL Certificate Expiring SOON!" +:+ lineFeed +:+ lineFeed +:+
           "Domain: " +:+ cert_domain cert +:+ lineFeed +:+
           "Days Remaining: " +:+ numberToString R (inject_Z (cert_daysRemaining cert))
           +:+ lineFeed +:+
           "Expires: " +:+ dateToLocaleDateString (cert_validTo cert))
          (Some "ssl_certificate")])
    else if String.eqb warningLevel "warning" && differsFrom lastSSLWarning "warning" then
      (Some "warning",
       [CallAlert warning
          ("SSL Certificate Expiring Soon" +:+ lineFeed +:+ lineFeed +:+
           "Domain: " +:+ cert_domain cert +:+ lineFeed +:+
           "Days Remaining: " +:+ numberToString R (inject_Z (cert_daysRemaining cert))
           +:+ lineFeed +:+
           "Expires: " +:+ dateToLocaleDateString (cert_validTo cert))
          (Some "ssl_certificate")])
    else if String.eqb warningLevel "info" && differsFrom lastSSLWarning "info" then
      (Some "info",
       [CallAlert info
          ("SSL Certificate Renewal Reminder" +:+ lineFeed +:+ lineFeed +:+
           "Domain: " +:+ cert_domain cert +:+ lineFeed +:+
           "Days Remaining: " +:+ numberToString R (inject_Z (cert_daysRemaining cert))
           +:+ lineFeed +:+
           "Renew by: " +:+ dateToLocaleDateString (cert_validTo cert))
          (Some "ssl_certificate")])
    else if String.eqb warningLevel "ok" then (None, [])
    else (lastSSLWarning, []).

(** Consecutive runs of [checkSSL]. *)
Fixpoint sslRuns (certs : list SSLCertificateInfo) (lastSSLWarning : option string)
  : option string * list AlertCall :=
  match certs with
  | [] => (lastSSLWarning, [])
  | cert :: rest =>
      let '(warning1, calls1) := checkSSL cert lastSSLWarning in
      let '(warning2, calls2) := sslRuns rest warning1 in
      (warning2, calls1 ++ calls2)
  end.

End SSLChecks.

(** What a certificate check stands for in [lastSSLWarning] once [checkSSL] has
    seen it: the error, the warning level, or nothing for the level "ok". *)
Definition sslCondition (cert : SSLCertificateInfo) : option string :=
  if JS.truthyString (cert_error cert) then
    Some ("ssl_error:" +:+ default "" (cert_error cert))
  else if String.eqb (SSLMonitor.getWarningLevel (cert_daysRemaining cert)) "ok" then None
  else Some (SSLMonitor.getWarningLevel (cert_daysRemaining cert)).

(** ** Container states ([src/monitors/container.ts], [checkContainers] of
    [src/index.ts]) *)

Module ContainerMonitor.

Inductive Status := running | exited | restarting | paused | dead | created | unknown.

Inductive ChangeType := started | stopped | restarted | crashed.

#[global] Instance Status_eq_dec : EqDecision Status.
Proof. solve_decision. Defined.

#[global] Instance ChangeType_eq_dec : EqDecision ChangeType.
Proof. solve_decision. Defined.

Definition statusName (status : Status) : string :=
  match status with
  | running => "running"
  | exited => "exited"
  | restarting => "restarting"
  | paused => "paused"
  | dead => "dead"
  | created => "created"
  | unknown => "unknown"
  end.

Record ContainerState := {
  state_name : string;
  state_status : Status;
  state_uptime : Z;                 (* seconds *)
  state_restartCount : Z;
  state_lastStartTime : Z;          (* lastStartTime.getTime(); an invalid date is not modelled *)
  state_exitCode : option Z
}.

Record ContainerStateChange := {
  stateChange_container : string;
  stateChange_type : ChangeType;
  stateChange_previousStatus : Status;
  stateChange_currentStatus : Status;
  stateChange_timestamp : Z;
  stateChange_restartCount : option Z
}.

(** The two private fields of the monitor. *)
Record Monitor := {
  previousStates : gmap string ContainerState;
  isInitialized : bool
}.

Definition newMonitor : Monitor := {| previousStates := ∅; isInitialized := false |}.

(** [haystack.includes(needle)]. *)
Fixpoint includes (needle haystack : string) : bool :=
  String.prefix needle haystack
  || match haystack with
     | EmptyString => false
     | String _ rest => includes needle rest
     end.

Definition determineChangeType (previousStatus currentStatus : Status)
    (exitCode : option Z) : ChangeType :=
  if bool_decide (currentStatus = running) && negb (bool_decide (previousStatus = running))
  then started
  else if bool_decide (currentStatus = exited) || bool_decide (currentStatus = dead) then
    (* Exit code 0 = clean shutdown, non-zero = crash *)
    if bool_decide (exitCode = Some 0) then stopped
    else if bool_decide (previousStatus = running) then crashed else stopped
  else restarted.

(** The body of the loop of [detectChanges] for one container, apart from the
    update of [previousStates]: the change pushed, if any. [now] is the reading
    of [new Date()]. *)
Definition detectChange (now : Z) (initialized : bool) (previous : option ContainerState)
    (current : ContainerState) : list ContainerStateChange :=
  match previous with
  | None =>
      (* Skip startup alerts for already-running containers *)
      if initialized && bool_decide (state_status current = running) then
        [{| stateChange_container := state_name current;
            stateChange_type := started;
            stateChange_previousStatus := unknown;
            stateChange_currentStatus := state_status current;
            stateChange_timestamp := now;
            stateChange_restartCount := None |}]
      else []
  | Some previous =>
      if negb (bool_decide (state_status previous = state_status current)) then
        [{| stateChange_container := state_name current;
            stateChange_type :=
              determineChangeType (state_status previous) (state_status current)
                (state_exitCode current);
            stateChange_previousStatus := state_status previous;
            stateChange_currentStatus := state_status current;
            stateChange_timestamp := now;
            stateChange_restartCount := None |}]
      (* Detect container restarts *)
      else if bool_decide (state_status current = running)
              && (negb (state_lastStartTime previous =? state_lastStartTime current)
                  || negb (state_restartCount previous =? state_restartCount current)) then
        [{| stateChange_container := state_name current;
            stateChange_type := restarted;
            stateChange_previousStatus := state_status previous;
            stateChange_currentStatus := state_status current;
            stateChange_timestamp := now;
            stateChange_restartCount := Some (state_restartCount current) |}]
      else []
  end.

(** The loop of [detectChanges] over [currentStates]: each container is compared
    with and then stored in [previousStates]; [acc] holds the map and the changes
    so far. *)
Definition detectLoop (now : Z) (initialized : bool) (currentStates : list ContainerState)
    (acc : gmap string ContainerState * list ContainerStateChange)
  : gmap string ContainerState * list ContainerStateChange :=
  fold_left
    (fun acc current =>
       let previous := acc.1 !! state_name current in
       (<[state_name current := current]> acc.1,
        acc.2 ++ detectChange now initialized previous current))
    currentStates acc.

Definition detectChanges (now : Z) (currentStates : list ContainerState)
    (monitor : Monitor) : Monitor * list ContainerStateChange :=
  let '(states, changes) :=
    detectLoop now (isInitialized monitor) currentStates (previousStates monitor, []) in
  ({| previousStates := states; isInitialized := true |}, changes).

Definition getServiceEmoji (containerName : string) : string :=
  if includes "core" containerName then "🔧"
  else if includes "observer" containerName then "👁️"
  else if includes "envoy" containerName then "🌐"
  else if includes "redis" containerName then "📦"
  else "📦".

Definition getServiceName (containerName : string) : string :=
  if includes "core" containerName then "Gateway Core"
  else if includes "observer" containerName then "Observer"
  else if includes "envoy" containerName then "Envoy Proxy"
  else if includes "redis" containerName then "Redis"
  else containerName.

End ContainerMonitor.

Section ContainerChecks.

Variable R : Rendering.

(** The body of the loop of [checkContainers]: the alert sent for a change. *)
Definition containerAlert (change : ContainerMonitor.ContainerStateChange) : AlertCall :=
  let emoji := ContainerMonitor.getServiceEmoji (ContainerMonitor.stateChange_container change) in
  let serviceName :=
    ContainerMonitor.getServiceName (ContainerMonitor.stateChange_container change) in
  let container := "Container: `" +:+ ContainerMonitor.stateChange_container change +:+ "`" in
  let previousStatus :=
    "Previous Status: "
    +:+ ContainerMonitor.statusName (ContainerMonitor.stateChange_previousStatus change) in
  let currentStatus :=
    "Current Status: "
    +:+ ContainerMonitor.statusName (ContainerMonitor.stateChange_currentStatus change) in
  let time :=
    "Time: " +:+ dateToLocaleString R (ContainerMonitor.stateChange_timestamp change) in
  let '(message, severity) :=
    match ContainerMonitor.stateChange_type change with
    | ContainerMonitor.started =>
        (emoji +:+ " *" +:+ serviceName +:+ " Started*" +:+ lineFeed +:+ lineFeed +:+
         container +:+ lineFeed +:+
         "Status: "
         +:+ ContainerMonitor.statusName (ContainerMonitor.stateChange_currentStatus change)
         +:+ lineFeed +:+
         time,
         info)
    | ContainerMonitor.stopped =>
        (emoji +:+ " *" +:+ serviceName +:+ " Stopped*" +:+ lineFeed +:+ lineFeed +:+
         container +:+ lineFeed +:+
         previousStatus +:+ lineFeed +:+
         currentStatus +:+ lineFeed +:+
         time,
         warning)
    | ContainerMonitor.restarted =>
        (emoji +:+ " *" +:+ serviceName +:+ " Restarted*" +:+ lineFeed +:+ lineFeed +:+
         container +:+ lineFeed +:+
         "Restart Count: "
         +:+ numberToString R
               (inject_Z (JS.orZero (ContainerMonitor.stateChange_restartCount change)))
         +:+ lineFeed +:+
         time,
         warning)
    | ContainerMonitor.crashed =>
        (emoji +:+ " *" +:+ serviceName +:+ " Crashed*" +:+ lineFeed +:+ lineFeed +:+
         container +:+ lineFeed +:+
         previousStatus +:+ lineFeed +:+
         currentStatus +:+ lineFeed +:+
         time +:+ lineFeed +:+ lineFeed +:+
         "⚠️ Service may need manual intervention",
         critical)
    end in
  CallAlert severity message (Some "container_status").

(** One run of [checkContainers] on the states the monitor read. *)
Definition checkContainers (now : Z) (states : list ContainerMonitor.ContainerState)
    (monitor : ContainerMonitor.Monitor) : ContainerMonitor.Monitor * list AlertCall :=
  let '(monitor, changes) := ContainerMonitor.detectChanges now states monitor in
  (monitor, map containerAlert changes).

End ContainerChecks.

(** The calls that enter [sendAlert] as critical. *)
Definition isCriticalAlert (call : AlertCall) : bool :=
  match call with
  | CallAlert critical _ _ => true
  | _ => false
  end.

(** The four containers of a gateway, all running since [1699990000000]. *)
Definition allRunning : list ContainerMonitor.ContainerState :=
  map (fun name =>
         {| ContainerMonitor.state_name := name;
            ContainerMonitor.state_status := ContainerMonitor.running;
            ContainerMonitor.state_uptime := 10000;
            ContainerMonitor.state_restartCount := 0;
            ContainerMonitor.state_lastStartTime := 1699990000000;
            ContainerMonitor.state_exitCode := Some 0 |})
    ["ar-io-node-core-1"; "ar-io-node-observer-1"; "ar-io-node-envoy-1"; "ar-io-node-redis-1"].

(** The same with the core container exited on code 137. *)
Definition coreCrashed : list ContainerMonitor.ContainerState :=
  {| ContainerMonitor.state_name := "ar-io-node-core-1";
     ContainerMonitor.state_status := ContainerMonitor.exited;
     ContainerMonitor.state_uptime := 10030;
     ContainerMonitor.state_restartCount := 0;
     ContainerMonitor.state_lastStartTime := 1699990000000;
     ContainerMonitor.state_exitCode := Some 137 |} :: tail allRunning.

(** ** ArNS resolution check ([startArnsResolutionMonitoring] and
    [shuffleInPlace] of [src/index.ts]) *)

(** [[items[i], items[j]] = [items[j], items[i]]] for two indices of the array;
    an index outside the array, which the loop below never produces from a draw
    of [Math.random], is not modelled and gives [None]. *)
Definition swapItems {T} (i j : nat) (items : list T) : option (list T) :=
  match items !! i, items !! j with
  | Some atI, Some atJ => Some (<[j := atI]> (<[i := atJ]> items))
  | _, _ => None
  end.

(** The loop of [shuffleInPlace] from index [i] down to 1; [random call] is the
    value of the [call]-th call of [Math.random]. *)
Fixpoint shuffleFrom {T} (random : nat -> Q) (call : nat) (i : nat) (items : list T)
  : option (list T) :=
  match i with
  | O => Some items
  | S next =>
      let j := Z.to_nat (Qfloor (random call * inject_Z (Z.of_nat i + 1))) in
      match swapItems i j items with
      | Some items => shuffleFrom random (S call) next items
      | None => None
      end
  end.

Definition shuffleInPlace {T} (random : nat -> Q) (items : list T) : option (list T) :=
  shuffleFrom random 0 (length items - 1) items.

(** The outcome of [axios.head] with [validateStatus: () => true]: a response
    with its status and headers, or an exception with its message, if any. *)
Inductive HeadResponse :=
| HeadAnswered (status : Z) (headers : gmap string string)
| HeadThrew (message : option string).

Definition requiredHeaders : list string :=
  ["x-arns-process-id"; "x-arns-resolved-id"; "x-arns-ttl-seconds"].

Definition sampleSize : nat := 10.

(** [missingHeaders.join(', ')]. *)
Fixpoint joinComma (items : list string) : string :=
  match items with
  | [] => ""
  | [item] => item
  | item :: rest => item +:+ ", " +:+ joinComma rest
  end.

Section ArnsResolution.

Variable R : Rendering.

(** The body of the loop over the selection: what is pushed on [failures] for
    one name. *)
Definition resolutionFailures (gatewayHost name : string) (response : HeadResponse)
  : list string :=
  let url := "https://" +:+ name +:+ "." +:+ gatewayHost in
  match response with
  | HeadAnswered status headers =>
      if negb (status =? 200) then
        [url +:+ " (HTTP " +:+ numberToString R (inject_Z status) +:+ ")"]
      else
        let missingHeaders :=
          List.filter (fun header => negb (JS.truthyString (headers !! header)))
            requiredHeaders in
        if (0 <? length missingHeaders)%nat then
          [url +:+ " (missing headers: " +:+ joinComma missingHeaders +:+ ")"]
        else []
  | HeadThrew message =>
      [url +:+ " ("
       +:+ (if JS.truthyString message then default "" message else "request failed")
       +:+ ")"]
  end.

(** The names tested by a run: the first [min(sampleSize, length)] of the
    shuffled names. *)
Definition selectNames (random : nat -> Q) (allNames : list string) : option (list string) :=
  match shuffleInPlace random allNames with
  | Some shuffled => Some (take (Nat.min sampleSize (length shuffled)) shuffled)
  | None => None
  end.

(** One run of [runCheck]: [enabled] is the runtime setting, [allNames] the keys
    of the ArNS snapshots, [head] the outcome of the request for each name. *)
Definition runCheck (enabled : bool) (random : nat -> Q) (gatewayHost : string)
    (allNames : list string) (head : string -> HeadResponse) : option (list AlertCall) :=
  if negb enabled then Some []
  else if (length allNames =? 0)%nat then Some []
  else
    match selectNames random allNames with
    | Some selection =>
        let failures :=
          flat_map (fun name => resolutionFailures gatewayHost name (head name)) selection in
        if (0 <? length failures)%nat then
          let message :=
            "⚠️ ArNS resolution issues detected:" +:+ lineFeed +:+
            JS.joinLines (map (fun item => "• " +:+ item) failures) in
          Some [CallAlert warning message (Some "arns_resolution")]
        else Some []
    | None => None
    end.

End ArnsResolution.

(** A response passes when its status is 200 and the three required headers are
    there. *)
Definition resolves (response : HeadResponse) : bool :=
  match response with
  | HeadAnswered status headers =>
      (status =? 200)
      && forallb (fun header => JS.truthyString (headers !! header)) requiredHeaders
  | HeadThrew _ => false
  end.

(** Draws of [Math.random] that are all one half. *)
Definition alwaysHalf (call : nat) : Q := 1 # 2.

(** ** Metrics of the gateway ([getMetrics] and [fetchPrometheusMetrics] of
    [src/monitors/health.ts]) *)












(** ** Version check ([src/monitors/version-checker.ts], [checkVersion] of
    [src/index.ts]) *)

Definition hexDigitValue (c : ascii) : option Z :=
  let code := Z.of_N (N_of_ascii c) in
  if (48 <=? code) && (code <=? 57) then Some (code - 48)
  else if (97 <=? code) && (code <=? 102) then Some (code - 87)
  else if (65 <=? code) && (code <=? 70) then Some (code - 55)
  else None.

Fixpoint parseHexDigits (acc : option Z) (s : string) : option Z :=
  match s with
  | EmptyString => acc
  | String c rest =>
      match hexDigitValue c with
      | Some d => parseHexDigits (Some (16 * default 0 acc + d)) rest
      | None => acc
      end
  end.

(** [parseInt(text)] without a radix: as [parseInt(text, 10)], except that after
    the sign a prefix "0x" or "0X" makes the digits hexadecimal. *)
Definition parseInt (text : string) : option Z :=
  let unsigned s :=
    match s with
    | String "0" (String "x" rest) => parseHexDigits None rest
    | String "0" (String "X" rest) => parseHexDigits None rest
    | _ => parseDigits None s
    end in
  match skipWhiteSpace text with
  | String "-" rest => Z.opp <$> unsigned rest
  | String "+" rest => unsigned rest
  | s => unsigned s
  end.

Fixpoint allDigits (s : string) : bool :=
  match s with
  | EmptyString => true
  | String c rest => bool_decide (is_Some (digitValue c)) && allDigits rest
  end.

(** [/^\d+$/.test(v)]. *)
Definition isNumber (v : string) : bool :=
  negb (String.eqb v "") && allDigits v.

(** [text.split('.')]. *)
Fixpoint splitDots (text : string) : list string :=
  match text with
  | EmptyString => [""]
  | String c rest =>
      if Ascii.eqb c "." then "" :: splitDots rest
      else
        match splitDots rest with
        | first :: others => String c first :: others
        | [] => [String c ""]
        end
  end.

Module VersionChecker.

(** [const normalize = (v) => /^\d+$/.test(v) ? `r${v}` : v]. *)
Definition normalize (v : string) : string :=
  if isNumber v then "r" +:+ v else v.

(** [norm.match(/^r(\d+)$/)]: the digits captured, if the text matches. *)
Definition rMatch (norm : string) : option string :=
  match norm with
  | String "r" digits => if isNumber digits then Some digits else None
  | _ => None
  end.

(** [v.replace(/^(v|release-)/, '')]. *)
Definition clean (v : string) : string :=
  match v with
  | String "v" rest => rest
  | _ =>
      if String.prefix "release-" v then String.substring 8 (String.length v - 8) v else v
  end.

(** The loop over the parts of two semantic versions, from index [i] on, for
    [steps] more steps. *)
Fixpoint compareFrom (steps i : nat) (parts1 parts2 : list Z) : Z :=
  match steps with
  | O => 0
  | S steps =>
      let p1 := JS.orZero (parts1 !! i) in
      let p2 := JS.orZero (parts2 !! i) in
      if p1 <? p2 then -1
      else if p2 <? p1 then 1
      else compareFrom steps (S i) parts1 parts2
  end.

(** Returns: -1 if v1 < v2, 0 if equal, 1 if v1 > v2. *)
Definition compareVersions (v1 v2 : string) : Z :=
  (* Normalize versions - add 'r' prefix if just a number *)
  let norm1 := normalize v1 in
  let norm2 := normalize v2 in
  (* Check if versions use r-prefix format (r54, r55) *)
  match rMatch norm1, rMatch norm2 with
  | Some digits1, Some digits2 =>
      match parseInt digits1, parseInt digits2 with
      | Some num1, Some num2 =>
          if num1 <? num2 then -1
          else if num2 <? num1 then 1
          else 0
      | _, _ => 0                     (* a comparison with NaN is false *)
      end
  | _, _ =>
      (* Otherwise treat as semantic version *)
      let parts1 := map (fun n => JS.orZero (parseInt n)) (splitDots (clean v1)) in
      let parts2 := map (fun n => JS.orZero (parseInt n)) (splitDots (clean v2)) in
      compareFrom (Nat.max (length parts1) (length parts2)) 0 parts1 parts2
  end.

Record Release := {
  release_version : string;
  release_url : string;
  release_date : string;
  release_notes : string
}.

Record VersionInfo := {
  currentVersion : string;
  latestVersion : string;
  isOutdated : bool;
  releaseUrl : option string;
  releaseDate : option string;
  releaseNotes : option string
}.

(** [checkVersion] on the results of [getCurrentVersion] and [getLatestVersion]
    ([None] is their [null]). *)
Definition checkVersion (currentVersion : option string) (latestRelease : option Release)
  : option VersionInfo :=
  match latestRelease with
  | Some latestRelease =>
      if negb (JS.truthyString currentVersion) then None
      else
        let currentVersion := default "" currentVersion in
        let isOutdated := compareVersions currentVersion (release_version latestRelease) <? 0 in
        (* Normalize version display (add 'r' prefix if just a number) *)
        let normalizedCurrent := normalize currentVersion in
        Some {| currentVersion := normalizedCurrent;
                latestVersion := release_version latestRelease;
                isOutdated := isOutdated;
                releaseUrl := Some (release_url latestRelease);
                releaseDate := Some (release_date latestRelease);
                releaseNotes := Some (release_notes latestRelease) |}
  | None => None
  end.

End VersionChecker.

(** One run of [checkVersion] of the monitoring bot on what the version checker
    returned: the dispatcher calls made. *)
Definition checkVersion (versionInfo : option VersionChecker.VersionInfo) : list AlertCall :=
  match versionInfo with
  | Some versionInfo =>
      if VersionChecker.isOutdated versionInfo then
        let message :=
          "📦 *Gateway Update Available*" +:+ lineFeed +:+ lineFeed +:+
          "Current: `" +:+ VersionChecker.currentVersion versionInfo +:+ "`" +:+ lineFeed +:+
          "Latest: `" +:+ VersionChecker.latestVersion versionInfo +:+ "`" +:+ lineFeed
          +:+ lineFeed +:+
          "⚠️ A new version is available!" +:+ lineFeed +:+
          "Consider updating to get the latest features and fixes." +:+ lineFeed
          +:+ lineFeed +:+
          "Use /version for more details." in
        [CallAlert warning message (Some "version_update")]
      else []
  | None => []
  end.

(** ** Progress bar of the observer status ([formatObserverMessage] and
    [generateProgressBar] of [src/alerts/telegram.ts]) *)

(** [Math.round]: to the nearest integer, a half upwards. *)
Definition mathRound (x : Q) : Z := Qfloor (x + (1 # 2)).

Fixpoint repeatString (text : string) (count : nat) : string :=
  match count with
  | O => ""
  | S count => text +:+ repeatString text count
  end.

(** [text.repeat(count)]; a negative count throws a [RangeError], [None]. *)
Definition stringRepeat (text : string) (count : Z) : option string :=
  if count <? 0 then None else Some (repeatString text (Z.to_nat count)).

Definition generateProgressBar (percentage : Q) (length : Z) : option string :=
  let filled := mathRound (percentage / 100 * inject_Z length) in
  let empty := length - filled in
  match stringRepeat "█" filled, stringRepeat "░" empty with
  | Some filledCells, Some emptyCells => Some (filledCells +:+ emptyCells)
  | _, _ => None
  end.

(** [Math.min(Math.max(x, 0), 100)]. *)
Definition clampPercentage (x : Q) : Q :=
  let atLeastZero := if Qle_bool x 0 then 0%Q else x in
  if Qle_bool atLeastZero 100 then atLeastZero else 100%Q.

(** [progress] of [formatObserverMessage], for an epoch from
    [epochStartTimestamp] to [epochEndTimestamp] seen at [now]. *)
Definition epochProgress (now epochStartTimestamp epochEndTimestamp : Z) : Q :=
  let totalDuration := epochEndTimestamp - epochStartTimestamp in
  let elapsed := now - epochStartTimestamp in
  if 0 <? totalDuration
  then clampPercentage (inject_Z elapsed / inject_Z totalDuration * 100)
  else 0%Q.


(** ** ArNS purchases ([checkArnsChanges] of [src/monitors/network.ts]) *)

(** A JavaScript [Map] with string keys: its entries in insertion order. *)
Module JSMap.

Definition has {V} (key : string) (entries : list (string * V)) : bool :=
  existsb (fun entry => String.eqb entry.1 key) entries.

(** [map.set(key, value)]: a key already there keeps its place. *)
Fixpoint set {V} (key : string) (value : V) (entries : list (string * V))
  : list (string * V) :=
  match entries with
  | [] => [(key, value)]
  | (k, v) :: rest =>
      if String.eqb k key then (k, value) :: rest else (k, v) :: set key value rest
  end.

Definition keys {V} (entries : list (string * V)) : list string := map fst entries.

End JSMap.

(** What [checkArnsChanges] reads of a record of the registry to name and type a
    purchase. *)
Record ArnsRecord := {
  record_name : option string;
  record_domain : option string;
  record_type : option string
}.

Record ArnsMonitor := {
  lastArnsSnapshot : list (string * ArnsRecord);
  arnsInitialized : bool
}.

(** [record.name || record.domain]. *)
Definition recordKey (record : ArnsRecord) : option string :=
  if JS.truthyString (record_name record) then record_name record
  else record_domain record.

(** Build current snapshot. *)
Definition buildArnsSnapshot (allRecords : list ArnsRecord) : list (string * ArnsRecord) :=
  fold_left
    (fun snapshot record =>
       if JS.truthyString (recordKey record)
       then JSMap.set (default "" (recordKey record)) record snapshot
       else snapshot)
    allRecords [].

(** The change pushed for a name of the current snapshot that the last snapshot
    does not have. *)
Definition arnsPurchase (name : string) (record : ArnsRecord) : ArnsChange :=
  let isPermanent :=
    match record_type record with
    | Some type => String.eqb type "permabuy"
    | None => false
    end in
  {| arns_type := if isPermanent then "permabuy" else "lease"; arns_name := name |}.

(** [checkArnsChanges]: [enabled] is the feature switch, [fetched] all the
    records of the registry, or [None] when fetching them throws. *)
Definition checkArnsChanges (enabled : bool) (fetched : option (list ArnsRecord))
    (monitor : ArnsMonitor) : ArnsMonitor * list ArnsChange :=
  if negb enabled then (monitor, [])
  else
    match fetched with
    | None => (monitor, [])
    | Some allRecords =>
        let currentSnapshot := buildArnsSnapshot allRecords in
        let hadPreviousSnapshot := (0 <? length (lastArnsSnapshot monitor))%nat in
        let changes :=
          (* Detect new purchases once initialization completed *)
          if hadPreviousSnapshot && arnsInitialized monitor then
            flat_map
              (fun entry =>
                 if negb (JSMap.has entry.1 (lastArnsSnapshot monitor))
                 then [arnsPurchase entry.1 entry.2] else [])
              currentSnapshot
          else [] in
        (* Update snapshot in memory *)
        ({| lastArnsSnapshot := currentSnapshot;
            arnsInitialized :=
              if hadPreviousSnapshot && arnsInitialized monitor then arnsInitialized monitor
              else true |},
         changes)
    end.

(** * Properties of the dispatcher *)

(** ** Projections of the state after the steps of [sendAlert] *)

Lemma clearExpired_alertHistory now bot :
  alertHistory (clearExpiredCategoryMutes now (clearExpiredMute now bot)) = alertHistory bot.
Proof. unfold clearExpiredCategoryMutes, clearExpiredMute. by case_match. Qed.

Lemma clearExpired_lastAlertTime now bot :
  lastAlertTime (clearExpiredCategoryMutes now (clearExpiredMute now bot)) = lastAlertTime bot.
Proof. unfold clearExpiredCategoryMutes, clearExpiredMute. by case_match. Qed.

(** An unexpired global mute is left alone by the expiry sweep. *)
Lemma globallyMuted_clearExpired now bot :
  globallyMuted now (clearExpiredCategoryMutes now (clearExpiredMute now bot))
  = globallyMuted now bot.
Proof.
  unfold globallyMuted, clearExpiredCategoryMutes, clearExpiredMute; simpl.
  destruct (muteUntil bot) as [u|] eqn:Hu; simpl; [|by rewrite Hu].
  destruct (u =? 0) eqn:E0; simpl; [by rewrite Hu; simpl; rewrite E0|].
  destruct (u <=? now) eqn:E1; simpl; [|by rewrite Hu; simpl; rewrite E0].
  symmetry. apply andb_false_iff. right. lia.
Qed.

(** The sweep of the category map removes expired entries only, so it does not
    change which categories are muted now. *)
Lemma categoryMuted_clearExpired now category bot :
  categoryMuted now category (clearExpiredCategoryMutes now (clearExpiredMute now bot))
  = categoryMuted now category bot.
Proof.
  unfold categoryMuted. destruct category as [c|]; [|done]. f_equal.
  replace (categoryMutes (clearExpiredCategoryMutes now (clearExpiredMute now bot)))
    with (filter (λ kv : string * Z, now < kv.2) (categoryMutes bot))
    by (unfold clearExpiredCategoryMutes, clearExpiredMute; by case_match).
  destruct (categoryMutes bot !! c) as [t|] eqn:Hc.
  - destruct (decide (now < t)) as [Hlt|Hge].
    + erewrite (map_lookup_filter_Some_2 _ _ c t); [done|done|done].
    + rewrite map_lookup_filter_None_2; [lia|]. right. intros x Hx. simpl. naive_solver.
  - rewrite map_lookup_filter_None_2; [done|]. by left.
Qed.

(** ** The two outcomes of [sendAlert] *)

Lemma sendAlert_within_cooldown cfg now type message category bot :
  now - lastAlert (alertKeyOfAlert type message) bot < alertCooldown cfg ->
  sendAlert cfg now type message category bot
  = (clearExpiredCategoryMutes now (clearExpiredMute now bot), []).
Proof.
  intros Hlt. unfold sendAlert.
  destruct (_ <? _) eqn:E; [done|lia].
Qed.

Lemma sendAlert_after_cooldown cfg now type message category bot :
  alertCooldown cfg <= now - lastAlert (alertKeyOfAlert type message) bot ->
  let swept := clearExpiredCategoryMutes now (clearExpiredMute now bot) in
  let recorded :=
    setLastAlertTime (alertKeyOfAlert type message) now
      (setAlertHistory (pushHistory (historyEntry now type message) (alertHistory bot)) swept) in
  sendAlert cfg now type message category bot
  = (recorded,
     if globallyMuted now bot || categoryMuted now category bot then []
     else [NAlert type message
             ("mute_menu:" +:+
              (if JS.truthyString category then default "" category else severityName type))]).
Proof.
  intros Hge swept recorded. unfold sendAlert.
  destruct (_ <? _) eqn:E; [lia|]. clear E.
  fold swept. rewrite (clearExpired_alertHistory now bot : alertHistory swept = _).
  fold recorded.
  replace (globallyMuted now recorded) with (globallyMuted now bot)
    by (rewrite <- (globallyMuted_clearExpired now bot); reflexivity).
  replace (categoryMuted now category recorded) with (categoryMuted now category bot)
    by (rewrite <- (categoryMuted_clearExpired now category bot); reflexivity).
  destruct (globallyMuted now bot); [done|].
  by destruct (categoryMuted now category bot).
Qed.

Lemma pushHistory_length e h :
  (length h <= 100)%nat -> (length (pushHistory e h) <= 100)%nat.
Proof.
  intros Hle. unfold pushHistory.
  destruct (100 <? length (h ++ [e]))%nat eqn:E.
  - destruct h as [|x h]; simpl in *; [lia|]. rewrite length_app. simpl. lia.
  - apply Nat.ltb_ge in E. exact E.
Qed.

Lemma pushHistory_full e h :
  length h = 100%nat -> pushHistory e h = tail h ++ [e].
Proof.
  intros Hlen. unfold pushHistory. rewrite length_app, Hlen. simpl.
  destruct h; [discriminate|reflexivity].
Qed.

Lemma pushHistory_last e h : last (pushHistory e h) = Some e.
Proof.
  unfold pushHistory. destruct (100 <? _)%nat eqn:E; [|apply last_snoc].
  destruct h as [|x h]; [discriminate|]. simpl. apply last_snoc.
Qed.

(** The specialised operations never touch the alert history or the mute state. *)
Lemma sendResourceAlert_alertHistory R cfg now type value threshold bot :
  alertHistory (sendResourceAlert R cfg now type value threshold bot).1 = alertHistory bot.
Proof. unfold sendResourceAlert. by case_match. Qed.

Lemma dispatch_alertHistory_bound R cfg now call bot :
  (length (alertHistory bot) <= 100)%nat ->
  (length (alertHistory (dispatch R cfg now call bot).1) <= 100)%nat.
Proof.
  intros Hle. destruct call; simpl.
  - destruct (Z_lt_le_dec (now - lastAlert (alertKeyOfAlert type message) bot) (alertCooldown cfg)).
    + rewrite sendAlert_within_cooldown by done. cbn [fst snd]. by rewrite clearExpired_alertHistory.
    + rewrite sendAlert_after_cooldown by done. cbn [fst snd alertHistory setLastAlertTime setAlertHistory]. by apply pushHistory_length.
  - by rewrite sendResourceAlert_alertHistory.
  - unfold sendPerformanceAlert. by case_match.
  - unfold sendObserverAlert. by case_match.
  - unfold sendGatewayChangeAlert. by case_match.
  - unfold sendArnsChangeAlert. by case_match.
Qed.

(** Every state reached from a new dispatcher by dispatcher calls keeps the bound. *)
Lemma dispatchAll_alertHistory_bound R cfg calls bot :
  (length (alertHistory bot) <= 100)%nat ->
  (length (alertHistory (dispatchAll R cfg calls bot).1) <= 100)%nat.
Proof.
  revert bot. induction calls as [|[now call] calls IH]; intros bot Hle; [done|].
  simpl. pose proof (dispatch_alertHistory_bound R cfg now call bot Hle) as H1.
  destruct (dispatch R cfg now call bot) as [bot1 sent1]. simpl in H1.
  specialize (IH bot1 H1). by destruct (dispatchAll R cfg calls bot1).
Qed.

(** C10. The in-memory alert history is bounded. A buffer of at most 100 entries
    (the empty buffer of a new dispatcher is one, and no other operation writes
    to it) has at most 100 entries after [sendAlert]; when the buffer is full
    and the alert passes the cooldown, the oldest entry, at the head, is the one
    dropped and the new entry is placed at the end. *)
Theorem alert_history_bounded cfg now type message category bot :
  (length (alertHistory bot) <= 100)%nat ->
  (length (alertHistory (sendAlert cfg now type message category bot).1) <= 100)%nat /\
  (alertCooldown cfg <= now - lastAlert (alertKeyOfAlert type message) bot ->
   length (alertHistory bot) = 100%nat ->
   alertHistory (sendAlert cfg now type message category bot).1
   = tail (alertHistory bot) ++ [historyEntry now type message]).
Proof.
  intros Hle. split.
  - apply (dispatch_alertHistory_bound integralRendering cfg now (CallAlert type message category)).
    exact Hle.
  - intros Hpass Hfull. rewrite sendAlert_after_cooldown by done. cbn [fst snd alertHistory setLastAlertTime setAlertHistory].
    by apply pushHistory_full.
Qed.

Lemma alert_history_bounded_witness :
  (length (alertHistory (sendAlert defaultConfig 1700000000000 warning "new" None fullHistoryBot).1)
   <= 100)%nat /\
  alertHistory (sendAlert defaultConfig 1700000000000 warning "new" None fullHistoryBot).1
  = tail (alertHistory fullHistoryBot) ++ [historyEntry 1700000000000 warning "new"].
Proof.
  assert (H : (length (alertHistory fullHistoryBot) <= 100)%nat) by (vm_compute; lia).
  destruct (alert_history_bounded defaultConfig 1700000000000 warning "new" None fullHistoryBot H)
    as [Hbound Hevict].
  split; [exact Hbound|]. apply Hevict; vm_compute; [discriminate|reflexivity].
Defined.

(** C5 (amended). For the generic operation [sendAlert]: a candidate within its
    cooldown window leaves the alert history unchanged and sends nothing; a
    candidate that passes the cooldown is appended to the history (as its last
    entry) before the mute checks, so it is in the history also when a global or
    a category mute suppresses the notification. The resource operation
    [sendResourceAlert] never writes to the alert history, whether the candidate
    passes the cooldown or not. *)
Theorem alert_history_update R cfg now bot :
  (forall type message category,
      now - lastAlert (alertKeyOfAlert type message) bot < alertCooldown cfg ->
      alertHistory (sendAlert cfg now type message category bot).1 = alertHistory bot /\
      (sendAlert cfg now type message category bot).2 = []) /\
  (forall type message category,
      alertCooldown cfg <= now - lastAlert (alertKeyOfAlert type message) bot ->
      alertHistory (sendAlert cfg now type message category bot).1
      = pushHistory (historyEntry now type message) (alertHistory bot) /\
      last (alertHistory (sendAlert cfg now type message category bot).1)
      = Some (historyEntry now type message) /\
      (globallyMuted now bot = true \/ categoryMuted now category bot = true ->
       (sendAlert cfg now type message category bot).2 = [])) /\
  (forall type value threshold,
      alertHistory (sendResourceAlert R cfg now type value threshold bot).1 = alertHistory bot).
Proof.
  split; [|split].
  - intros type message category Hlt.
    rewrite sendAlert_within_cooldown by done. cbn [fst snd].
    by rewrite clearExpired_alertHistory.
  - intros type message category Hge.
    rewrite sendAlert_after_cooldown by done. cbn [fst snd alertHistory setLastAlertTime setAlertHistory].
    split; [done|]. split; [apply pushHistory_last|].
    intros [-> | ->]; [done|]. by rewrite orb_true_r.
  - intros. apply sendResourceAlert_alertHistory.
Qed.

Lemma alert_history_update_witness :
  last (alertHistory (sendAlert defaultConfig 1700000000000 critical "Core service is DOWN"
                        (Some "service_health") globallyMutedBot).1)
  = Some (historyEntry 1700000000000 critical "Core service is DOWN") /\
  (sendAlert defaultConfig 1700000000000 critical "Core service is DOWN"
     (Some "service_health") globallyMutedBot).2 = [].
Proof.
  destruct (alert_history_update integralRendering defaultConfig 1700000000000 globallyMutedBot)
    as (_ & Hpass & _).
  destruct (Hpass critical "Core service is DOWN" (Some "service_health")) as (_ & Hlast & Hmute).
  - vm_compute. discriminate.
  - split; [exact Hlast|]. apply Hmute. left. vm_compute. reflexivity.
Defined.

(** A resource alert that passes the cooldown is sent and is not added to the
    alert history: the claim that every candidate passing the cooldown is
    appended does not hold for [sendResourceAlert]. *)
Lemma resource_alert_not_in_history :
  (sendResourceAlert integralRendering defaultConfig 1700000000000 cpu 95 80 newTelegramBot).2
  = [NResource cpu "WARNING" 95 80 "mute_menu:resource_cpu"] /\
  alertHistory
    (sendResourceAlert integralRendering defaultConfig 1700000000000 cpu 95 80 newTelegramBot).1
  = [].
Proof. split; vm_compute; reflexivity. Qed.

(** ** Cooldown bookkeeping *)

Lemma lastAlert_setLastAlertTime key now bot :
  lastAlert key (setLastAlertTime key now bot) = now.
Proof. unfold lastAlert, setLastAlertTime. simpl. by rewrite lookup_insert_eq. Qed.

Lemma lastAlert_setLastAlertTime_ne key key' now bot :
  key <> key' -> lastAlert key' (setLastAlertTime key now bot) = lastAlert key' bot.
Proof. intros Hne. unfold lastAlert, setLastAlertTime. simpl. by rewrite lookup_insert_ne. Qed.

Section KeyedCooldown.

Variable R : Rendering.
Variable cfg : Config.

Lemma sendResourceAlert_within_cooldown now type value threshold bot :
  now - lastAlert (alertKeyOfResource R type threshold) bot < alertCooldown cfg ->
  sendResourceAlert R cfg now type value threshold bot = (bot, []).
Proof. intros Hlt. unfold sendResourceAlert. destruct (_ <? _) eqn:E; [done|lia]. Qed.


Lemma sendPerformanceAlert_within_cooldown now type details bot :
  now - lastAlert (alertKeyOfPerformance type) bot < alertCooldown cfg ->
  sendPerformanceAlert cfg now type details bot = (bot, []).
Proof. intros Hlt. unfold sendPerformanceAlert. destruct (_ <? _) eqn:E; [done|lia]. Qed.


End KeyedCooldown.




(** ** Mutes *)

(** In [sendAlert] an active global mute suppresses the notification whatever
    the category and the category mutes are. *)
Lemma sendAlert_globally_muted cfg now type message category bot :
  globallyMuted now bot = true ->
  (sendAlert cfg now type message category bot).2 = [].
Proof.
  intros Hmuted.
  destruct (Z_lt_le_dec (now - lastAlert (alertKeyOfAlert type message) bot) (alertCooldown cfg)).
  - by rewrite sendAlert_within_cooldown.
  - rewrite sendAlert_after_cooldown by done. cbn [snd]. by rewrite Hmuted.
Qed.

(** In [sendAlert] a category mute whose time has passed counts for nothing. *)
Lemma categoryMuted_expired now c t bot :
  categoryMutes bot !! c = Some t -> t <= now -> categoryMuted now (Some c) bot = false.
Proof.
  intros Hc Hle. unfold categoryMuted. rewrite Hc.
  apply andb_false_iff. right. lia.
Qed.

(** In [sendAlert] a category mute concerns the alerts tagged with that category
    only: an alert that passes the cooldown, is not globally muted and whose own
    category is not muted is sent, whatever other categories are muted. *)
Lemma sendAlert_other_category_sent cfg now type message category bot :
  alertCooldown cfg <= now - lastAlert (alertKeyOfAlert type message) bot ->
  globallyMuted now bot = false ->
  categoryMuted now category bot = false ->
  exists button, (sendAlert cfg now type message category bot).2 = [NAlert type message button].
Proof.
  intros Hpass Hglobal Hcategory. rewrite sendAlert_after_cooldown by done.
  cbn [snd]. rewrite Hglobal, Hcategory. eauto.
Qed.

(** In [sendAlert] a category mute whose time has passed behaves like no mute at
    all: the operation returns the same state and the same notifications as on
    the dispatcher from which the entry was deleted. *)
Lemma sendAlert_expired_category_mute cfg now type message category bot c t :
  categoryMutes bot !! c = Some t ->
  t <= now ->
  sendAlert cfg now type message category bot
  = sendAlert cfg now type message category
      (setCategoryMutes (delete c (categoryMutes bot)) bot).
Proof.
  intros Hc Hexpired.
  assert (Hsweep :
    clearExpiredCategoryMutes now
      (clearExpiredMute now (setCategoryMutes (delete c (categoryMutes bot)) bot))
    = clearExpiredCategoryMutes now (clearExpiredMute now bot)).
  { unfold clearExpiredCategoryMutes, clearExpiredMute.
    cbn [muteUntil setCategoryMutes].
    assert (Hmap : filter (λ kv : string * Z, now < kv.2) (delete c (categoryMutes bot))
                   = filter (λ kv : string * Z, now < kv.2) (categoryMutes bot)).
    { rewrite map_filter_delete. apply delete_id.
      apply map_lookup_filter_None_2. right. intros x Hx. simpl.
      rewrite Hc in Hx. injection Hx as <-. lia. }
    destruct (_ && _); cbn [categoryMutes setMuteState setCategoryMutes lastAlertTime
                              alertHistory isMuted muteUntil]; by rewrite Hmap. }
  unfold sendAlert. rewrite Hsweep. reflexivity.
Qed.

(** The output of [sendResourceAlert] does not depend on the mute state. *)
Lemma sendResourceAlert_mute_independent R cfg now type value threshold bot muted until mutes :
  (sendResourceAlert R cfg now type value threshold
     (setCategoryMutes mutes (setMuteState muted until bot))).2
  = (sendResourceAlert R cfg now type value threshold bot).2.
Proof.
  unfold sendResourceAlert, lastAlert.
  cbn [lastAlertTime setCategoryMutes setMuteState]. by case_match.
Qed.

(** C4 (evaluation of the code at the failing input). With a global mute active
    for the next hour, [sendAlert] sends nothing, and [sendResourceAlert] still
    calls the notification channel; with the category "resource_cpu" muted, as
    the Mute button of a CPU alert does, [sendResourceAlert] calls it as well. *)
Theorem resource_alert_ignores_mute :
  globallyMuted 1700000000000 globallyMutedBot = true /\
  (sendAlert defaultConfig 1700000000000 warning "High CPU Usage" (Some "resource_cpu")
     globallyMutedBot).2 = [] /\
  (sendResourceAlert integralRendering defaultConfig 1700000000000 cpu 95 80 globallyMutedBot).2
  = [NResource cpu "WARNING" 95 80 "mute_menu:resource_cpu"] /\
  categoryMuted 1700000000000 (Some "resource_cpu") cpuCategoryMutedBot = true /\
  (sendResourceAlert integralRendering defaultConfig 1700000000000 cpu 95 80
     cpuCategoryMutedBot).2
  = [NResource cpu "WARNING" 95 80 "mute_menu:resource_cpu"].
Proof. repeat split; vm_compute; reflexivity. Qed.

(** ** Spacing of notifications that share a key *)

Section Spacing.

Variable R : Rendering.
Variable cfg : Config.

(** Every operation compares [now - lastAlert] with its window, records [now]
    under its key when the comparison passes, and changes no other key. *)
Lemma dispatch_lastAlertTime now call bot :
  lastAlertTime (dispatch R cfg now call bot).1
  = if now - lastAlert (alertKeyOf R call) bot <? cooldownWindow cfg call
    then lastAlertTime bot
    else <[alertKeyOf R call := now]> (lastAlertTime bot).
Proof.
  destruct call; cbn [dispatch alertKeyOf cooldownWindow].
  - destruct (_ <? _) eqn:E.
    + rewrite sendAlert_within_cooldown by lia. cbn [fst].
      apply clearExpired_lastAlertTime.
    + rewrite sendAlert_after_cooldown by lia. cbn [fst setLastAlertTime lastAlertTime].
      cbn [setAlertHistory lastAlertTime]. by rewrite clearExpired_lastAlertTime.
  - unfold sendResourceAlert. by case_match.
  - unfold sendPerformanceAlert. by case_match.
  - unfold sendObserverAlert. by case_match.
  - unfold sendGatewayChangeAlert. by case_match.
  - unfold sendArnsChangeAlert. by case_match.
Qed.

(** A notification is only sent by a dispatch that passed its window. *)
Lemma dispatch_sent_after_window now call bot :
  (dispatch R cfg now call bot).2 <> [] ->
  cooldownWindow cfg call <= now - lastAlert (alertKeyOf R call) bot.
Proof.
  intros Hsent.
  destruct (Z_lt_le_dec (now - lastAlert (alertKeyOf R call) bot) (cooldownWindow cfg call))
    as [Hlt|Hge]; [|exact Hge].
  exfalso. apply Hsent. revert Hlt.
  destruct call; cbn [dispatch alertKeyOf cooldownWindow]; intros Hlt.
  - by rewrite sendAlert_within_cooldown.
  - by rewrite sendResourceAlert_within_cooldown.
  - by rewrite sendPerformanceAlert_within_cooldown.
  - unfold sendObserverAlert. destruct (_ <? _) eqn:E; [done|lia].
  - unfold sendGatewayChangeAlert. destruct (_ <? _) eqn:E; [done|lia].
  - unfold sendArnsChangeAlert. destruct (_ <? _) eqn:E; [done|lia].
Qed.

Lemma cooldownWindow_nonneg call : 0 <= alertCooldown cfg -> 0 <= cooldownWindow cfg call.
Proof. intros H. destruct call; simpl; lia. Qed.

Lemma dispatch_recordedSince key since now call bot :
  0 <= alertCooldown cfg ->
  recordedSince key since bot ->
  recordedSince key since (dispatch R cfg now call bot).1.
Proof.
  intros Hcd (t & Ht & Hle). unfold recordedSince.
  rewrite dispatch_lastAlertTime.
  destruct (_ <? _) eqn:E; [eauto|].
  destruct (decide (alertKeyOf R call = key)) as [<-|Hne].
  - rewrite lookup_insert_eq. eexists; split; [done|].
    pose proof (cooldownWindow_nonneg call Hcd).
    unfold lastAlert in E. rewrite Ht in E. simpl in E. lia.
  - rewrite lookup_insert_ne by done. eauto.
Qed.

Lemma dispatchAll_recordedSince key since calls bot :
  0 <= alertCooldown cfg ->
  recordedSince key since bot ->
  recordedSince key since (dispatchAll R cfg calls bot).1.
Proof.
  intros Hcd. revert bot.
  induction calls as [|[now call] calls IH]; intros bot Hrec; [done|].
  simpl. pose proof (dispatch_recordedSince key since now call bot Hcd Hrec) as H1.
  destruct (dispatch R cfg now call bot) as [bot1 sent1]. simpl in H1.
  specialize (IH bot1 H1). by destruct (dispatchAll R cfg calls bot1).
Qed.

End Spacing.

(** C9 (amended). The configured alert cooldown is the window of the generic,
    resource, performance and observer alerts; gateway-change and ArNS-change
    alerts are deduplicated with a fixed window of 300000 ms, whatever the
    configured cooldown is ([cooldownWindow]). With a cooldown that is not
    negative: when two dispatches share a key and both reach the notification
    channel, whatever was dispatched in between, the later one comes at least
    its window after the earlier one; and the bound is met, a dispatch repeated
    exactly one window after one that was sent passes the cooldown check again
    (its time is recorded under the key). *)
Theorem cooldown_spacing R cfg bot now1 call1 between now2 call2 :
  0 <= alertCooldown cfg ->
  alertKeyOf R call1 = alertKeyOf R call2 ->
  (dispatch R cfg now1 call1 bot).2 <> [] ->
  ((dispatch R cfg now2 call2
      (dispatchAll R cfg between (dispatch R cfg now1 call1 bot).1).1).2 <> [] ->
   cooldownWindow cfg call2 <= now2 - now1) /\
  lastAlertTime
    (dispatch R cfg (now1 + cooldownWindow cfg call1) call1 (dispatch R cfg now1 call1 bot).1).1
  !! alertKeyOf R call1 = Some (now1 + cooldownWindow cfg call1).
Proof.
  intros Hcd Hkey Hsent1.
  apply dispatch_sent_after_window in Hsent1.
  assert (Hrec : recordedSince (alertKeyOf R call1) now1 (dispatch R cfg now1 call1 bot).1).
  { unfold recordedSince. rewrite dispatch_lastAlertTime.
    destruct (_ <? _) eqn:E; [lia|]. rewrite lookup_insert_eq. eauto with lia. }
  split.
  - intros Hsent2. apply dispatch_sent_after_window in Hsent2.
    destruct (dispatchAll_recordedSince R cfg _ _ between _ Hcd Hrec) as (t & Ht & Hle).
    rewrite <- Hkey in Hsent2. unfold lastAlert in Hsent2. rewrite Ht in Hsent2.
    simpl in Hsent2. lia.
  - rewrite (dispatch_lastAlertTime R cfg (now1 + _)).
    assert (Hlast : lastAlert (alertKeyOf R call1) (dispatch R cfg now1 call1 bot).1 = now1).
    { unfold lastAlert. rewrite dispatch_lastAlertTime.
      destruct (_ <? _) eqn:E; [lia|]. by rewrite lookup_insert_eq. }
    rewrite Hlast. destruct (_ <? _) eqn:E; [lia|]. by rewrite lookup_insert_eq.
Qed.

Lemma cooldown_spacing_witness :
  cooldownWindow defaultConfig (CallResourceAlert cpu 95 80) <= 1700000600000 - 1700000000000.
Proof.
  refine (proj1 (cooldown_spacing integralRendering defaultConfig newTelegramBot
                   1700000000000 (CallResourceAlert cpu 81 80)
                   [(1700000060000, CallResourceAlert memory 95 90)]
                   1700000600000 (CallResourceAlert cpu 95 80) _ _ _) _).
  - vm_compute. discriminate.
  - reflexivity.
  - vm_compute. discriminate.
  - vm_compute. discriminate.
Defined.

(** With the default cooldown of ten minutes, two alerts for the same gateway
    joining, five minutes apart, both reach the notification channel: their
    spacing is below the configured cooldown. *)
Lemma gateway_alert_fixed_window :
  (sendGatewayChangeAlert 1700000000000 gatewayJoined newTelegramBot).2
  = [NGatewayChange "joined" gatewayJoined] /\
  (sendGatewayChangeAlert 1700000300000 gatewayJoined
     (sendGatewayChangeAlert 1700000000000 gatewayJoined newTelegramBot).1).2
  = [NGatewayChange "joined" gatewayJoined] /\
  1700000300000 - 1700000000000 < alertCooldown defaultConfig.
Proof. repeat split; vm_compute; reflexivity. Qed.

(** * Properties of the resource checks *)

(** ** Sustained CPU *)







(** The run of the specification: five samples one minute apart, all at or above
    80, with a duration of five minutes; nothing is raised before the fifth. *)
Example sustained_cpu_five_samples :
  (checkCpu defaultConfig 0 (Some 85%Q) []).2 = [] /\
  (checkCpu defaultConfig 180000 (Some 90%Q) cpuAfterThree).2 = [] /\
  (checkCpu defaultConfig 240000 (Some 91%Q)
     (checkCpu defaultConfig 180000 (Some 90%Q) cpuAfterThree).1).2
  = [CallResourceAlert cpu 91 80].
Proof. repeat split; vm_compute; reflexivity. Qed.

(** ** Block-sync lag and severity *)

Lemma Qle_bool_false (x y : Q) : Qle_bool x y = false <-> (y < x)%Q.
Proof.
  split.
  - intros H. apply Qnot_le_lt. intros Hle. apply Qle_bool_iff in Hle. congruence.
  - intros Hlt. destruct (Qle_bool x y) eqn:E; [|done].
    apply Qle_bool_iff in E. exfalso. by apply (Qlt_not_le _ _ Hlt).
Qed.

(** C6 (amended). A block-sync lag alert is raised exactly when
    [heightDifference] is defined and above [blockSyncLagThreshold], carrying
    the difference and the threshold. The rule "critical from 1.2 times the
    threshold on, warning below" is the rule of the alerts sent by
    [sendResourceAlert] (CPU, memory, disk, response time, latency). The alerts
    sent by [sendPerformanceAlert], block-sync lag among them, always carry the
    fixed label "PERFORMANCE DEGRADATION", whatever the value is. *)
Theorem block_sync_lag_and_severity R cfg :
  (forall metrics,
      checkBlockSync R cfg metrics <> [] <->
      exists difference,
        heightDifference metrics = Some difference /\
        (blockSyncLagThreshold cfg < difference)%Q) /\
  (forall metrics call,
      In call (checkBlockSync R cfg metrics) ->
      exists additional,
        call = CallPerformanceAlert block_sync
                 {| perf_current := default 0%Q (heightDifference metrics);
                    perf_threshold := blockSyncLagThreshold cfg;
                    perf_additional := additional |}) /\
  (forall now type value threshold bot notification,
      In notification (sendResourceAlert R cfg now type value threshold bot).2 ->
      exists severityText button,
        notification = NResource type severityText value threshold button /\
        ((threshold * 1.2 <= value)%Q -> severityText = "CRITICAL") /\
        ((value < threshold * 1.2)%Q -> severityText = "WARNING")) /\
  (forall now type details bot notification,
      In notification (sendPerformanceAlert cfg now type details bot).2 ->
      exists button,
        notification = NPerformance type "PERFORMANCE DEGRADATION" details button).
Proof.
  split; [|split; [|split]].
  - intros metrics. unfold checkBlockSync.
    destruct (heightDifference metrics) as [d|]; [|split; [done|by intros (? & ? & _)]].
    destruct (Qle_bool d (blockSyncLagThreshold cfg)) eqn:E; simpl.
    + split; [done|]. intros (d' & [= <-] & Hlt).
      apply Qle_bool_iff in E. exfalso. by apply (Qlt_not_le _ _ Hlt).
    + split; [|done]. intros _. exists d. split; [done|]. by apply Qle_bool_false.
  - intros metrics call. unfold checkBlockSync.
    destruct (heightDifference metrics) as [d|]; [|by intros []].
    destruct (Qle_bool d (blockSyncLagThreshold cfg)); simpl; [by intros []|].
    intros [<-|[]]. eauto.
  - intros now type value threshold bot notification. unfold sendResourceAlert.
    destruct (_ <? _); cbn [snd]; [by intros []|]. intros [<-|[]].
    eexists _, _. split; [reflexivity|]. unfold resourceSeverityText.
    destruct (Qle_bool (threshold * 1.2) value) eqn:E.
    + split; [done|]. intros Hlt. apply Qle_bool_iff in E.
      exfalso. by apply (Qlt_not_le _ _ Hlt).
    + split; [|done]. intros Hle. apply Qle_bool_iff in Hle. congruence.
  - intros now type details bot notification. unfold sendPerformanceAlert.
    destruct (_ <? _); cbn [snd]; [by intros []|]. intros [<-|[]]. eauto.
Qed.

Lemma block_sync_lag_and_severity_witness :
  exists severityText button,
    NResource disk "CRITICAL" 102 85 "mute_menu:resource_disk"
    = NResource disk severityText 102 85 button /\
    severityText = "CRITICAL".
Proof.
  destruct (block_sync_lag_and_severity integralRendering defaultConfig) as (_ & _ & Hres & _).
  destruct (Hres 1700000000000 disk 102%Q 85%Q newTelegramBot
              (NResource disk "CRITICAL" 102 85 "mute_menu:resource_disk"))
    as (severityText & button & Heq & Hcrit & _).
  - vm_compute. left. reflexivity.
  - exists severityText, button. split; [exact Heq|]. apply Hcrit. vm_compute. discriminate.
Defined.

(** A block-sync alert 2000 blocks behind against a threshold of 100, twenty
    times the threshold, is sent with the label "PERFORMANCE DEGRADATION" and
    not as critical. *)
Lemma block_sync_alert_never_critical :
  (perf_threshold blockSyncFarBehind * 1.2 <= perf_current blockSyncFarBehind)%Q /\
  (sendPerformanceAlert defaultConfig 1700000000000 block_sync blockSyncFarBehind
     newTelegramBot).2
  = [NPerformance block_sync "PERFORMANCE DEGRADATION" blockSyncFarBehind
       "mute_menu:performance_block_sync"] /\
  "PERFORMANCE DEGRADATION" <> "CRITICAL".
Proof. split; [|split]; [vm_compute; discriminate|vm_compute; reflexivity|discriminate]. Qed.

(** ** Error rate *)





Section ErrorRate.

Variable R : Rendering.
Variable cfg : Config.

(** The smoothing window after a cycle in which both counters and the previous
    metrics are available. *)
Lemma checkErrorRate_window now metrics pm history e r :
  arnsErrors metrics = Some e ->
  httpRequestsTotal metrics = Some r ->
  (checkErrorRate R cfg now metrics (Some pm) history).1
  = if 0 <? r - JS.orZero (prev_totalRequests pm) then
      List.filter (fun sample => now - 10 * 60 * 1000 <=? sample_timestamp sample)
        ((if (e - JS.orZero (prev_errors pm) <? 0) || (r - JS.orZero (prev_totalRequests pm) <? 0)
          then [] else history)
         ++ [{| sample_errors := Z.max (e - JS.orZero (prev_errors pm)) 0;
                sample_requests := r - JS.orZero (prev_totalRequests pm);
                sample_timestamp := now |}])
    else if (e - JS.orZero (prev_errors pm) <? 0) || (r - JS.orZero (prev_totalRequests pm) <? 0)
         then [] else history.
Proof.
  intros He Hr. unfold checkErrorRate. rewrite He, Hr. cbv zeta.
  destruct (0 <? r - JS.orZero (prev_totalRequests pm)) eqn:E.
  - assert (Hmax : Z.max (r - JS.orZero (prev_totalRequests pm)) 0
                   = r - JS.orZero (prev_totalRequests pm)) by lia.
    rewrite Hmax, E. by repeat case_match.
  - assert (Hmax : (0 <? Z.max (r - JS.orZero (prev_totalRequests pm)) 0) = false) by lia.
    by rewrite Hmax.
Qed.

(** Whatever the cycle, a call it makes is an error-rate alert that carries the
    rate of the window the cycle leaves behind, and that window has requests. *)
Lemma checkErrorRate_calls now metrics previous history call :
  In call (checkErrorRate R cfg now metrics previous history).2 ->
  exists additional,
    call = CallPerformanceAlert error_rate
             {| perf_current :=
                  smoothedErrorRate
                    (aggregate (checkErrorRate R cfg now metrics previous history).1);
                perf_threshold := errorRateThreshold cfg;
                perf_additional := additional |} /\
    0 < (aggregate (checkErrorRate R cfg now metrics previous history).1).2.
Proof.
  unfold checkErrorRate.
  destruct previous as [pm|]; [|by intros []].
  destruct (arnsErrors metrics) as [e|]; [|by intros []].
  destruct (httpRequestsTotal metrics) as [r|]; [|by intros []].
  cbv zeta. destruct (0 <? Z.max _ 0); [|by intros []].
  destruct (_ && _) eqn:E; [|by intros []].
  destruct (negb _); [|by intros []].
  cbn [fst snd]. intros [<-|[]]. eexists. split; [reflexivity|].
  apply andb_true_iff in E as [_ E]. lia.
Qed.


(** The window stays well formed. *)
Lemma checkErrorRate_wellFormed now metrics previous history :
  windowWellFormed history ->
  windowWellFormed (checkErrorRate R cfg now metrics previous history).1.
Proof.
  intros Hwf. unfold windowWellFormed in *.
  destruct previous as [pm|]; [|exact Hwf].
  destruct (arnsErrors metrics) as [e|] eqn:He; [|by unfold checkErrorRate; rewrite He].
  destruct (httpRequestsTotal metrics) as [r|] eqn:Hr;
    [|by unfold checkErrorRate; rewrite He, Hr].
  rewrite (checkErrorRate_window now metrics pm history e r He Hr).
  assert (Hkept : Forall (fun sample => 0 <= sample_errors sample /\ 0 < sample_requests sample)
                    (if (e - JS.orZero (prev_errors pm) <? 0)
                        || (r - JS.orZero (prev_totalRequests pm) <? 0)
                     then [] else history)).
  { destruct (_ || _); [constructor|exact Hwf]. }
  destruct (0 <? _) eqn:E; [|exact Hkept].
  apply List.Forall_forall. intros sample Hin.
  apply filter_In in Hin as [Hin _]. apply in_app_or in Hin as [Hin|[<-|[]]].
  - rewrite List.Forall_forall in Hkept. by apply Hkept.
  - simpl. lia.
Qed.

End ErrorRate.

(** The window of a new bot is empty, and every run of [checkResources] keeps it
    well formed. *)
Lemma checkResources_wellFormed R cfg now metrics bot :
  windowWellFormed (errorRateHistory bot) ->
  windowWellFormed (errorRateHistory (checkResources R cfg now metrics bot).1).
Proof.
  intros Hwf. unfold checkResources.
  destruct (checkCpu cfg now (cpuUsagePercent metrics) (cpuHistory bot)) as [cpuHistory' cpuCalls].
  pose proof (checkErrorRate_wellFormed R cfg now metrics (previousMetrics bot)
                (errorRateHistory bot) Hwf) as Hwf'.
  by destruct (checkErrorRate R cfg now metrics (previousMetrics bot) (errorRateHistory bot)).
Qed.

Lemma resourceRuns_wellFormed R cfg polls bot :
  windowWellFormed (errorRateHistory bot) ->
  windowWellFormed (errorRateHistory (resourceRuns R cfg polls bot).1).
Proof.
  revert bot. induction polls as [|[now metrics] polls IH]; intros bot Hwf; [done|].
  simpl. pose proof (checkResources_wellFormed R cfg now metrics bot Hwf) as H1.
  destruct (checkResources R cfg now metrics bot) as [bot1 calls1]. simpl in H1.
  specialize (IH bot1 H1). by destruct (resourceRuns R cfg polls bot1).
Qed.




(** * Properties of the observer check *)

Section ObserverFacts.

Variable R : Rendering.
Variable cfg : Config.

Lemma reportCalls_no_info now lastCheck status :
  List.filter isInfoAlert (reportCalls R now lastCheck status) = [].
Proof. unfold reportCalls. by repeat case_match. Qed.

Lemma selectionCalls_no_info now lastCheck status history :
  List.filter isInfoAlert (selectionCalls R cfg now lastCheck status history).1.2 = [].
Proof. unfold selectionCalls. by repeat case_match. Qed.

Lemma weightCalls_no_info status : List.filter isInfoAlert (weightCalls cfg status) = [].
Proof. unfold weightCalls. by repeat case_match. Qed.

(** The calls of one check, block by block. *)
Lemma checkObserver_calls ario now status bot :
  exists rest,
    (checkObserver R cfg ario now status bot).2
    = epochChangeCalls R ario (check_epochIndex <$> lastObserverCheck bot) status
      ++ reportCalls R now (lastObserverCheck bot) status
      ++ (selectionCalls R cfg now (lastObserverCheck bot) status
            (observerSelectionHistory bot)).1.2
      ++ rest /\
    List.filter isInfoAlert rest = [] /\ List.filter isReportFailed rest = [].
Proof.
  unfold checkObserver.
  destruct (selectionCalls R cfg now (lastObserverCheck bot) status
              (observerSelectionHistory bot)) as [[history calls3] completed].
  destruct completed; cbn [fst snd].
  - exists (weightCalls cfg status). split; [done|].
    split; unfold weightCalls; by repeat case_match.
  - exists []. by rewrite app_nil_r.
Qed.

(** After a check of the same epoch, the gate of the "report failed" alert is
    closed, however far the deadline lies behind. *)
Lemma report_failed_gate_closed ario now status bot lastCheck :
  lastObserverCheck bot = Some lastCheck ->
  check_epochIndex lastCheck = status_epochIndex status ->
  List.filter isReportFailed (checkObserver R cfg ario now status bot).2 = [].
Proof.
  intros Hlast Hsame.
  destruct (checkObserver_calls ario now status bot) as (rest & -> & _ & Hrest).
  rewrite !List.filter_app, Hrest, Hlast. cbn [fmap option_fmap option_map].
  assert (H1 : List.filter isReportFailed
                 (epochChangeCalls R ario (Some (check_epochIndex lastCheck)) status) = []).
  { unfold epochChangeCalls. by repeat case_match. }
  assert (H2 : List.filter isReportFailed (reportCalls R now (Some lastCheck) status) = []).
  { unfold reportCalls, epochDiffersFromLastCheck.
    rewrite Hsame, Z.eqb_refl, andb_false_r, app_nil_r. by repeat case_match. }
  assert (H3 : List.filter isReportFailed
                 (selectionCalls R cfg now (Some lastCheck) status
                    (observerSelectionHistory bot)).1.2 = []).
  { unfold selectionCalls, epochDiffersFromLastCheck. by rewrite Hsame, Z.eqb_refl. }
  by rewrite H1, H2, H3.
Qed.

End ObserverFacts.

(** C7 (evaluation of the code at the failing input). The gateway is selected
    for epoch 120 and submits no report. The first check of the epoch, five
    hours before its end, records the epoch; the check made one second after the
    end finds the recorded epoch equal to the current one, so the "report
    failed" alert is not raised: over the two polls the only call is the
    five-hour warning. On a first check made thirty minutes before the end, on
    the other hand, the alert is raised although the deadline has not passed. *)
Theorem report_failed_missed_after_deadline :
  List.filter isReportFailed
    (observerRuns integralRendering defaultConfig currentEpochOnly pollsAcrossDeadline
       newMonitoringBot).2 = [] /\
  length
    (observerRuns integralRendering defaultConfig currentEpochOnly pollsAcrossDeadline
       newMonitoringBot).2 = 1%nat /\
  List.filter isReportFailed
    (checkObserver integralRendering defaultConfig currentEpochOnly
       (1700000000000 - 30 * 60000) selectedWithoutReport newMonitoringBot).2
  = [CallObserverAlert report_failed
       {| obs_value := None;
          obs_threshold := None;
          obs_epochIndex := Some 120;
          obs_additional := Some "Epoch deadline has passed" |}].
Proof. repeat split; vm_compute; reflexivity. Qed.

(** For an index other than 0, [getEpochStats] asks the SDK for that epoch, and
    the statistics it returns are those of the epoch the SDK answered with. *)
Lemma getEpochStats_requested_epoch ario index stats :
  index <> 0 ->
  getEpochStats ario (Some index) = Some stats ->
  exists epoch,
    getEpoch ario index = Some epoch /\
    stats_epochIndex stats = epoch_epochIndex epoch /\
    stats_startTimestamp stats = epoch_startTimestamp epoch /\
    stats_endTimestamp stats = epoch_endTimestamp epoch.
Proof.
  intros Hindex. unfold getEpochStats.
  change (JS.orZero (Some index)) with index. cbn [JS.truthy].
  destruct (index =? 0) eqn:E; [lia|]. cbn [negb].
  destruct (getEpoch ario index) as [epoch|]; cbn [mbind option_bind]; [|done].
  destruct (getDistributions ario (epoch_epochIndex epoch)); cbn [mbind option_bind]; [|done].
  intros [= <-]. by exists epoch.
Qed.

(** C8 (amended). When the epoch index of the status differs from the one
    recorded by the previous check, the informational alerts of the check are:
    the "ended" summary built from the statistics fetched for the recorded
    epoch, when that fetch succeeds, followed by the "started" summary built
    from the statistics fetched for the new epoch, when that fetch succeeds, and
    no other. So there are exactly two when both fetches succeed, and an alert
    whose statistics cannot be fetched is skipped. For a recorded index N other
    than 0 the statistics of the "ended" summary are those of the epoch the SDK
    returns for N. *)
Theorem epoch_change_alerts R cfg ario now status bot lastCheck :
  lastObserverCheck bot = Some lastCheck ->
  status_epochIndex status <> check_epochIndex lastCheck ->
  List.filter isInfoAlert (checkObserver R cfg ario now status bot).2
  = match getEpochStats ario (Some (check_epochIndex lastCheck)) with
    | Some previousStats =>
        [CallAlert info (formatEpochChangeMessage R ended previousStats) (Some "epoch")]
    | None => []
    end
    ++
    match getEpochStats ario (Some (status_epochIndex status)) with
    | Some currentStats =>
        [CallAlert info (formatEpochChangeMessage R started currentStats) (Some "epoch")]
    | None => []
    end /\
  (is_Some (getEpochStats ario (Some (check_epochIndex lastCheck))) ->
   is_Some (getEpochStats ario (Some (status_epochIndex status))) ->
   length (List.filter isInfoAlert (checkObserver R cfg ario now status bot).2) = 2%nat) /\
  (check_epochIndex lastCheck <> 0 ->
   forall previousStats,
     getEpochStats ario (Some (check_epochIndex lastCheck)) = Some previousStats ->
     exists epoch,
       getEpoch ario (check_epochIndex lastCheck) = Some epoch /\
       stats_epochIndex previousStats = epoch_epochIndex epoch).
Proof.
  intros Hlast Hchanged.
  assert (Heq :
    List.filter isInfoAlert (checkObserver R cfg ario now status bot).2
    = match getEpochStats ario (Some (check_epochIndex lastCheck)) with
      | Some previousStats =>
          [CallAlert info (formatEpochChangeMessage R ended previousStats) (Some "epoch")]
      | None => []
      end
      ++
      match getEpochStats ario (Some (status_epochIndex status)) with
      | Some currentStats =>
          [CallAlert info (formatEpochChangeMessage R started currentStats) (Some "epoch")]
      | None => []
      end).
  { destruct (checkObserver_calls R cfg ario now status bot) as (rest & -> & Hrest & _).
    rewrite !List.filter_app, Hrest, reportCalls_no_info, selectionCalls_no_info, !app_nil_r.
    rewrite Hlast. cbn [fmap option_fmap option_map]. unfold epochChangeCalls.
    destruct (status_epochIndex status =? check_epochIndex lastCheck) eqn:E; [lia|].
    cbn [negb]. rewrite List.filter_app.
    by destruct (getEpochStats ario (Some (check_epochIndex lastCheck))),
                (getEpochStats ario (Some (status_epochIndex status))). }
  split; [exact Heq|]. split.
  - rewrite Heq. by intros [? ->] [? ->].
  - intros Hindex previousStats Hstats.
    destruct (getEpochStats_requested_epoch ario _ _ Hindex Hstats) as (epoch & ? & ? & _).
    eauto.
Qed.

Lemma epoch_change_alerts_witness :
  List.filter isInfoAlert
    (checkObserver integralRendering defaultConfig currentEpochOnly 1700000300000
       firstStatusOfEpoch121 checkedInEpoch120).2
  = match getEpochStats currentEpochOnly (Some 120) with
    | Some previousStats =>
        [CallAlert info (formatEpochChangeMessage integralRendering ended previousStats)
           (Some "epoch")]
    | None => []
    end
    ++
    match getEpochStats currentEpochOnly (Some 121) with
    | Some currentStats =>
        [CallAlert info (formatEpochChangeMessage integralRendering started currentStats)
           (Some "epoch")]
    | None => []
    end.
Proof.
  refine (proj1 (epoch_change_alerts integralRendering defaultConfig currentEpochOnly
                   1700000300000 firstStatusOfEpoch121 checkedInEpoch120
                   {| check_epochIndex := 120; check_wasSelected := false;
                      check_hadReport := false |} _ _)).
  - reflexivity.
  - vm_compute. discriminate.
Defined.

(** The epoch index goes from 120 to 121 between two checks while the SDK cannot
    serve the statistics of epoch 120: one informational alert is produced, the
    "started" summary of epoch 121, and not two. *)
Lemma epoch_change_with_failed_fetch :
  lastObserverCheck checkedInEpoch120
  = Some {| check_epochIndex := 120; check_wasSelected := false; check_hadReport := false |} /\
  status_epochIndex firstStatusOfEpoch121 = 120 + 1 /\
  length
    (List.filter isInfoAlert
       (checkObserver integralRendering defaultConfig currentEpochOnly 1700000300000
          firstStatusOfEpoch121 checkedInEpoch120).2) = 1%nat.
Proof. repeat split; vm_compute; reflexivity. Qed.

(** * Further properties of the dispatcher *)

(** ** Mute commands *)

(** The mute state at a later time is not changed by an expiry sweep made
    earlier. *)
Lemma globallyMuted_after_sweep now1 now2 bot :
  now1 <= now2 ->
  globallyMuted now2 (clearExpiredCategoryMutes now1 (clearExpiredMute now1 bot))
  = globallyMuted now2 bot.
Proof.
  intros Hle. unfold globallyMuted, clearExpiredCategoryMutes, clearExpiredMute; simpl.
  destruct (muteUntil bot) as [u|] eqn:Hu; simpl; [|by rewrite Hu].
  destruct (u =? 0) eqn:E0; simpl; [by rewrite Hu; simpl; rewrite E0|].
  destruct (u <=? now1) eqn:E1; simpl; [|by rewrite Hu; simpl; rewrite E0].
  symmetry. apply andb_false_iff. right. lia.
Qed.

Lemma categoryMuted_after_sweep now1 now2 category bot :
  now1 <= now2 ->
  categoryMuted now2 category (clearExpiredCategoryMutes now1 (clearExpiredMute now1 bot))
  = categoryMuted now2 category bot.
Proof.
  intros Hle. unfold categoryMuted. destruct category as [c|]; [|done]. f_equal.
  replace (categoryMutes (clearExpiredCategoryMutes now1 (clearExpiredMute now1 bot)))
    with (filter (λ kv : string * Z, now1 < kv.2) (categoryMutes bot))
    by (unfold clearExpiredCategoryMutes, clearExpiredMute; by case_match).
  destruct (categoryMutes bot !! c) as [t|] eqn:Hc.
  - destruct (decide (now1 < t)) as [Hlt|Hge].
    + by erewrite (map_lookup_filter_Some_2 _ _ c t).
    + rewrite map_lookup_filter_None_2; [lia|]. right. intros x Hx. simpl. naive_solver.
  - rewrite map_lookup_filter_None_2; [done|]. by left.
Qed.

(** What [sendAlert] sends is fixed by the time recorded under its key and by
    the two mute tests. *)
Lemma sendAlert_output cfg now type message category bot :
  (sendAlert cfg now type message category bot).2
  = if now - lastAlert (alertKeyOfAlert type message) bot <? alertCooldown cfg then []
    else if globallyMuted now bot || categoryMuted now category bot then []
         else [NAlert type message
                 ("mute_menu:" +:+
                  (if JS.truthyString category then default "" category
                   else severityName type))].
Proof.
  destruct (_ <? _) eqn:E.
  - by rewrite sendAlert_within_cooldown by lia.
  - by rewrite sendAlert_after_cooldown by lia.
Qed.

(** X1. A timed global mute set with [setMute] ("1h", "6h" or "24h") at [now0]
    suppresses every generic alert dispatched before [now0] plus the duration;
    from that time on [sendAlert] clears the mute and behaves, state and
    notifications, as on a dispatcher that was unmuted by hand. *)
Theorem timed_mute_lifetime cfg now0 duration muteMs bot now type message category :
  In (duration, muteMs) [("1h", 3600000); ("6h", 21600000); ("24h", 86400000)] ->
  0 <= now0 ->
  (now < now0 + muteMs ->
   (sendAlert cfg now type message category (setMute now0 duration bot)).2 = []) /\
  (now0 + muteMs <= now ->
   sendAlert cfg now type message category (setMute now0 duration bot)
   = sendAlert cfg now type message category (handleUnmute bot)).
Proof.
  intros Hin Hnow0.
  assert (Hset : setMute now0 duration bot = setMuteState true (Some (now0 + muteMs)) bot /\
                 0 < muteMs).
  { destruct Hin as [[= <- <-]|[[= <- <-]|[[= <- <-]|[]]]]; by split. }
  destruct Hset as [-> Hpos]. split.
  - intros Hbefore. apply sendAlert_globally_muted.
    unfold globallyMuted. cbn [isMuted muteUntil setMuteState JS.truthy JS.orZero default].
    change (id (now0 + muteMs)) with (now0 + muteMs).
    destruct (now0 + muteMs =? 0) eqn:E; [lia|]. cbn. lia.
  - intros Hafter. unfold sendAlert, handleUnmute.
    assert (Hsweep : clearExpiredMute now (setMuteState true (Some (now0 + muteMs)) bot)
                     = clearExpiredMute now (setMuteState false None bot)).
    { unfold clearExpiredMute. cbn [muteUntil setMuteState JS.truthy JS.orZero default].
      change (id (now0 + muteMs)) with (now0 + muteMs).
      destruct (now0 + muteMs =? 0) eqn:E; [lia|].
      destruct (now0 + muteMs <=? now) eqn:E'; [|lia]. reflexivity. }
    rewrite Hsweep. reflexivity.
Qed.

Lemma timed_mute_lifetime_witness :
  (sendAlert defaultConfig 1700001800000 critical "Core service is DOWN" (Some "service_health")
     (setMute 1700000000000 "1h" newTelegramBot)).2 = [].
Proof.
  refine (proj1 (timed_mute_lifetime defaultConfig 1700000000000 "1h" 3600000 newTelegramBot
                   1700001800000 critical "Core service is DOWN" (Some "service_health") _ _) _).
  - left. reflexivity.
  - vm_compute. discriminate.
  - vm_compute. reflexivity.
Defined.

(** X2. [sendAlert] sweeps the mutes that have run out: after a dispatch at
    [now], whether it was sent or not, the category map holds exactly the
    entries it held before whose time lies after [now], which are the
    categories the /unmute_category command lists at [now]; and a global mute
    time that is left lies after [now] as well (or is the falsy 0). *)
Theorem expired_mutes_swept cfg now type message category bot :
  (forall c t,
      categoryMutes (sendAlert cfg now type message category bot).1 !! c = Some t <->
      categoryMutes bot !! c = Some t /\ now < t) /\
  categoryMutes (sendAlert cfg now type message category bot).1 = mutedCategories now bot /\
  (forall expiry,
      muteUntil (sendAlert cfg now type message category bot).1 = Some expiry ->
      muteUntil bot = Some expiry /\ (now < expiry \/ expiry = 0)).
Proof.
  assert (Hcat : categoryMutes (sendAlert cfg now type message category bot).1
                 = filter (λ kv : string * Z, now < kv.2) (categoryMutes bot)).
  { destruct (Z_lt_le_dec (now - lastAlert (alertKeyOfAlert type message) bot)
                (alertCooldown cfg)).
    - rewrite sendAlert_within_cooldown by done.
      unfold clearExpiredCategoryMutes, clearExpiredMute. by case_match.
    - rewrite sendAlert_after_cooldown by done.
      unfold clearExpiredCategoryMutes, clearExpiredMute. by case_match. }
  assert (Hmute : muteUntil (sendAlert cfg now type message category bot).1
                  = muteUntil (clearExpiredMute now bot)).
  { destruct (Z_lt_le_dec (now - lastAlert (alertKeyOfAlert type message) bot)
                (alertCooldown cfg)).
    - by rewrite sendAlert_within_cooldown by done.
    - by rewrite sendAlert_after_cooldown by done. }
  split; [|split].
  - intros c t. rewrite Hcat. apply map_lookup_filter_Some.
  - exact Hcat.
  - intros expiry. rewrite Hmute. unfold clearExpiredMute.
    destruct (muteUntil bot) as [u|] eqn:Hu; simpl; [|by rewrite Hu].
    destruct (u =? 0) eqn:E0; simpl.
    + rewrite Hu. intros [= <-]. split; [done|]. right. lia.
    + destruct (u <=? now) eqn:E1; simpl; [done|].
      rewrite Hu. intros [= <-]. split; [done|]. left. lia.
Qed.

(** X3. A category mute set with the button handler lasts as long as asked for:
    alerts tagged with the category are suppressed before the mute time and pass
    as without the entry from that time on, and alerts with any other category,
    or with none, are never affected. *)
Theorem category_mute_lifetime cfg now0 c duration expiry bot now type message :
  (duration = "infinite" /\ expiry = now0 + 315360000000) \/
  (duration <> "infinite" /\ exists ms, parseInt10 duration = Some ms /\ expiry = now0 + ms) ->
  c <> "" ->
  (now < expiry ->
   (sendAlert cfg now type message (Some c) (muteCategory now0 c duration bot)).2 = []) /\
  (expiry <= now ->
   (sendAlert cfg now type message (Some c) (muteCategory now0 c duration bot)).2
   = (sendAlert cfg now type message (Some c) (unmuteCategory c bot)).2) /\
  (forall category,
      category <> Some c ->
      (sendAlert cfg now type message category (muteCategory now0 c duration bot)).2
      = (sendAlert cfg now type message category bot).2).
Proof.
  intros Hduration Hc.
  assert (Hset : muteCategory now0 c duration bot
                 = setCategoryMutes (<[c := expiry]> (categoryMutes bot)) bot).
  { unfold muteCategory. destruct Hduration as [[-> ->]|[Hne (ms & Hms & ->)]]; [done|].
    destruct (String.eqb_spec duration "infinite"); [done|]. by rewrite Hms. }
  rewrite Hset.
  assert (Htruthy : JS.truthyString (Some c) = true).
  { unfold JS.truthyString. by destruct (String.eqb_spec c ""). }
  split; [|split].
  - intros Hbefore. rewrite sendAlert_output.
    replace (categoryMuted now (Some c) (setCategoryMutes (<[c:=expiry]> (categoryMutes bot)) bot))
      with true; [by rewrite orb_true_r; case_match|].
    unfold categoryMuted. cbn [categoryMutes setCategoryMutes].
    rewrite lookup_insert_eq, Htruthy. symmetry. cbn. lia.
  - intros Hafter. rewrite !sendAlert_output.
    replace (categoryMuted now (Some c) (setCategoryMutes (<[c:=expiry]> (categoryMutes bot)) bot))
      with false.
    2:{ unfold categoryMuted. cbn [categoryMutes setCategoryMutes].
        rewrite lookup_insert_eq, Htruthy. symmetry. cbn. lia. }
    replace (categoryMuted now (Some c) (unmuteCategory c bot)) with false; [done|].
    unfold categoryMuted, unmuteCategory. cbn [categoryMutes setCategoryMutes].
    by rewrite lookup_delete_eq, andb_false_r.
  - intros category Hother. rewrite !sendAlert_output.
    replace (categoryMuted now category
               (setCategoryMutes (<[c:=expiry]> (categoryMutes bot)) bot))
      with (categoryMuted now category bot); [done|].
    unfold categoryMuted. destruct category as [c'|]; [|done].
    cbn [categoryMutes setCategoryMutes]. rewrite lookup_insert_ne; [done|congruence].
Qed.

Lemma category_mute_lifetime_witness :
  (sendAlert defaultConfig 1700000060000 warning "Disk almost full" (Some "disk")
     (muteCategory 1700000000000 "disk" "300000" newTelegramBot)).2 = [].
Proof.
  refine (proj1 (category_mute_lifetime defaultConfig 1700000000000 "disk" "300000"
                   (1700000000000 + 300000) newTelegramBot 1700000060000 warning
                   "Disk almost full" _ _) _).
  - right. split; [discriminate|]. exists 300000. split; reflexivity.
  - discriminate.
  - vm_compute. reflexivity.
Defined.

(** X4. Unmuting a category undoes muting it: the dispatcher is left as if the
    category had been unmuted without the mute, and, when the category was not
    muted before, exactly as it was. After "unmute all" no category is muted. *)
Theorem category_mute_round_trip now c duration bot :
  unmuteCategory c (muteCategory now c duration bot) = unmuteCategory c bot /\
  (categoryMutes bot !! c = None ->
   unmuteCategory c (muteCategory now c duration bot) = bot) /\
  (forall now' category, categoryMuted now' category (unmuteAllCategories bot) = false).
Proof.
  assert (Hundo : unmuteCategory c (muteCategory now c duration bot) = unmuteCategory c bot).
  { unfold unmuteCategory, muteCategory.
    destruct (String.eqb duration "infinite");
      [|destruct (parseInt10 duration); [|done]];
      cbn [categoryMutes setCategoryMutes lastAlertTime alertHistory isMuted muteUntil];
      by rewrite delete_insert_eq. }
  split; [exact Hundo|]. split.
  - intros Habsent. rewrite Hundo. unfold unmuteCategory.
    rewrite delete_id by done. by destruct bot.
  - intros now' [c'|]; [|done]. unfold categoryMuted, unmuteAllCategories.
    cbn [categoryMutes setCategoryMutes]. by rewrite lookup_empty, andb_false_r.
Qed.

Lemma category_mute_round_trip_witness :
  unmuteCategory "disk" (muteCategory 1700000000000 "disk" "infinite" newTelegramBot)
  = newTelegramBot.
Proof.
  apply (proj1 (proj2 (category_mute_round_trip 1700000000000 "disk" "infinite" newTelegramBot))).
  reflexivity.
Defined.

(** ** Cooldown keys and independence of alerts *)

(** What a dispatch sends is fixed by the time recorded under its key and, for
    a generic alert, by the two mute tests. *)
Lemma dispatch_output_ext R cfg now call bot bot' :
  lastAlert (alertKeyOf R call) bot = lastAlert (alertKeyOf R call) bot' ->
  globallyMuted now bot = globallyMuted now bot' ->
  (forall category, categoryMuted now category bot = categoryMuted now category bot') ->
  (dispatch R cfg now call bot).2 = (dispatch R cfg now call bot').2.
Proof.
  intros Hlast Hglobal Hcategory. destruct call; cbn [dispatch alertKeyOf] in *.
  - rewrite !sendAlert_output. by rewrite Hlast, Hglobal, Hcategory.
  - unfold sendResourceAlert. rewrite Hlast. by case_match.
  - unfold sendPerformanceAlert. rewrite Hlast. by case_match.
  - unfold sendObserverAlert. rewrite Hlast. by case_match.
  - unfold sendGatewayChangeAlert. rewrite Hlast. by case_match.
  - unfold sendArnsChangeAlert. rewrite Hlast. by case_match.
Qed.

(** A dispatch changes the mute fields by the expiry sweep of [sendAlert] only,
    which does not change what is muted at a later time. *)
Lemma dispatch_mutes_later R cfg now1 now2 call bot :
  now1 <= now2 ->
  globallyMuted now2 (dispatch R cfg now1 call bot).1 = globallyMuted now2 bot /\
  (forall category,
      categoryMuted now2 category (dispatch R cfg now1 call bot).1
      = categoryMuted now2 category bot).
Proof.
  intros Hle. destruct call; cbn [dispatch].
  - destruct (Z_lt_le_dec (now1 - lastAlert (alertKeyOfAlert type message) bot)
                (alertCooldown cfg)).
    + rewrite sendAlert_within_cooldown by done. cbn [fst].
      split; [by apply globallyMuted_after_sweep|].
      intros. by apply categoryMuted_after_sweep.
    + rewrite sendAlert_after_cooldown by done. cbn [fst].
      split.
      * rewrite <- (globallyMuted_after_sweep now1 now2 bot Hle). reflexivity.
      * intros. rewrite <- (categoryMuted_after_sweep now1 now2 category0 bot Hle).
        reflexivity.
  - unfold sendResourceAlert. by case_match.
  - unfold sendPerformanceAlert. by case_match.
  - unfold sendObserverAlert. by case_match.
  - unfold sendGatewayChangeAlert. by case_match.
  - unfold sendArnsChangeAlert. by case_match.
Qed.

(** A dispatch leaves the times recorded under the other keys as they are. *)
Lemma lastAlert_after_other_key R cfg now call bot key :
  alertKeyOf R call <> key ->
  lastAlert key (dispatch R cfg now call bot).1 = lastAlert key bot.
Proof.
  intros Hkey. unfold lastAlert. rewrite dispatch_lastAlertTime.
  destruct (_ <? _); [done|]. by rewrite lookup_insert_ne.
Qed.

(** X5. Alerts with different cooldown keys do not interfere: what a dispatch
    sends is the same whether or not an alert with another key was dispatched
    before it (at an earlier or equal clock reading). *)
Theorem dispatch_independent R cfg bot now1 call1 now2 call2 :
  alertKeyOf R call1 <> alertKeyOf R call2 ->
  now1 <= now2 ->
  (dispatch R cfg now2 call2 (dispatch R cfg now1 call1 bot).1).2
  = (dispatch R cfg now2 call2 bot).2.
Proof.
  intros Hkey Hle.
  destruct (dispatch_mutes_later R cfg now1 now2 call1 bot Hle) as [Hglobal Hcategory].
  apply dispatch_output_ext; [|exact Hglobal|exact Hcategory].
  by apply lastAlert_after_other_key.
Qed.

Lemma dispatch_independent_witness :
  (dispatch integralRendering defaultConfig 1700000060000 (CallResourceAlert memory 95 90)
     (dispatch integralRendering defaultConfig 1700000000000 (CallResourceAlert cpu 95 80)
        newTelegramBot).1).2
  = (dispatch integralRendering defaultConfig 1700000060000 (CallResourceAlert memory 95 90)
       newTelegramBot).2.
Proof.
  apply (dispatch_independent integralRendering defaultConfig newTelegramBot 1700000000000
           (CallResourceAlert cpu 95 80) 1700000060000 (CallResourceAlert memory 95 90)).
  - vm_compute. discriminate.
  - vm_compute. discriminate.
Defined.

(** The first character of the key tells the kind. *)
Lemma alertKeyOf_initial R call :
  initial (alertKeyOf R call)
  = Some match call with
         | CallAlert info _ _ => "i"%char
         | CallAlert warning _ _ => "w"%char
         | CallAlert critical _ _ => "c"%char
         | CallResourceAlert _ _ _ => "r"%char
         | CallPerformanceAlert _ _ => "p"%char
         | CallObserverAlert _ _ => "o"%char
         | CallGatewayChangeAlert _ => "g"%char
         | CallArnsChangeAlert _ => "a"%char
         end.
Proof. destruct call as [[]| | | | |]; reflexivity. Qed.

(** X6. Calls that enter different operations never share a cooldown key (the
    keys start with "info:", "warning:", "critical:", "resource:",
    "performance:", "observer:", "gateway:" and "arns:"), so an alert of one
    kind never holds back an alert of another kind. *)
Theorem kinds_have_disjoint_keys R cfg bot now1 call1 now2 call2 :
  callKind call1 <> callKind call2 ->
  alertKeyOf R call1 <> alertKeyOf R call2 /\
  (now1 <= now2 ->
   (dispatch R cfg now2 call2 (dispatch R cfg now1 call1 bot).1).2
   = (dispatch R cfg now2 call2 bot).2).
Proof.
  intros Hkind.
  assert (Hkey : alertKeyOf R call1 <> alertKeyOf R call2).
  { intros Heq. apply (f_equal initial) in Heq. rewrite !alertKeyOf_initial in Heq.
    destruct call1 as [[]| | | | |], call2 as [[]| | | | |];
      solve [discriminate Heq | by apply Hkind]. }
  split; [exact Hkey|]. intros Hle.
  destruct (dispatch_mutes_later R cfg now1 now2 call1 bot Hle) as [Hglobal Hcategory].
  apply dispatch_output_ext; [|exact Hglobal|exact Hcategory].
  by apply lastAlert_after_other_key.
Qed.

Lemma kinds_have_disjoint_keys_witness :
  alertKeyOf integralRendering (CallAlert critical "resource:cpu:80" None)
  <> alertKeyOf integralRendering (CallResourceAlert cpu 95 80).
Proof.
  refine (proj1 (kinds_have_disjoint_keys integralRendering defaultConfig newTelegramBot 0
                   (CallAlert critical "resource:cpu:80" None) 0 (CallResourceAlert cpu 95 80) _)).
  discriminate.
Defined.

(** X7. Generic alerts are deduplicated on their exact content: two calls of
    [sendAlert] have the same cooldown key exactly when they have the same
    severity and the same message, whatever their categories are. *)
Theorem generic_key_is_content type1 message1 type2 message2 :
  alertKeyOfAlert type1 message1 = alertKeyOfAlert type2 message2
  <-> type1 = type2 /\ message1 = message2.
Proof.
  split; [|by intros [-> ->]].
  unfold alertKeyOfAlert. destruct type1, type2; cbn; intros Heq;
    first [discriminate Heq | injection Heq as Heq; by subst].
Qed.

(** * Further properties of the observer check *)

Section SelectionHistory.

Variable R : Rendering.
Variable cfg : Config.

(** The last [n] entries of a list, for a positive [n]. *)
Lemma sliceFrom_last {A} (n : Z) (l : list A) :
  1 <= n -> sliceFrom (- n) l = drop (length l - Z.to_nat n) l.
Proof.
  intros Hn. unfold sliceFrom. destruct (- n <? 0) eqn:E; [|lia].
  f_equal. lia.
Qed.

(** The selection block in a check of the epoch already recorded. *)
Lemma selectionCalls_same_epoch now lastCheck status history :
  epochDiffersFromLastCheck lastCheck status = false ->
  selectionCalls R cfg now lastCheck status history = (history, [], true).
Proof. intros H. unfold selectionCalls. by rewrite H. Qed.

(** The history written by the selection block in a check of a new epoch. *)
Lemma selectionCalls_new_epoch_history now lastCheck status history :
  epochDiffersFromLastCheck lastCheck status = true ->
  (selectionCalls R cfg now lastCheck status history).1.1
  = if (20 <? length (history ++ [selectionSample now status]))%nat
    then tail (history ++ [selectionSample now status])
    else history ++ [selectionSample now status].
Proof.
  intros H. unfold selectionCalls. rewrite H. fold (selectionSample now status).
  by repeat case_match.
Qed.

Lemma selectionCalls_history_bound now lastCheck status history :
  (length history <= 20)%nat ->
  (length (selectionCalls R cfg now lastCheck status history).1.1 <= 20)%nat.
Proof.
  intros Hle. destruct (epochDiffersFromLastCheck lastCheck status) eqn:E.
  - rewrite selectionCalls_new_epoch_history by done.
    destruct (20 <? _)%nat eqn:E'.
    + destruct history as [|x history]; cbn [app tail]; [discriminate|].
      rewrite length_app. simpl in *. lia.
    + apply Nat.ltb_ge in E'. exact E'.
  - by rewrite selectionCalls_same_epoch.
Qed.

(** With a positive threshold the block raises the alert exactly when the
    history it leaves has at least that many entries and the last ones, as many
    as the threshold, are all "not selected"; and it always runs to its end. *)
Lemma selectionCalls_alert now lastCheck status history :
  1 <= notSelectedEpochsThreshold cfg ->
  epochDiffersFromLastCheck lastCheck status = true ->
  let result := selectionCalls R cfg now lastCheck status history in
  result.2 = true /\
  List.filter (fun call => negb (isNotSelected call)) result.1.2 = [] /\
  (result.1.2 <> [] <->
   notSelectedEpochsThreshold cfg <= Z.of_nat (length result.1.1) /\
   Forall (fun h => sel_selected h = false)
     (drop (length result.1.1 - Z.to_nat (notSelectedEpochsThreshold cfg)) result.1.1)).
Proof.
  intros Hn Hnew result. subst result.
  unfold selectionCalls. rewrite Hnew. fold (selectionSample now status).
  remember (if (20 <? length (history ++ [selectionSample now status]))%nat
            then tail (history ++ [selectionSample now status])
            else history ++ [selectionSample now status]) as history' eqn:Hhistory'.
  rewrite (sliceFrom_last _ history' Hn).
  remember (drop (length history' - Z.to_nat (notSelectedEpochsThreshold cfg)) history')
    as recent eqn:Hrecent.
  assert (Hlen : length recent
                 = (length history' - (length history'
                                       - Z.to_nat (notSelectedEpochsThreshold cfg)))%nat).
  { subst recent. apply length_drop. }
  assert (Hall : forallb (fun h => negb (sel_selected h)) recent = true <->
                 Forall (fun h => sel_selected h = false) recent).
  { rewrite forallb_forall, List.Forall_forall.
    split; intros H x Hx; specialize (H x Hx); by destruct (sel_selected x). }
  destruct (notSelectedEpochsThreshold cfg <=? Z.of_nat (length recent)) eqn:E1.
  - destruct (forallb (fun h => negb (sel_selected h)) recent) eqn:E2.
    + destruct recent as [|first recent'].
      { exfalso. apply Z.leb_le in E1. simpl in E1. lia. }
      change (head (first :: recent')) with (Some first).
      destruct (last (first :: recent')) as [final|] eqn:Hlast.
      * cbn [fst snd]. rewrite <- Hrecent. split; [done|]. split; [done|].
        split; [|done]. intros _. split; [lia|]. by apply Hall.
      * apply last_None in Hlast. discriminate.
    + cbn [fst snd]. rewrite <- Hrecent. split; [done|]. split; [done|].
      split; [done|]. intros [_ HF]. apply Hall in HF. congruence.
  - cbn [fst snd]. split; [done|]. split; [done|].
    split; [done|]. intros [Hge _]. lia.
Qed.

End SelectionHistory.

Section ObserverRecords.

Variable R : Rendering.
Variable cfg : Config.

Lemma selection_history_nonempty (history : list SelectionSample) sample :
  (if (20 <? length (history ++ [sample]))%nat
   then tail (history ++ [sample]) else history ++ [sample]) <> [].
Proof.
  destruct (20 <? _)%nat eqn:E.
  - apply Nat.ltb_lt in E. destruct (history ++ [sample]) as [|x [|y l]]; simpl in *; [lia|lia|done].
  - by destruct history.
Qed.

(** With a threshold that is not negative the selection block runs to its end. *)
Lemma selectionCalls_completes now lastCheck status history :
  0 <= notSelectedEpochsThreshold cfg ->
  (selectionCalls R cfg now lastCheck status history).2 = true.
Proof.
  intros Hn. destruct (epochDiffersFromLastCheck lastCheck status) eqn:Hnew;
    [|by rewrite selectionCalls_same_epoch].
  destruct (Z.eq_dec (notSelectedEpochsThreshold cfg) 0) as [Hzero|Hpos].
  - unfold selectionCalls. rewrite Hnew, Hzero. fold (selectionSample now status).
    pose proof (selection_history_nonempty history (selectionSample now status)) as Hne.
    destruct (if (20 <? _)%nat then _ else _) as [|first rest] eqn:Hh; [done|].
    change (sliceFrom (- 0) (first :: rest)) with (first :: rest).
    cbn [head]. destruct (last (first :: rest)) eqn:Hlast;
      [by repeat case_match|]. apply last_None in Hlast. discriminate.
  - apply selectionCalls_alert; [lia|done].
Qed.

(** The state and the calls of a check in terms of its selection block. *)
Lemma checkObserver_selection ario now status bot :
  observerSelectionHistory (checkObserver R cfg ario now status bot).1
  = (selectionCalls R cfg now (lastObserverCheck bot) status
       (observerSelectionHistory bot)).1.1 /\
  List.filter isNotSelected (checkObserver R cfg ario now status bot).2
  = List.filter isNotSelected
      (selectionCalls R cfg now (lastObserverCheck bot) status
         (observerSelectionHistory bot)).1.2 /\
  lastObserverCheck (checkObserver R cfg ario now status bot).1
  = if (selectionCalls R cfg now (lastObserverCheck bot) status
          (observerSelectionHistory bot)).2
    then Some {| check_epochIndex := status_epochIndex status;
                 check_wasSelected := status_isSelectedAsObserver status;
                 check_hadReport := default false (status_hasSubmittedReport status) |}
    else lastObserverCheck bot.
Proof.
  assert (H1 : forall previous,
             List.filter isNotSelected (epochChangeCalls R ario previous status) = []).
  { intros. unfold epochChangeCalls. by repeat case_match. }
  assert (H2 : List.filter isNotSelected (reportCalls R now (lastObserverCheck bot) status) = []).
  { unfold reportCalls. by repeat case_match. }
  assert (H3 : List.filter isNotSelected (weightCalls cfg status) = []).
  { unfold weightCalls. by repeat case_match. }
  unfold checkObserver.
  destruct (selectionCalls R cfg now (lastObserverCheck bot) status
              (observerSelectionHistory bot)) as [[history calls3] completed].
  destruct completed; cbn [fst snd observerSelectionHistory lastObserverCheck];
    rewrite !List.filter_app, H1, H2, ?H3, ?app_nil_r; done.
Qed.

End ObserverRecords.

(** X8. The selection history grows once per epoch, not once per poll: over any
    number of consecutive polls that all report the same epoch, starting from a
    state whose last check was of another epoch (or from no check at all), the
    history is the one before with the sample of the first poll appended, the
    oldest entry dropped when that makes more than 20. The threshold is taken not
    negative. *)
Theorem selection_history_once_per_epoch R cfg ario now status polls bot :
  0 <= notSelectedEpochsThreshold cfg ->
  epochDiffersFromLastCheck (lastObserverCheck bot) status = true ->
  Forall (fun poll => status_epochIndex poll.2 = status_epochIndex status) polls ->
  observerSelectionHistory (observerRuns R cfg ario ((now, status) :: polls) bot).1
  = if (20 <? length (observerSelectionHistory bot ++ [selectionSample now status]))%nat
    then tail (observerSelectionHistory bot ++ [selectionSample now status])
    else observerSelectionHistory bot ++ [selectionSample now status].
Proof.
  intros Hn Hnew Hpolls.
  assert (Hsame : forall polls' bot',
             Forall (fun poll => status_epochIndex poll.2 = status_epochIndex status) polls' ->
             (exists lastCheck, lastObserverCheck bot' = Some lastCheck /\
                                check_epochIndex lastCheck = status_epochIndex status) ->
             observerSelectionHistory (observerRuns R cfg ario polls' bot').1
             = observerSelectionHistory bot').
  { induction polls' as [|[now' status'] polls' IH]; intros bot' Hall Hlast; [done|].
    apply Forall_cons in Hall as [Hhere Hall]. cbn [snd] in Hhere.
    cbn [observerRuns].
    destruct (checkObserver_selection R cfg ario now' status' bot') as (Hh & _ & Hl).
    assert (Hgate : epochDiffersFromLastCheck (lastObserverCheck bot') status' = false).
    { destruct Hlast as (lastCheck & -> & Heq). cbn. rewrite Heq, Hhere. by rewrite Z.eqb_refl. }
    rewrite (selectionCalls_same_epoch R cfg now' _ status' _ Hgate) in Hh, Hl.
    cbn [fst snd] in Hh, Hl.
    destruct (checkObserver R cfg ario now' status' bot') as [bot1 calls1].
    cbn [fst] in Hh, Hl.
    specialize (IH bot1 Hall).
    destruct (observerRuns R cfg ario polls' bot1) as [bot2 calls2]. cbn [fst] in *.
    rewrite IH, Hh; [done|]. eexists. split; [exact Hl|]. by rewrite Hhere. }
  cbn [observerRuns].
  destruct (checkObserver_selection R cfg ario now status bot) as (Hh & _ & Hl).
  rewrite (selectionCalls_completes R cfg now _ status _ Hn) in Hl.
  rewrite (selectionCalls_new_epoch_history R cfg now _ status _ Hnew) in Hh.
  destruct (checkObserver R cfg ario now status bot) as [bot1 calls1]. cbn [fst] in Hh, Hl.
  specialize (Hsame polls bot1 Hpolls).
  destruct (observerRuns R cfg ario polls bot1) as [bot2 calls2]. cbn [fst] in *.
  rewrite Hsame, Hh; [done|]. eexists. split; [exact Hl|done].
Qed.

Lemma selection_history_once_per_epoch_witness :
  observerSelectionHistory
    (observerRuns integralRendering defaultConfig currentEpochOnly
       ((1700000300000, firstStatusOfEpoch121)
          :: [(1700000600000, firstStatusOfEpoch121); (1700000900000, firstStatusOfEpoch121)])
       checkedInEpoch120).1
  = if (20 <? length (observerSelectionHistory checkedInEpoch120
                      ++ [selectionSample 1700000300000 firstStatusOfEpoch121]))%nat
    then tail (observerSelectionHistory checkedInEpoch120
               ++ [selectionSample 1700000300000 firstStatusOfEpoch121])
    else observerSelectionHistory checkedInEpoch120
         ++ [selectionSample 1700000300000 firstStatusOfEpoch121].
Proof.
  apply (selection_history_once_per_epoch integralRendering defaultConfig currentEpochOnly
           1700000300000 firstStatusOfEpoch121
           [(1700000600000, firstStatusOfEpoch121); (1700000900000, firstStatusOfEpoch121)]
           checkedInEpoch120).
  - vm_compute. discriminate.
  - reflexivity.
  - repeat constructor.
Defined.

(** X9. With a positive threshold N, a check raises the "not selected" alert
    exactly when it is the first check of an epoch and the selection history it
    leaves holds at least N entries of which the last N are all "not selected". *)
Theorem not_selected_alert_iff R cfg ario now status bot :
  1 <= notSelectedEpochsThreshold cfg ->
  List.filter isNotSelected (checkObserver R cfg ario now status bot).2 <> [] <->
  epochDiffersFromLastCheck (lastObserverCheck bot) status = true /\
  notSelectedEpochsThreshold cfg
  <= Z.of_nat (length (observerSelectionHistory (checkObserver R cfg ario now status bot).1)) /\
  Forall (fun h => sel_selected h = false)
    (drop (length (observerSelectionHistory (checkObserver R cfg ario now status bot).1)
           - Z.to_nat (notSelectedEpochsThreshold cfg))
       (observerSelectionHistory (checkObserver R cfg ario now status bot).1)).
Proof.
  intros Hn.
  destruct (checkObserver_selection R cfg ario now status bot) as (-> & -> & _).
  destruct (epochDiffersFromLastCheck (lastObserverCheck bot) status) eqn:Hnew.
  - destruct (selectionCalls_alert R cfg now (lastObserverCheck bot) status
                (observerSelectionHistory bot) Hn Hnew) as (_ & Honly & Hiff).
    rewrite <- Hiff. clear Hiff.
    set (calls := (selectionCalls R cfg now (lastObserverCheck bot) status
                     (observerSelectionHistory bot)).1.2) in *.
    assert (Hfilter : List.filter isNotSelected calls = calls).
    { clearbody calls. induction calls as [|call calls IH]; [done|].
      simpl in *. destruct (isNotSelected call); simpl in *; [|done].
      f_equal. by apply IH. }
    rewrite Hfilter. tauto.
  - rewrite selectionCalls_same_epoch by done. cbn. split; [done|]. by intros [? _].
Qed.

Lemma not_selected_alert_iff_witness :
  List.filter isNotSelected
    (checkObserver integralRendering defaultConfig currentEpochOnly 1700000300000
       firstStatusOfEpoch121 notSelectedSinceEpoch117).2 <> [].
Proof.
  apply (proj2 (not_selected_alert_iff integralRendering defaultConfig currentEpochOnly
                  1700000300000 firstStatusOfEpoch121 notSelectedSinceEpoch117 ltac:(vm_compute; discriminate))).
  split; [reflexivity|]. split; [vm_compute; discriminate|].
  vm_compute. repeat constructor.
Defined.

(** X10. The selection history never holds more than 20 entries, so a threshold
    above 20 can never be reached: the "not selected" alert is never raised. *)
Theorem not_selected_threshold_above_cap R cfg ario now status bot :
  (length (observerSelectionHistory bot) <= 20)%nat ->
  (length (observerSelectionHistory (checkObserver R cfg ario now status bot).1) <= 20)%nat /\
  (20 < notSelectedEpochsThreshold cfg ->
   List.filter isNotSelected (checkObserver R cfg ario now status bot).2 = []).
Proof.
  intros Hle.
  assert (Hbound :
    (length (observerSelectionHistory (checkObserver R cfg ario now status bot).1) <= 20)%nat).
  { destruct (checkObserver_selection R cfg ario now status bot) as (-> & _ & _).
    by apply selectionCalls_history_bound. }
  split; [exact Hbound|]. intros Hhigh.
  destruct (checkObserver_selection R cfg ario now status bot) as (Hhistory & -> & _).
  rewrite Hhistory in Hbound.
  destruct (epochDiffersFromLastCheck (lastObserverCheck bot) status) eqn:Hnew;
    [|by rewrite selectionCalls_same_epoch].
  destruct (selectionCalls_alert R cfg now (lastObserverCheck bot) status
              (observerSelectionHistory bot) ltac:(lia) Hnew) as (_ & _ & Hiff).
  destruct ((selectionCalls R cfg now (lastObserverCheck bot) status
               (observerSelectionHistory bot)).1.2) as [|call calls] eqn:Hcalls; [done|].
  assert (Hraised : call :: calls <> []) by done.
  apply Hiff in Hraised as [Hreached _]. lia.
Qed.

Lemma not_selected_threshold_above_cap_witness :
  (length (observerSelectionHistory
             (checkObserver integralRendering defaultConfig currentEpochOnly 1700000300000
                firstStatusOfEpoch121 checkedInEpoch120).1) <= 20)%nat /\
  (20 < notSelectedEpochsThreshold defaultConfig ->
   List.filter isNotSelected
     (checkObserver integralRendering defaultConfig currentEpochOnly 1700000300000
        firstStatusOfEpoch121 checkedInEpoch120).2 = []).
Proof.
  apply (not_selected_threshold_above_cap integralRendering defaultConfig currentEpochOnly
           1700000300000 firstStatusOfEpoch121 checkedInEpoch120).
  simpl. lia.
Defined.




(** The window after a cycle that sees the requests counter grow. *)
Lemma checkErrorRate_recorded R cfg now metrics pm history errors requests :
  arnsErrors metrics = Some errors ->
  httpRequestsTotal metrics = Some requests ->
  JS.orZero (prev_totalRequests pm) < requests ->
  Forall (fun sample => now - 600000 <= sample_timestamp sample)
    (checkErrorRate R cfg now metrics (Some pm) history).1 /\
  last (checkErrorRate R cfg now metrics (Some pm) history).1
  = Some {| sample_errors := Z.max (errors - JS.orZero (prev_errors pm)) 0;
            sample_requests := requests - JS.orZero (prev_totalRequests pm);
            sample_timestamp := now |}.
Proof.
  intros He Hr Hgrown.
  rewrite (checkErrorRate_window R cfg now metrics pm history errors requests He Hr).
  assert (Hlt : (0 <? requests - JS.orZero (prev_totalRequests pm)) = true) by lia.
  rewrite Hlt. split.
  - apply List.Forall_forall. intros sample Hin. apply filter_In in Hin as [_ Hin]. lia.
  - rewrite List.filter_app. cbn [List.filter sample_timestamp].
    assert (Hnow : (now - 10 * 60 * 1000 <=? now) = true) by lia.
    rewrite Hnow. apply last_snoc.
Qed.

(** X12. A cycle that sees the requests counter grow leaves a window in which
    every sample is at most ten minutes old and whose last sample is the one of
    the cycle; its request count is the growth of the counter and its error
    count the growth of the errors counter, or zero when that counter went back.
    An alert raised by the cycle carries the rate of that window. *)
Theorem error_rate_window_pruned R cfg now metrics pm history errors requests :
  arnsErrors metrics = Some errors ->
  httpRequestsTotal metrics = Some requests ->
  JS.orZero (prev_totalRequests pm) < requests ->
  Forall (fun sample => now - 600000 <= sample_timestamp sample)
    (checkErrorRate R cfg now metrics (Some pm) history).1 /\
  last (checkErrorRate R cfg now metrics (Some pm) history).1
  = Some {| sample_errors := Z.max (errors - JS.orZero (prev_errors pm)) 0;
            sample_requests := requests - JS.orZero (prev_totalRequests pm);
            sample_timestamp := now |} /\
  (forall call,
      In call (checkErrorRate R cfg now metrics (Some pm) history).2 ->
      exists details,
        call = CallPerformanceAlert error_rate details /\
        perf_current details
        = smoothedErrorRate
            (aggregate (checkErrorRate R cfg now metrics (Some pm) history).1)).
Proof.
  intros He Hr Hgrown.
  destruct (checkErrorRate_recorded R cfg now metrics pm history errors requests He Hr Hgrown)
    as [Hrecent Hlast].
  split; [exact Hrecent|]. split; [exact Hlast|].
  intros call Hin. apply checkErrorRate_calls in Hin as (additional & -> & _).
  by eexists.
Qed.

Lemma error_rate_window_pruned_witness :
  Forall (fun sample => 900000 - 600000 <= sample_timestamp sample)
    (checkErrorRate integralRendering defaultConfig 900000 (countersOnly 30 1300)
       (Some metricsBeforeReset) windowBeforeReset).1 /\
  last (checkErrorRate integralRendering defaultConfig 900000 (countersOnly 30 1300)
          (Some metricsBeforeReset) windowBeforeReset).1
  = Some {| sample_errors := Z.max (30 - JS.orZero (prev_errors metricsBeforeReset)) 0;
            sample_requests := 1300 - JS.orZero (prev_totalRequests metricsBeforeReset);
            sample_timestamp := 900000 |} /\
  (forall call,
      In call (checkErrorRate integralRendering defaultConfig 900000 (countersOnly 30 1300)
                 (Some metricsBeforeReset) windowBeforeReset).2 ->
      exists details,
        call = CallPerformanceAlert error_rate details /\
        perf_current details
        = smoothedErrorRate
            (aggregate (checkErrorRate integralRendering defaultConfig 900000
                          (countersOnly 30 1300) (Some metricsBeforeReset)
                          windowBeforeReset).1)).
Proof.
  apply (error_rate_window_pruned integralRendering defaultConfig 900000 (countersOnly 30 1300)
           metricsBeforeReset windowBeforeReset 30 1300); [reflexivity|reflexivity|].
  simpl. lia.
Defined.

(** X13. A cycle whose metrics lack both counters (a failed fetch) leaves the
    window as it is but overwrites the remembered counters with nothing; the
    cycle after it then measures its interval from zero, so the sample it
    records holds the whole values of the two counters. *)
Theorem error_rate_after_missing_counters R cfg now1 now2 metrics1 metrics2 bot errors requests :
  arnsErrors metrics1 = None ->
  httpRequestsTotal metrics1 = None ->
  arnsErrors metrics2 = Some errors ->
  httpRequestsTotal metrics2 = Some requests ->
  0 <= errors ->
  0 < requests ->
  errorRateHistory (checkResources R cfg now1 metrics1 bot).1 = errorRateHistory bot /\
  last (errorRateHistory
          (checkResources R cfg now2 metrics2 (checkResources R cfg now1 metrics1 bot).1).1)
  = Some {| sample_errors := errors; sample_requests := requests; sample_timestamp := now2 |}.
Proof.
  intros He1 Hr1 He2 Hr2 Herrors Hrequests.
  assert (Hfirst :
    errorRateHistory (checkResources R cfg now1 metrics1 bot).1 = errorRateHistory bot /\
    previousMetrics (checkResources R cfg now1 metrics1 bot).1
    = Some {| prev_timestamp := now1;
              prev_blockHeight := lastHeightImported metrics1;
              prev_arnsResolutions := arnsResolutions metrics1;
              prev_errors := None;
              prev_totalRequests := None |}).
  { unfold checkResources. destruct (checkCpu _ _ _ _) as [cpuHistory' cpuCalls].
    assert (Hsame : checkErrorRate R cfg now1 metrics1 (previousMetrics bot) (errorRateHistory bot)
                    = (errorRateHistory bot, [])).
    { unfold checkErrorRate. rewrite He1. by destruct (previousMetrics bot). }
    rewrite Hsame, He1, Hr1. done. }
  destruct Hfirst as [Hhistory Hprevious]. split; [exact Hhistory|].
  destruct (checkResources R cfg now1 metrics1 bot) as [bot1 calls1]. cbn [fst] in *.
  assert (Hsecond :
    errorRateHistory (checkResources R cfg now2 metrics2 bot1).1
    = (checkErrorRate R cfg now2 metrics2 (previousMetrics bot1) (errorRateHistory bot1)).1).
  { unfold checkResources. destruct (checkCpu _ _ _ _) as [cpuHistory' cpuCalls].
    by destruct (checkErrorRate _ _ _ _ _ _). }
  rewrite Hsecond, Hprevious.
  destruct (checkErrorRate_recorded R cfg now2 metrics2
              {| prev_timestamp := now1;
                 prev_blockHeight := lastHeightImported metrics1;
                 prev_arnsResolutions := arnsResolutions metrics1;
                 prev_errors := None;
                 prev_totalRequests := None |}
              (errorRateHistory bot1) errors requests He2 Hr2) as [_ Hlast];
    [simpl; lia|].
  rewrite Hlast. simpl. f_equal. f_equal; lia.
Qed.

Lemma error_rate_after_missing_counters_witness :
  errorRateHistory
    (checkResources integralRendering defaultConfig 60000 noMetrics newMonitoringBot).1
  = errorRateHistory newMonitoringBot /\
  last (errorRateHistory
          (checkResources integralRendering defaultConfig 120000 (countersOnly 18 1200)
             (checkResources integralRendering defaultConfig 60000 noMetrics
                newMonitoringBot).1).1)
  = Some {| sample_errors := 18; sample_requests := 1200; sample_timestamp := 120000 |}.
Proof.
  apply (error_rate_after_missing_counters integralRendering defaultConfig 60000 120000
           noMetrics (countersOnly 18 1200) newMonitoringBot 18 1200);
    try reflexivity; lia.
Defined.

(** * Properties of the health check *)

Lemma checkHealth_previous R threshold health previous :
  (checkHealth R threshold health previous).1
  = Some {| previous_core := isHealthy (health_core health);
            previous_observer := isHealthy (health_observer health) |}.
Proof. done. Qed.

Lemma checkHealth_service_alerts R threshold health previous :
  length (List.filter isServiceHealthAlert (checkHealth R threshold health previous).2)
  = (flips (option_map previous_core previous) [isHealthy (health_core health)]
     + flips (option_map previous_observer previous) [isHealthy (health_observer health)])%nat.
Proof.
  unfold checkHealth. cbn [snd]. rewrite !List.filter_app.
  assert (Hcore : forall calls,
    List.filter isServiceHealthAlert
      (if isHealthy (health_core health)
          && negb (Qle_bool (inject_Z (responseTime (health_core health))) threshold)
       then [CallResourceAlert latency (inject_Z (responseTime (health_core health))) threshold]
       else []) ++ calls = calls) by (intros; destruct (isHealthy (health_core health) && _); reflexivity).
  assert (Hobserver :
    List.filter isServiceHealthAlert
      (if isHealthy (health_observer health)
          && negb (Qle_bool (inject_Z (responseTime (health_observer health))) threshold)
       then [CallResourceAlert latency (inject_Z (responseTime (health_observer health)))
               threshold]
       else []) = []) by (destruct (isHealthy (health_observer health) && _); reflexivity).
  rewrite Hobserver, Hcore, app_nil_r.
  destruct previous as [[previousCore previousObserver]|]; [|done].
  rewrite List.filter_app. cbn [option_map previous_core previous_observer flips].
  rewrite length_app.
  destruct previousCore, previousObserver,
    (isHealthy (health_core health)), (isHealthy (health_observer health)); reflexivity.
Qed.

(** X14. Service alerts are raised on changes only: over consecutive health
    checks the number of "service_health" alerts is the number of times the core
    flag differs from the one of the check before plus the same number for the
    observer flag. The first check after the start has nothing to compare with
    and raises none, and a service that stays down raises no further alert. *)
Theorem service_alerts_count_transitions R threshold polls previous :
  length (List.filter isServiceHealthAlert (healthRuns R threshold polls previous).2)
  = (flips (option_map previous_core previous)
       (map (fun health => isHealthy (health_core health)) polls)
     + flips (option_map previous_observer previous)
         (map (fun health => isHealthy (health_observer health)) polls))%nat.
Proof.
  revert previous. induction polls as [|health rest IH]; intros previous; [done|].
  cbn [healthRuns map].
  pose proof (checkHealth_service_alerts R threshold health previous) as Hhere.
  pose proof (checkHealth_previous R threshold health previous) as Hprevious.
  destruct (checkHealth R threshold health previous) as [previous1 calls1].
  cbn [fst snd] in Hhere, Hprevious. subst previous1.
  specialize (IH (Some {| previous_core := isHealthy (health_core health);
                          previous_observer := isHealthy (health_observer health) |})).
  destruct (healthRuns R threshold rest _) as [previous2 calls2]. cbn [snd] in *.
  rewrite List.filter_app, length_app, IH, Hhere.
  cbn [option_map previous_core previous_observer flips]. lia.
Qed.

(** X15. The latency alerts of the two services share one cooldown key. When
    both services are up and slower than the threshold, a health check asks for
    two latency alerts, the core one first; dispatched within one cooldown window
    of each other, at most one of the two is sent. *)
Theorem latency_alert_shared_between_services R cfg threshold health previous t1 t2 bot :
  isHealthy (health_core health) = true ->
  isHealthy (health_observer health) = true ->
  (threshold < inject_Z (responseTime (health_core health)))%Q ->
  (threshold < inject_Z (responseTime (health_observer health)))%Q ->
  t1 <= t2 < t1 + alertCooldown cfg ->
  exists transitionCalls,
    (checkHealth R threshold health previous).2
    = transitionCalls
      ++ [CallResourceAlert latency (inject_Z (responseTime (health_core health))) threshold;
          CallResourceAlert latency (inject_Z (responseTime (health_observer health))) threshold]
    /\ Forall (fun call => isServiceHealthAlert call = true) transitionCalls
    /\ (length
          (dispatchAll R cfg
             [(t1, CallResourceAlert latency (inject_Z (responseTime (health_core health)))
                     threshold);
              (t2, CallResourceAlert latency (inject_Z (responseTime (health_observer health)))
                     threshold)] bot).2 <= 1)%nat.
Proof.
  intros Hcore Hobserver HcoreSlow HobserverSlow Htimes.
  unfold checkHealth. cbn [snd]. rewrite Hcore, Hobserver.
  apply Qle_bool_false in HcoreSlow, HobserverSlow.
  rewrite !HcoreSlow, !HobserverSlow. cbn [andb negb].
  eexists. split; [reflexivity|]. split.
  - destruct previous as [[previousCore previousObserver]|]; [|constructor].
    cbn [previous_core previous_observer].
    destruct previousCore, previousObserver; cbn; repeat constructor.
  - cbn [dispatchAll dispatch].
    destruct (sendResourceAlert R cfg t1 latency _ threshold bot) as [bot1 sent1] eqn:Hfirst.
    destruct (sendResourceAlert R cfg t2 latency _ threshold bot1) as [bot2 sent2] eqn:Hsecond.
    cbn [snd]. rewrite app_nil_r, length_app.
    unfold sendResourceAlert in Hfirst, Hsecond.
    destruct (t1 - lastAlert (alertKeyOfResource R latency threshold) bot <? alertCooldown cfg)
      eqn:Hcool.
    + injection Hfirst as <- <-. destruct (_ <? _) in Hsecond;
        injection Hsecond as <- <-; simpl; lia.
    + injection Hfirst as <- <-.
      rewrite lastAlert_setLastAlertTime in Hsecond.
      assert (Hwithin : (t2 - t1 <? alertCooldown cfg) = true) by lia.
      rewrite Hwithin in Hsecond. injection Hsecond as <- <-. simpl. lia.
Qed.

Lemma latency_alert_shared_between_services_witness :
  exists transitionCalls,
    (checkHealth integralRendering 1000 bothSlow None).2
    = transitionCalls
      ++ [CallResourceAlert latency (inject_Z (responseTime (health_core bothSlow))) 1000;
          CallResourceAlert latency (inject_Z (responseTime (health_observer bothSlow))) 1000]
    /\ Forall (fun call => isServiceHealthAlert call = true) transitionCalls
    /\ (length
          (dispatchAll integralRendering defaultConfig
             [(1700000000100%Z,
               CallResourceAlert latency (inject_Z (responseTime (health_core bothSlow))) 1000%Q);
              (1700000000200%Z,
               CallResourceAlert latency (inject_Z (responseTime (health_observer bothSlow)))
                 1000%Q)] newTelegramBot).2 <= 1)%nat.
Proof.
  apply (latency_alert_shared_between_services integralRendering defaultConfig 1000 bothSlow
           None 1700000000100 1700000000200 newTelegramBot);
    try reflexivity; vm_compute; split; congruence.
Defined.

(** * Properties of the certificate check *)

(** X16. The warning level in terms of the time left: with a certificate at
    hand, [checkCertificate] and [getWarningLevel] give "critical" when less than
    two days are left (or the certificate has expired), "warning" from two days
    to less than eight, "info" from eight days to less than thirty-one, and "ok"
    from thirty-one days on. *)
Theorem ssl_level_by_time_left now domain validFrom validTo issuerCN issuerO subjectCN
    serialNumber :
  JS.truthyString (Some domain) = true ->
  let cert := SSLMonitor.checkCertificate now (Some domain)
                (Certificate validFrom validTo issuerCN issuerO subjectCN serialNumber) in
  let level := SSLMonitor.getWarningLevel (cert_daysRemaining cert) in
  let day := 86400000 in
  cert_error cert = None /\
  (level = "critical" <-> validTo - now < 2 * day) /\
  (level = "warning" <-> 2 * day <= validTo - now < 8 * day) /\
  (level = "info" <-> 8 * day <= validTo - now < 31 * day) /\
  (level = "ok" <-> 31 * day <= validTo - now).
Proof.
  intros Hdomain. unfold SSLMonitor.checkCertificate. rewrite Hdomain. cbn -[Z.div Z.mul].
  change (1000 * 60 * 60 * 24) with 86400000.
  split; [done|].
  pose proof (Z.div_mod (validTo - now) 86400000 ltac:(lia)) as Hdiv.
  pose proof (Z.mod_pos_bound (validTo - now) 86400000 ltac:(lia)) as Hmod.
  unfold SSLMonitor.getWarningLevel.
  destruct ((validTo - now) / 86400000 <=? 1) eqn:E1;
    [repeat split; first [discriminate | intros; lia]|].
  destruct ((validTo - now) / 86400000 <=? 7) eqn:E7;
    [repeat split; first [discriminate | intros; lia]|].
  destruct ((validTo - now) / 86400000 <=? 30) eqn:E30;
    repeat split; first [discriminate | intros; lia].
Qed.

Lemma ssl_level_by_time_left_witness :
  let cert := SSLMonitor.checkCertificate 1700000000000 (Some "gateway.example")
                (Certificate 1690000000000 1700600000000 (Some "Example CA") None
                   (Some "gateway.example") None) in
  let level := SSLMonitor.getWarningLevel (cert_daysRemaining cert) in
  let day := 86400000 in
  cert_error cert = None /\
  (level = "critical" <-> 1700600000000 - 1700000000000 < 2 * day) /\
  (level = "warning" <-> 2 * day <= 1700600000000 - 1700000000000 < 8 * day) /\
  (level = "info" <-> 8 * day <= 1700600000000 - 1700000000000 < 31 * day) /\
  (level = "ok" <-> 31 * day <= 1700600000000 - 1700000000000).
Proof.
  apply (ssl_level_by_time_left 1700000000000 "gateway.example" 1690000000000 1700600000000
           (Some "Example CA") None (Some "gateway.example") None).
  reflexivity.
Defined.

Lemma getWarningLevel_cases days :
  SSLMonitor.getWarningLevel days = "critical" \/
  SSLMonitor.getWarningLevel days = "warning" \/
  SSLMonitor.getWarningLevel days = "info" \/
  SSLMonitor.getWarningLevel days = "ok".
Proof. unfold SSLMonitor.getWarningLevel. repeat case_match; auto. Qed.

(** One certificate check: the state afterwards is the condition seen, and an
    alert is raised exactly when that condition is not "ok" and differs from the
    state before. *)
Lemma checkSSL_step R toDate cert lastSSLWarning :
  (checkSSL R toDate cert lastSSLWarning).1 = sslCondition cert /\
  length (checkSSL R toDate cert lastSSLWarning).2
  = if decide (sslCondition cert <> None /\ sslCondition cert <> lastSSLWarning)
    then 1%nat else 0%nat.
Proof.
  assert (Hkey : forall (key : string) (sent : list AlertCall),
    length sent = 1%nat ->
    (if differsFrom lastSSLWarning key then (Some key, sent) else (lastSSLWarning, [])).1
    = Some key /\
    length (if differsFrom lastSSLWarning key
            then (Some key, sent) else (lastSSLWarning, [])).2
    = if decide (Some key <> None /\ Some key <> lastSSLWarning) then 1%nat else 0%nat).
  { intros key sent Hsent. unfold differsFrom.
    destruct lastSSLWarning as [lastKey|]; cbn [negb fst snd].
    - destruct (String.eqb lastKey key) eqn:E; cbn [negb fst snd length].
      + apply String.eqb_eq in E as ->. split; [done|].
        case_decide as Hcase; [|done]. destruct Hcase as [_ Hcase]. by destruct Hcase.
      + apply String.eqb_neq in E. split; [done|].
        case_decide as Hcase; [done|]. exfalso. apply Hcase. split; congruence.
    - split; [done|]. case_decide as Hcase; [done|]. exfalso. apply Hcase. split; congruence. }
  unfold checkSSL, sslCondition.
  destruct (JS.truthyString (cert_error cert)); [by apply Hkey|].
  destruct (getWarningLevel_cases (cert_daysRemaining cert)) as [-> | [-> | [-> | ->]]];
    cbn [String.eqb Ascii.eqb Bool.eqb andb].
  - by apply Hkey.
  - by apply Hkey.
  - by apply Hkey.
  - split; [done|]. cbn [snd length]. case_decide as Hcase; [|done].
    destruct Hcase as [Hcase _]. by destruct Hcase.
Qed.

(** X17. A condition of the certificate is reported once. After any check the
    remembered state is the condition that check saw (the error, the warning
    level, or nothing when more than 30 days are left), and a check raises one
    alert when its condition is not "ok" and differs from the remembered state,
    and none otherwise. So over consecutive checks that all see the same
    condition at most one alert is raised, by the first of them. *)
Theorem ssl_condition_reported_once R toDate :
  (forall cert lastSSLWarning,
      (checkSSL R toDate cert lastSSLWarning).1 = sslCondition cert /\
      length (checkSSL R toDate cert lastSSLWarning).2
      = if decide (sslCondition cert <> None /\ sslCondition cert <> lastSSLWarning)
        then 1%nat else 0%nat) /\
  (forall cert certs lastSSLWarning,
      Forall (fun other => sslCondition other = sslCondition cert) certs ->
      (sslRuns R toDate (cert :: certs) lastSSLWarning).2
      = (checkSSL R toDate cert lastSSLWarning).2).
Proof.
  split; [apply checkSSL_step|].
  intros cert certs lastSSLWarning Hsame.
  cbn [sslRuns].
  destruct (checkSSL_step R toDate cert lastSSLWarning) as [Hstate _].
  destruct (checkSSL R toDate cert lastSSLWarning) as [warning1 calls1].
  cbn [fst snd] in *. subst warning1.
  assert (Hquiet : forall certs',
             Forall (fun other => sslCondition other = sslCondition cert) certs' ->
             sslRuns R toDate certs' (sslCondition cert) = (sslCondition cert, [])).
  { induction certs' as [|other rest IH]; intros Hall; [done|].
    apply Forall_cons in Hall as [Hother Hall]. cbn [sslRuns].
    destruct (checkSSL_step R toDate other (sslCondition cert)) as [Hstate' Hcount].
    destruct (checkSSL R toDate other (sslCondition cert)) as [warning' calls'].
    cbn [fst snd] in *. subst warning'. rewrite Hother, (IH Hall).
    rewrite Hother in Hcount.
    case_decide as Hcase; [destruct Hcase as [_ Hcase]; by destruct Hcase|].
    by destruct calls'. }
  rewrite (Hquiet certs Hsame). by rewrite app_nil_r.
Qed.

(** * Properties of the container check *)

Section ContainerLoop.

Import ContainerMonitor.

Variable now : Z.
Variable initialized : bool.

(** On containers with distinct names every container is compared with the
    state stored before the call, and afterwards the map holds the state of each
    of them. *)
Lemma detectLoop_distinct currentStates states changes :
  NoDup (map state_name currentStates) ->
  (detectLoop now initialized currentStates (states, changes)).2
  = changes
    ++ flat_map (fun current => detectChange now initialized (states !! state_name current) current)
         currentStates /\
  (forall current, In current currentStates ->
     (detectLoop now initialized currentStates (states, changes)).1 !! state_name current = Some current) /\
  (forall name, ~ In name (map state_name currentStates) ->
     (detectLoop now initialized currentStates (states, changes)).1 !! name = states !! name).
Proof.
  revert states changes.
  induction currentStates as [|first rest IH]; intros states changes Hdistinct.
  - cbn. rewrite app_nil_r. split; [done|]. split; [by intros ? []|done].
  - cbn [map] in Hdistinct. apply NoDup_cons in Hdistinct as [Hfresh Hdistinct].
    rewrite list_elem_of_In in Hfresh.
    unfold detectLoop in *. cbn [fold_left fst snd].
    destruct (IH (<[state_name first := first]> states)
                (changes ++ detectChange now initialized (states !! state_name first) first)
                Hdistinct) as (Hchanges & Hstored & Hother).
    split; [|split].
    + rewrite Hchanges. cbn [flat_map]. rewrite <- app_assoc. f_equal. f_equal.
      rewrite !flat_map_concat_map. f_equal. apply map_ext_in. intros current Hin.
      rewrite lookup_insert_ne; [done|]. intros Heq. apply Hfresh.
      rewrite Heq. by apply in_map.
    + intros current [<-|Hin]; [|by apply Hstored].
      rewrite Hother by done. by rewrite lookup_insert_eq.
    + intros name Hnot. cbn [map] in Hnot.
      rewrite Hother by (intros Hin; apply Hnot; by right).
      rewrite lookup_insert_ne; [done|]. intros Heq. apply Hnot. by left.
Qed.

End ContainerLoop.

Lemma detectChanges_distinct now currentStates monitor :
  NoDup (map ContainerMonitor.state_name currentStates) ->
  (ContainerMonitor.detectChanges now currentStates monitor).2
  = flat_map
      (fun current =>
         ContainerMonitor.detectChange now (ContainerMonitor.isInitialized monitor)
           (ContainerMonitor.previousStates monitor !! ContainerMonitor.state_name current)
           current)
      currentStates /\
  ContainerMonitor.isInitialized (ContainerMonitor.detectChanges now currentStates monitor).1
  = true /\
  forall current, In current currentStates ->
    ContainerMonitor.previousStates (ContainerMonitor.detectChanges now currentStates monitor).1
      !! ContainerMonitor.state_name current = Some current.
Proof.
  intros Hdistinct.
  destruct (detectLoop_distinct now (ContainerMonitor.isInitialized monitor) currentStates
              (ContainerMonitor.previousStates monitor) [] Hdistinct) as (Hchanges & Hstored & _).
  unfold ContainerMonitor.detectChanges.
  destruct (ContainerMonitor.detectLoop _ _ currentStates _) as [states changes].
  cbn [fst snd] in *. done.
Qed.



Lemma containerAlert_critical R change :
  isCriticalAlert (containerAlert R change)
  = bool_decide (ContainerMonitor.stateChange_type change = ContainerMonitor.crashed).
Proof.
  unfold containerAlert. by destruct (ContainerMonitor.stateChange_type change).
Qed.

Lemma critical_alerts_nonempty R changes :
  List.filter isCriticalAlert (map (containerAlert R) changes) <> [] <->
  exists change,
    In change changes /\
    ContainerMonitor.stateChange_type change = ContainerMonitor.crashed.
Proof.
  induction changes as [|change rest IH]; [split; [done|by intros (? & [] & _)]|].
  cbn [map List.filter]. rewrite containerAlert_critical.
  destruct (bool_decide_reflect
              (ContainerMonitor.stateChange_type change = ContainerMonitor.crashed))
    as [Hcrashed|Hother].
  - split; [|done]. intros _. exists change. split; [by left|done].
  - rewrite IH. split.
    + intros (change' & Hin & Htype). exists change'. split; [by right|done].
    + intros (change' & [<-|Hin] & Htype); [done|]. by exists change'.
Qed.

Lemma determineChangeType_crashed previousStatus currentStatus exitCode :
  ContainerMonitor.determineChangeType previousStatus currentStatus exitCode
  = ContainerMonitor.crashed <->
  previousStatus = ContainerMonitor.running /\
  (currentStatus = ContainerMonitor.exited \/ currentStatus = ContainerMonitor.dead) /\
  exitCode <> Some 0.
Proof.
  unfold ContainerMonitor.determineChangeType.
  destruct (bool_decide_reflect (exitCode = Some 0)) as [Hcode|Hcode];
    destruct previousStatus, currentStatus; cbn; split; try done;
    try (intros (? & [?|?] & ?); done); try (intros _; auto).
Qed.

Lemma detectChange_crashed now initialized stored current :
  (exists change,
      In change (ContainerMonitor.detectChange now initialized stored current) /\
      ContainerMonitor.stateChange_type change = ContainerMonitor.crashed) <->
  exists previous,
    stored = Some previous /\
    ContainerMonitor.state_status previous = ContainerMonitor.running /\
    (ContainerMonitor.state_status current = ContainerMonitor.exited \/
     ContainerMonitor.state_status current = ContainerMonitor.dead) /\
    ContainerMonitor.state_exitCode current <> Some 0.
Proof.
  unfold ContainerMonitor.detectChange. destruct stored as [previous|].
  - destruct (bool_decide_reflect
                (ContainerMonitor.state_status previous = ContainerMonitor.state_status current))
      as [Hsame|Hdiffers]; cbn [negb].
    + split.
      * intros (change & Hin & Htype). destruct (_ && _); [|by destruct Hin].
        destruct Hin as [<-|[]]. discriminate.
      * intros (previous' & Heq & Hrunning & Hgone & _). injection Heq as <-.
        rewrite Hrunning in Hsame. destruct Hgone as [Hgone|Hgone]; congruence.
    + split.
      * intros (change & [<-|[]] & Htype). cbn in Htype.
        apply determineChangeType_crashed in Htype. by exists previous.
      * intros (previous' & Heq & Hcrashed). injection Heq as <-.
        eexists. split; [by left|]. cbn. by apply determineChangeType_crashed.
  - split; [|by intros (? & ? & _)].
    intros (change & Hin & Htype). destruct (_ && _); [|by destruct Hin].
    destruct Hin as [<-|[]]. discriminate.
Qed.

(** X19. The critical container alert stands for a crash: polling containers
    with distinct names raises a critical alert exactly when one of them was
    stored as running and is now exited or dead with an exit code other than 0. *)
Theorem critical_container_alert_iff R now currentStates monitor :
  NoDup (map ContainerMonitor.state_name currentStates) ->
  List.filter isCriticalAlert (checkContainers R now currentStates monitor).2 <> [] <->
  exists current previous,
    In current currentStates /\
    ContainerMonitor.previousStates monitor !! ContainerMonitor.state_name current
    = Some previous /\
    ContainerMonitor.state_status previous = ContainerMonitor.running /\
    (ContainerMonitor.state_status current = ContainerMonitor.exited \/
     ContainerMonitor.state_status current = ContainerMonitor.dead) /\
    ContainerMonitor.state_exitCode current <> Some 0.
Proof.
  intros Hdistinct.
  destruct (detectChanges_distinct now currentStates monitor Hdistinct) as (Hchanges & _).
  unfold checkContainers.
  destruct (ContainerMonitor.detectChanges now currentStates monitor) as [monitor' changes].
  cbn [fst snd] in *. subst changes.
  rewrite critical_alerts_nonempty. split.
  - intros (change & Hin & Htype). apply in_flat_map in Hin as (current & Hin & Hchange).
    destruct (proj1 (detectChange_crashed now (ContainerMonitor.isInitialized monitor)
                       (ContainerMonitor.previousStates monitor
                          !! ContainerMonitor.state_name current) current))
      as (previous & Hrest); [by exists change|].
    by exists current, previous.
  - intros (current & previous & Hin & Hrest).
    destruct (proj2 (detectChange_crashed now (ContainerMonitor.isInitialized monitor)
                       (ContainerMonitor.previousStates monitor
                          !! ContainerMonitor.state_name current) current))
      as (change & Hchange & Htype); [by exists previous|].
    exists change. split; [|done]. apply in_flat_map. by exists current.
Qed.

Lemma critical_container_alert_iff_witness :
  List.filter isCriticalAlert
    (checkContainers integralRendering 1700000030000 coreCrashed
       (ContainerMonitor.detectChanges 1700000000000 allRunning ContainerMonitor.newMonitor).1).2
  <> [].
Proof.
  assert (Hdistinct : NoDup (map ContainerMonitor.state_name coreCrashed)).
  { apply NoDup_ListNoDup. vm_compute. repeat constructor; simpl; intuition discriminate. }
  apply (proj2 (critical_container_alert_iff integralRendering 1700000030000 coreCrashed
                  (ContainerMonitor.detectChanges 1700000000000 allRunning
                     ContainerMonitor.newMonitor).1 Hdistinct)).
  eexists _, _. split; [left; reflexivity|].
  split; [vm_compute; reflexivity|].
  split; [reflexivity|]. split; [by left|]. vm_compute. discriminate.
Defined.

(** * Properties of the ArNS resolution check *)

Lemma swapItems_permutation {T} (i j : nat) (items : list T) :
  (i < length items)%nat -> (j < length items)%nat ->
  exists swapped, swapItems i j items = Some swapped /\ swapped ≡ₚ items.
Proof.
  intros Hi Hj. unfold swapItems.
  destruct (lookup_lt_is_Some_2 items i Hi) as [atI HatI].
  destruct (lookup_lt_is_Some_2 items j Hj) as [atJ HatJ].
  rewrite HatI, HatJ. eexists. split; [reflexivity|].
  apply Permutation_inj. split; [by rewrite !length_insert|].
  exists (fun k => if decide (k = i) then j else if decide (k = j) then i else k).
  split.
  - intros k1 k2 Heq. repeat case_decide; congruence.
  - intros k. destruct (decide (k = j)) as [->|Hkj].
    + rewrite list_lookup_insert_eq by (by rewrite length_insert).
      repeat case_decide; subst; congruence.
    + rewrite list_lookup_insert_ne by done.
      destruct (decide (k = i)) as [->|Hki].
      * rewrite list_lookup_insert_eq by done. repeat case_decide; subst; congruence.
      * rewrite list_lookup_insert_ne by done. repeat case_decide; subst; congruence.
Qed.

Lemma drawn_index_in_range (r : Q) (i : nat) :
  (0 <= r)%Q -> (r < 1)%Q ->
  (Z.to_nat (Qfloor (r * inject_Z (Z.of_nat i + 1))) <= i)%nat.
Proof.
  intros Hlow Hhigh.
  assert (Hpos : (0 < inject_Z (Z.of_nat i + 1))%Q).
  { change 0%Q with (inject_Z 0). rewrite <- Zlt_Qlt. lia. }
  assert (Hupper : (r * inject_Z (Z.of_nat i + 1) < inject_Z (Z.of_nat i + 1))%Q).
  { rewrite <- (Qmult_1_l (inject_Z (Z.of_nat i + 1))) at 2.
    by apply Qmult_lt_compat_r. }
  assert (Hfloor : (Qfloor (r * inject_Z (Z.of_nat i + 1)) < Z.of_nat i + 1)%Z).
  { rewrite Zlt_Qlt. eapply Qle_lt_trans; [apply Qfloor_le|exact Hupper]. }
  lia.
Qed.

Lemma shuffleFrom_permutation {T} (random : nat -> Q) (call i : nat) (items : list T) :
  (forall k, (0 <= random k)%Q /\ (random k < 1)%Q) ->
  (i < length items)%nat \/ i = 0%nat ->
  exists shuffled, shuffleFrom random call i items = Some shuffled /\ shuffled ≡ₚ items.
Proof.
  intros Hdraws. revert call items.
  induction i as [|next IH]; intros call items Hrange; [by exists items|].
  destruct Hrange as [Hrange|?]; [|done].
  cbn [shuffleFrom].
  destruct (Hdraws call) as [Hlow Hhigh].
  pose proof (drawn_index_in_range (random call) (S next) Hlow Hhigh) as Hj.
  destruct (swapItems_permutation (S next)
              (Z.to_nat (Qfloor (random call * inject_Z (Z.of_nat (S next) + 1)))) items)
    as (swapped & -> & Hswapped); [done|lia|].
  destruct (IH (S call) swapped) as (shuffled & -> & Hshuffled).
  { left. rewrite Hswapped. lia. }
  exists shuffled. split; [done|]. by rewrite Hshuffled.
Qed.

(** X20. [shuffleInPlace] only reorders: whatever values in [0, 1) the random
    source gives, the loop completes and the array afterwards is a permutation
    of the array before. *)
Theorem shuffle_is_permutation {T} (random : nat -> Q) (items : list T) :
  (forall k, (0 <= random k)%Q /\ (random k < 1)%Q) ->
  exists shuffled, shuffleInPlace random items = Some shuffled /\ shuffled ≡ₚ items.
Proof.
  intros Hdraws. apply shuffleFrom_permutation; [done|].
  destruct items; [by right|]. left. simpl. lia.
Qed.

Lemma shuffle_is_permutation_witness :
  exists shuffled,
    shuffleInPlace alwaysHalf ["ardrive"; "arns"; "permaweb"] = Some shuffled /\
    shuffled ≡ₚ ["ardrive"; "arns"; "permaweb"].
Proof.
  apply (shuffle_is_permutation alwaysHalf ["ardrive"; "arns"; "permaweb"]).
  intros k. by split.
Defined.

(** X21. The names a run tests: for names that are distinct (they are the keys
    of a map) the run tests [min(10, n)] of the [n] names, all of them names of
    the snapshot and no name twice; with at most 10 names every name is
    tested. *)
Theorem arns_selection_sample (random : nat -> Q) (allNames : list string) :
  (forall k, (0 <= random k)%Q /\ (random k < 1)%Q) ->
  NoDup allNames ->
  exists selection,
    selectNames random allNames = Some selection /\
    length selection = Nat.min 10 (length allNames) /\
    NoDup selection /\
    (forall name, name ∈ selection -> name ∈ allNames) /\
    ((length allNames <= 10)%nat -> selection ≡ₚ allNames).
Proof.
  intros Hdraws Hdistinct.
  destruct (shuffleFrom_permutation random 0 (length allNames - 1) allNames Hdraws)
    as (shuffled & Hshuffle & Hperm).
  { destruct allNames; [by right|]. left. simpl. lia. }
  change (shuffleFrom random 0 (length allNames - 1) allNames)
    with (shuffleInPlace random allNames) in Hshuffle.
  unfold selectNames. rewrite Hshuffle. eexists. split; [reflexivity|].
  assert (Hlength : length shuffled = length allNames) by (by rewrite Hperm).
  assert (Hsublist : take (Nat.min sampleSize (length shuffled)) shuffled `sublist_of` shuffled)
    by apply sublist_take.
  split; [|split; [|split]].
  - rewrite length_take, Hlength. unfold sampleSize. lia.
  - eapply sublist_NoDup; [|exact Hsublist]. by rewrite Hperm.
  - intros name Hin. rewrite <- Hperm. by eapply elem_of_sublist.
  - intros Hfew. rewrite take_ge; [done|]. unfold sampleSize. lia.
Qed.

Lemma arns_selection_sample_witness :
  exists selection,
    selectNames alwaysHalf ["ardrive"; "arns"; "permaweb"] = Some selection /\
    length selection = Nat.min 10 (length ["ardrive"; "arns"; "permaweb"]) /\
    NoDup selection /\
    (forall name, name ∈ selection -> name ∈ ["ardrive"; "arns"; "permaweb"]) /\
    ((length ["ardrive"; "arns"; "permaweb"] <= 10)%nat ->
     selection ≡ₚ ["ardrive"; "arns"; "permaweb"]).
Proof.
  apply (arns_selection_sample alwaysHalf ["ardrive"; "arns"; "permaweb"]).
  - intros k. by split.
  - apply NoDup_ListNoDup. repeat constructor; simpl; intuition discriminate.
Defined.

Lemma resolutionFailures_resolves R gatewayHost name response :
  resolutionFailures R gatewayHost name response = [] <-> resolves response = true.
Proof.
  unfold resolutionFailures, resolves. destruct response as [status headers|message];
    [|split; discriminate].
  destruct (status =? 200); cbn [negb andb]; [|split; discriminate].
  unfold requiredHeaders. cbn [List.filter forallb].
  destruct (JS.truthyString (headers !! "x-arns-process-id")),
    (JS.truthyString (headers !! "x-arns-resolved-id")),
    (JS.truthyString (headers !! "x-arns-ttl-seconds")); cbn; split; done.
Qed.

(** X22. A run of the resolution check that is enabled raises one warning, and
    only one, when at least one of the names it tests does not answer with status
    200 and the three ArNS headers; when all do, or the feature is off, or there
    is no name, it raises nothing. *)
Theorem arns_resolution_alert_iff R enabled random gatewayHost allNames head selection :
  selectNames random allNames = Some selection ->
  exists calls,
    runCheck R enabled random gatewayHost allNames head = Some calls /\
    (length calls <= 1)%nat /\
    (calls <> [] <->
     enabled = true /\ exists name, name ∈ selection /\ resolves (head name) = false).
Proof.
  intros Hselection. unfold runCheck.
  destruct enabled; cbn [negb];
    [|exists []; split; [done|]; split; [simpl; lia|]; split; [done|by intros [? _]]].
  destruct (length allNames =? 0)%nat eqn:Hempty.
  { apply Nat.eqb_eq in Hempty. destruct allNames; [|done].
    cbn in Hselection. injection Hselection as <-.
    exists []. split; [done|]. split; [simpl; lia|]. split; [done|].
    intros (_ & name & Hin & _). by apply elem_of_nil in Hin. }
  rewrite Hselection. clear Hselection Hempty.
  assert (Hfailures :
    flat_map (fun name => resolutionFailures R gatewayHost name (head name)) selection <> [] <->
    exists name, name ∈ selection /\ resolves (head name) = false).
  { induction selection as [|first rest IH].
    - split; [done|]. intros (name & Hin & _). by apply elem_of_nil in Hin.
    - cbn [flat_map].
      destruct (resolutionFailures R gatewayHost first (head first)) eqn:Hfirst.
      + apply resolutionFailures_resolves in Hfirst. cbn [app]. rewrite IH. split.
        * intros (name & Hin & Hbad). exists name. split; [by right|done].
        * intros (name & Hin & Hbad). apply elem_of_cons in Hin as [->|Hin]; [congruence|].
          by exists name.
      + split; [|done]. intros _. exists first. split; [by left|].
        destruct (resolves (head first)) eqn:Hresolves; [|done].
        apply (resolutionFailures_resolves R gatewayHost first) in Hresolves. congruence. }
  destruct (flat_map _ selection) as [|failure failures]; cbn [length Nat.ltb Nat.leb].
  - exists []. split; [done|]. split; [simpl; lia|]. split; [done|].
    intros [_ Hbad]. by apply Hfailures in Hbad.
  - eexists. split; [reflexivity|]. split; [simpl; lia|]. split; [|done].
    intros _. split; [done|]. by apply Hfailures.
Qed.

Lemma arns_resolution_alert_iff_witness :
  exists calls,
    runCheck integralRendering true alwaysHalf "gateway.example" ["ardrive"; "arns"; "permaweb"]
      (fun _ => HeadAnswered 404 ∅) = Some calls /\
    (length calls <= 1)%nat /\
    (calls <> [] <->
     true = true /\
     exists name, name ∈ ["ardrive"; "permaweb"; "arns"]
                  /\ resolves ((fun _ => HeadAnswered 404 ∅) name) = false).
Proof.
  apply (arns_resolution_alert_iff integralRendering true alwaysHalf "gateway.example"
           ["ardrive"; "arns"; "permaweb"] (fun _ => HeadAnswered 404 ∅)
           ["ardrive"; "permaweb"; "arns"]).
  vm_compute. reflexivity.
Defined.

(** * Properties of the metrics *)









(** * Properties of the version check *)

Lemma compareFrom_antisymmetric steps i parts1 parts2 :
  VersionChecker.compareFrom steps i parts2 parts1
  = - VersionChecker.compareFrom steps i parts1 parts2.
Proof.
  revert i. induction steps as [|steps IH]; intros i; [done|].
  cbn [VersionChecker.compareFrom].
  destruct (JS.orZero (parts1 !! i) <? JS.orZero (parts2 !! i)) eqn:E1,
    (JS.orZero (parts2 !! i) <? JS.orZero (parts1 !! i)) eqn:E2;
    first [done | lia | apply IH].
Qed.

(** X24. The order on versions never contradicts itself: comparing two versions
    the other way round gives the opposite result, so a version compares equal
    to itself, and the result is -1, 0 or 1. Hence a gateway that runs the latest
    release is not reported as outdated, and the update alert is not raised. *)
Theorem version_order_antisymmetric :
  (forall v1 v2,
      VersionChecker.compareVersions v2 v1 = - VersionChecker.compareVersions v1 v2) /\
  (forall v, VersionChecker.compareVersions v v = 0) /\
  (forall v1 v2, -1 <= VersionChecker.compareVersions v1 v2 <= 1) /\
  (forall release,
      checkVersion
        (VersionChecker.checkVersion (Some (VersionChecker.release_version release))
           (Some release)) = []).
Proof.
  assert (Hopposite : forall v1 v2,
    VersionChecker.compareVersions v2 v1 = - VersionChecker.compareVersions v1 v2).
  { intros v1 v2. unfold VersionChecker.compareVersions.
    destruct (VersionChecker.rMatch (VersionChecker.normalize v1)) as [digits1|],
      (VersionChecker.rMatch (VersionChecker.normalize v2)) as [digits2|];
      cbv zeta; rewrite ?(Nat.max_comm (length (map _ (splitDots (VersionChecker.clean v2)))));
      try apply compareFrom_antisymmetric.
    destruct (parseInt digits1) as [num1|], (parseInt digits2) as [num2|]; try done.
    destruct (num1 <? num2) eqn:E1, (num2 <? num1) eqn:E2; first [done | lia]. }
  assert (Hself : forall v, VersionChecker.compareVersions v v = 0).
  { intros v. specialize (Hopposite v v). lia. }
  split; [exact Hopposite|]. split; [exact Hself|]. split.
  - intros v1 v2. unfold VersionChecker.compareVersions.
    assert (Hloop : forall steps i parts1 parts2,
              -1 <= VersionChecker.compareFrom steps i parts1 parts2 <= 1).
    { induction steps as [|steps IH]; intros i parts1 parts2; cbn; [lia|].
      repeat case_match; try lia. apply IH. }
    repeat case_match; try lia; apply Hloop.
  - intros release. unfold VersionChecker.checkVersion, checkVersion.
    destruct (JS.truthyString _); cbn [negb]; [|done].
    cbn [VersionChecker.isOutdated default]. by rewrite Hself.
Qed.

(** * Properties of the epoch figures *)

Lemma clampPercentage_range x : (0 <= clampPercentage x)%Q /\ (clampPercentage x <= 100)%Q.
Proof.
  unfold clampPercentage.
  destruct (Qle_bool x 0) eqn:Elow.
  - change (Qle_bool 0 100) with true. cbv iota. split; [apply Qle_refl|done].
  - assert (Hpos : (0 < x)%Q) by (by apply Qle_bool_false).
    destruct (Qle_bool x 100) eqn:Ehigh.
    + apply Qle_bool_iff in Ehigh. split; [by apply Qlt_le_weak|done].
    + split; done.
Qed.

Lemma mathRound_range (x : Q) (n : Z) :
  (0 <= x)%Q -> (x <= inject_Z n)%Q -> 0 <= mathRound x <= n.
Proof.
  intros Hlow Hhigh. unfold mathRound. split.
  - change 0 with (Qfloor 0). apply Qfloor_resp_le. clear Hhigh. lra.
  - assert (Hlt : (x + (1 # 2) < inject_Z (n + 1))%Q).
    { rewrite inject_Z_plus. change (inject_Z 1) with 1%Q.
      set (bound := inject_Z n) in *. clearbody bound. lra. }
    assert (Hfloor : Qfloor (x + (1 # 2)) < n + 1).
    { rewrite Zlt_Qlt. eapply Qle_lt_trans; [apply Qfloor_le|exact Hlt]. }
    lia.
Qed.

(** X25. The progress bar of the observer status always has its 20 cells: for
    any clock reading and any epoch bounds the progress is a percentage between 0
    and 100 and the bar is made of [filled] full cells followed by [20 - filled]
    empty ones. [generateProgressBar] itself fails on a percentage of 102.5 or
    more, which would ask for a negative number of empty cells. *)
Theorem progress_bar_twenty_cells :
  (forall now epochStartTimestamp epochEndTimestamp,
      exists filled : nat,
        (filled <= 20)%nat /\
        generateProgressBar (epochProgress now epochStartTimestamp epochEndTimestamp) 20
        = Some (repeatString "█" filled +:+ repeatString "░" (20 - filled))) /\
  (forall percentage, (1025 # 10 <= percentage)%Q -> generateProgressBar percentage 20 = None).
Proof.
  split.
  - intros now epochStart epochEnd.
    assert (Hrange : (0 <= epochProgress now epochStart epochEnd)%Q
                     /\ (epochProgress now epochStart epochEnd <= 100)%Q).
    { unfold epochProgress. destruct (0 <? epochEnd - epochStart);
        [apply clampPercentage_range|by split]. }
    destruct Hrange as [Hlow Hhigh].
    set (progress := epochProgress now epochStart epochEnd) in *. clearbody progress.
    unfold generateProgressBar.
    assert (Hscaled : (progress / 100 * inject_Z 20 == progress * (1 # 5))%Q)
      by (change (inject_Z 20) with 20%Q; field).
    destruct (mathRound_range (progress / 100 * inject_Z 20) 20) as [Hfilled0 Hfilled20].
    { rewrite Hscaled. lra. }
    { rewrite Hscaled. change (inject_Z 20) with 20%Q. lra. }
    set (filled := mathRound (progress / 100 * inject_Z 20)) in *. clearbody filled.
    exists (Z.to_nat filled). split; [lia|].
    unfold stringRepeat.
    assert (Hfilled : (filled <? 0) = false) by lia.
    assert (Hempty : (20 - filled <? 0) = false) by lia.
    rewrite Hfilled, Hempty. do 3 f_equal. lia.
  - intros percentage Hhigh. unfold generateProgressBar.
    assert (Hfilled : 21 <= mathRound (percentage / 100 * inject_Z 20)).
    { unfold mathRound. change 21 with (Qfloor 21). apply Qfloor_resp_le.
      assert (Hscaled : (percentage / 100 * inject_Z 20 == percentage * (1 # 5))%Q)
        by (change (inject_Z 20) with 20%Q; field).
      rewrite Hscaled. lra. }
    unfold stringRepeat.
    assert (Hnot : (mathRound (percentage / 100 * inject_Z 20) <? 0) = false) by lia.
    assert (Hempty : (20 - mathRound (percentage / 100 * inject_Z 20) <? 0) = true) by lia.
    by rewrite Hnot, Hempty.
Qed.



(** * Properties of the ArNS purchases *)

Lemma JSMap_set_keys {V} key (value : V) entries :
  JSMap.keys (JSMap.set key value entries)
  = if JSMap.has key entries then JSMap.keys entries else JSMap.keys entries ++ [key].
Proof.
  induction entries as [|[k v] rest IH]; [done|].
  cbn [JSMap.set JSMap.has existsb fst]. fold (JSMap.has key rest).
  destruct (String.eqb k key) eqn:E; [done|].
  cbn [JSMap.keys map fst orb]. fold (JSMap.keys (JSMap.set key value rest)).
  fold (JSMap.keys rest). rewrite IH. by destruct (JSMap.has key rest).
Qed.

Lemma JSMap_has_keys {V} key (entries : list (string * V)) :
  JSMap.has key entries = true <-> key ∈ JSMap.keys entries.
Proof.
  induction entries as [|[k v] rest IH].
  - split; [done|]. intros Hin. by apply elem_of_nil in Hin.
  - cbn [JSMap.has existsb JSMap.keys map fst]. fold (JSMap.has key rest).
    fold (JSMap.keys rest). rewrite orb_true_iff, IH, elem_of_cons, String.eqb_eq.
    split; intros [?|?]; auto.
Qed.

Lemma buildArnsSnapshot_keys allRecords : NoDup (JSMap.keys (buildArnsSnapshot allRecords)).
Proof.
  unfold buildArnsSnapshot.
  assert (Hfold : forall snapshot : list (string * ArnsRecord),
    NoDup (JSMap.keys snapshot) ->
    NoDup (JSMap.keys
             (fold_left
                (fun snapshot record =>
                   if JS.truthyString (recordKey record)
                   then JSMap.set (default "" (recordKey record)) record snapshot
                   else snapshot)
                allRecords snapshot))).
  { induction allRecords as [|record rest IH]; intros snapshot Hdistinct; [done|].
    cbn [fold_left]. apply IH. destruct (JS.truthyString (recordKey record)); [|done].
    rewrite JSMap_set_keys.
    destruct (JSMap.has (default "" (recordKey record)) snapshot) eqn:Hhas; [done|].
    apply NoDup_app. split; [done|]. split; [|apply NoDup_singleton].
    intros name Hin Hnew. apply list_elem_of_singleton in Hnew as ->.
    apply JSMap_has_keys in Hin. congruence. }
  apply Hfold. constructor.
Qed.

Lemma arns_changes_names (last current : list (string * ArnsRecord)) :
  map arns_name
    (flat_map (fun entry => if negb (JSMap.has entry.1 last)
                            then [arnsPurchase entry.1 entry.2] else [])
       current)
  = List.filter (fun name => negb (JSMap.has name last)) (JSMap.keys current).
Proof.
  induction current as [|[name record] rest IH]; [done|].
  cbn [flat_map JSMap.keys map fst snd List.filter]. rewrite map_app.
  fold (JSMap.keys rest). rewrite IH. by destruct (JSMap.has name last).
Qed.

(** X27. A purchase is reported once. After the first check, and as long as the
    snapshot of the check before was not empty, the names reported are the names
    of the registry that the snapshot before did not have, each once and in the
    order of the registry; the first check after a start reports nothing even if
    a snapshot was loaded from the database, a check that follows an empty
    snapshot reports nothing, and a check that reads the records of the check
    before it reports nothing. *)
Theorem arns_purchases_reported_once allRecords monitor :
  (arnsInitialized monitor = false \/ lastArnsSnapshot monitor = [] ->
   (checkArnsChanges true (Some allRecords) monitor).2 = []) /\
  (arnsInitialized monitor = true -> lastArnsSnapshot monitor <> [] ->
   map arns_name (checkArnsChanges true (Some allRecords) monitor).2
   = List.filter (fun name => negb (JSMap.has name (lastArnsSnapshot monitor)))
       (JSMap.keys (buildArnsSnapshot allRecords)) /\
   NoDup (map arns_name (checkArnsChanges true (Some allRecords) monitor).2)) /\
  (checkArnsChanges true (Some allRecords)
     (checkArnsChanges true (Some allRecords) monitor).1).2 = [].
Proof.
  split; [|split].
  - unfold checkArnsChanges. cbn [negb snd]. intros [->| ->]; [by rewrite andb_false_r|done].
  - intros Hinitialized Hlast. unfold checkArnsChanges. cbn [negb snd].
    rewrite Hinitialized.
    assert (Hhad : (0 <? length (lastArnsSnapshot monitor))%nat = true)
      by (destruct (lastArnsSnapshot monitor); [done|reflexivity]).
    rewrite Hhad. cbn [andb]. rewrite arns_changes_names. split; [done|].
    apply NoDup_ListNoDup, List.NoDup_filter, NoDup_ListNoDup, buildArnsSnapshot_keys.
  - unfold checkArnsChanges. cbn [negb fst snd lastArnsSnapshot arnsInitialized].
    destruct (_ && _); [|done].
    assert (Hquiet : forall current kept : list (string * ArnsRecord),
      (forall entry, entry ∈ kept -> entry.1 ∈ JSMap.keys current) ->
      flat_map (fun entry => if negb (JSMap.has entry.1 current)
                             then [arnsPurchase entry.1 entry.2] else [])
        kept = []).
    { intros current kept. induction kept as [|entry rest IH]; intros Hkept; [done|].
      cbn [flat_map]. rewrite IH by (intros other Hin; apply Hkept; by right).
      assert (Hhas : JSMap.has entry.1 current = true)
        by (apply JSMap_has_keys, Hkept; by left).
      by rewrite Hhas. }
    apply Hquiet. intros entry Hin. unfold JSMap.keys.
    by apply (list_elem_of_fmap_2 fst).
Qed.
